(** * The MCP connection engine: session state machine and dispatch

    A shallow embedding of the server package (MCPServer, Connection and
    their handlers) and of the wire types of [pkg/mcp/types.go], followed by
    theorems about the handshake gate, provider dispatch, aggregate listing
    and the per-connection message loop.

    Conventions.
    - Go's [interface{}] values that the engine only passes around (ids,
      params) are elements of an abstract type [Value]; [nil] is [None].
    - [map[string]interface{}] values are elements of an abstract [Object].
    - A Go [(x, error)] result is a sum: [inl text] is a non-nil error whose
      [Error()] is [text], [inr x] is a nil error.
    - Tool and resource providers are external collaborators with their own
      state (a database, the network). Their state is the abstract [World],
      threaded explicitly; every call on a provider is also recorded in a
      call log so that "provider k was (not) called" can be stated.
    - The package [encoding/json] is not part of the repository: the
      [json.Marshal]/[json.Unmarshal] round trip that turns [message.Params]
      into a typed request is a parameter of the development.
    - The mutexes are not modelled: one connection is served by one
      goroutine, and the model is the sequential behaviour of that
      goroutine. Log output is not modelled. *)

From Stdlib Require Import String List ZArith Bool Arith Lia DecimalString.
Import ListNotations.
Local Open Scope string_scope.
Local Open Scope list_scope.
Set Implicit Arguments.

(** ** Constants of [pkg/mcp/types.go] *)

Definition ProtocolVersion : string := "2024-11-05".

Definition MethodInitialize : string := "initialize".
Definition MethodInitialized : string := "initialized".
Definition MethodListTools : string := "tools/list".
Definition MethodCallTool : string := "tools/call".
Definition MethodListResources : string := "resources/list".
Definition MethodReadResource : string := "resources/read".

Definition ErrorCodeParseError : Z := (-32700)%Z.
Definition ErrorCodeInvalidRequest : Z := (-32600)%Z.
Definition ErrorCodeMethodNotFound : Z := (-32601)%Z.
Definition ErrorCodeInvalidParams : Z := (-32602)%Z.
Definition ErrorCodeInternalError : Z := (-32603)%Z.

(** ** Capability and identity records (no opaque payload) *)

Record RootsCapability := { RootsCapability_ListChanged : bool }.
Record PromptsCapability := { PromptsCapability_ListChanged : bool }.
Record ResourcesCapability :=
  { ResourcesCapability_Subscribe : bool;
    ResourcesCapability_ListChanged : bool }.
Record ToolsCapability := { ToolsCapability_ListChanged : bool }.
Record ClientInfo := { ClientInfo_Name : string; ClientInfo_Version : string }.
Record ServerInfo := { ServerInfo_Name : string; ServerInfo_Version : string }.

Record Content :=
  { Content_Type : string; Content_Text : string; Content_Data : string }.
Record ToolCallResponse :=
  { ToolCallResponse_Content : list Content;
    ToolCallResponse_IsError : bool }.
Record ResourceContent :=
  { ResourceContent_URI : string;
    ResourceContent_MimeType : string;
    ResourceContent_Text : string;
    ResourceContent_Blob : string }.
Record ResourceReadResponse :=
  { ResourceReadResponse_Contents : list ResourceContent }.
Record ResourceReadRequest := { ResourceReadRequest_URI : string }.

(** The error object of a response. [Data] is an [interface{}]: in an
    inbound message it is whatever JSON the peer sent, in a response built
    by the engine it is [nil] or the text of a Go error, hence the
    parameter. *)
Record Error (D : Type) :=
  { Error_Code : Z; Error_Message : string; Error_Data : option D }.
Arguments Error_Code {D} _.
Arguments Error_Message {D} _.
Arguments Error_Data {D} _.

Section Engine.

Variable Value : Type.
Variable Object : Type.
Variable World : Type.

(** *** Wire types with opaque payload *)

Record Message :=
  { Message_JSONRPC : string;
    Message_ID : option Value;
    Message_Method : string;
    Message_Params : option Value;
    Message_Result : option Value;
    Message_Error : option (Error Value) }.

Record ClientCapabilities :=
  { ClientCapabilities_Roots : option RootsCapability;
    ClientCapabilities_Sampling : option unit;
    ClientCapabilities_Experimental : option Object }.

Record ServerCapabilities :=
  { ServerCapabilities_Logging : option unit;
    ServerCapabilities_Prompts : option PromptsCapability;
    ServerCapabilities_Resources : option ResourcesCapability;
    ServerCapabilities_Tools : option ToolsCapability;
    ServerCapabilities_Experimental : option Object }.

Record InitializeRequest :=
  { InitializeRequest_ProtocolVersion : string;
    InitializeRequest_Capabilities : ClientCapabilities;
    InitializeRequest_ClientInfo : ClientInfo;
    InitializeRequest_Meta : option Object }.

Record InitializeResponse :=
  { InitializeResponse_ProtocolVersion : string;
    InitializeResponse_Capabilities : ServerCapabilities;
    InitializeResponse_ServerInfo : ServerInfo;
    InitializeResponse_Meta : option Object }.

Record Tool :=
  { Tool_Name : string;
    Tool_Description : string;
    Tool_InputSchema : option Object }.

Record ToolCallRequest :=
  { ToolCallRequest_Name : string;
    ToolCallRequest_Arguments : option Object }.

Record Resource :=
  { Resource_URI : string;
    Resource_Name : string;
    Resource_Description : string;
    Resource_MimeType : string;
    Resource_Meta : option Object }.

(** What the engine stores in [Response.Result] (an [interface{}]): one
    constructor per dynamic type the handlers put there. The two pointer
    results may be nil pointers. *)
Inductive ResultValue :=
| ResultInitialize (r : InitializeResponse)
| ResultTools (allTools : list Tool)
| ResultToolCall (r : option ToolCallResponse)
| ResultResources (allResources : list Resource)
| ResultResourceRead (r : option ResourceReadResponse).

Record Response :=
  { Response_JSONRPC : string;
    Response_ID : option Value;
    Response_Result : option ResultValue;
    Response_Error : option (Error string) }.

Definition NewResponse (id : option Value) (result : ResultValue) : Response :=
  {| Response_JSONRPC := "2.0";
     Response_ID := id;
     Response_Result := Some result;
     Response_Error := None |}.

Definition NewErrorResponse (id : option Value) (code : Z) (message : string)
    (data : option string) : Response :=
  {| Response_JSONRPC := "2.0";
     Response_ID := id;
     Response_Result := None;
     Response_Error :=
       Some {| Error_Code := code; Error_Message := message; Error_Data := data |} |}.

(** *** Provider interfaces *)

Record ToolProvider :=
  { ListTools : World -> (string + list Tool) * World;
    CallTool : ToolCallRequest -> World ->
               (string + option ToolCallResponse) * World }.

Record ResourceProvider :=
  { ListResources : World -> (string + list Resource) * World;
    ReadResource : string -> World ->
                   (string + option ResourceReadResponse) * World }.

(** One entry of the call log; [i] is the position of the provider in
    its registry slice. *)
Inductive Call :=
| CallListTools (i : nat)
| CallCallTool (i : nat) (request : ToolCallRequest)
| CallListResources (i : nat)
| CallReadResource (i : nat) (uri : string).

(** *** Effects: provider state and call log *)

Definition Eff (A : Type) : Type := World -> A * World * list Call.

Definition ret {A} (a : A) : Eff A := fun w => (a, w, []).

Definition bind {A B} (m : Eff A) (k : A -> Eff B) : Eff B :=
  fun w =>
    let '(a, w1, l1) := m w in
    let '(b, w2, l2) := k a w1 in
    (b, w2, l1 ++ l2).

Notation "x <- m ;; k" := (bind m (fun x => k))
  (at level 100, m at next level, right associativity).
Notation "' p <- m ;; k" := (bind m (fun x => let p := x in k))
  (at level 100, p pattern, m at next level, right associativity).

Definition listTools (i : nat) (provider : ToolProvider)
  : Eff (string + list Tool) :=
  fun w => let (r, w1) := ListTools provider w in (r, w1, [CallListTools i]).

Definition callTool (i : nat) (provider : ToolProvider) (req : ToolCallRequest)
  : Eff (string + option ToolCallResponse) :=
  fun w => let (r, w1) := CallTool provider req w in (r, w1, [CallCallTool i req]).

Definition listResources (i : nat) (provider : ResourceProvider)
  : Eff (string + list Resource) :=
  fun w => let (r, w1) := ListResources provider w in (r, w1, [CallListResources i]).

Definition readResource (i : nat) (provider : ResourceProvider) (uri : string)
  : Eff (string + option ResourceReadResponse) :=
  fun w => let (r, w1) := ReadResource provider uri w in (r, w1, [CallReadResource i uri]).

(** *** Server and connection *)

Record MCPServer :=
  { toolProviders : list ToolProvider;
    resourceProviders : list ResourceProvider }.

Record Connection :=
  { Connection_server : MCPServer;
    Connection_initialized : bool }.

Definition NewMCPServer : MCPServer :=
  {| toolProviders := []; resourceProviders := [] |}.

Definition RegisterToolProvider (s : MCPServer) (provider : ToolProvider)
  : MCPServer :=
  {| toolProviders := toolProviders s ++ [provider];
     resourceProviders := resourceProviders s |}.

Definition RegisterResourceProvider (s : MCPServer) (provider : ResourceProvider)
  : MCPServer :=
  {| toolProviders := toolProviders s;
     resourceProviders := resourceProviders s ++ [provider] |}.

(** *** The JSON round trip of [message.Params]

    [paramsBytes, _ := json.Marshal(message.Params)] followed by
    [json.Unmarshal(paramsBytes, &req)] on a zero [req]: the error text,
    or the decoded request. *)
Variable unmarshalInitialize : Value -> string + InitializeRequest.
Variable unmarshalToolCall : Value -> string + ToolCallRequest.
Variable unmarshalResourceRead : Value -> string + ResourceReadRequest.

(** *** Handlers *)

Definition handleInitialize (c : Connection) (message : Message) : Response :=
  let decoded :=
    match Message_Params message with
    | Some params =>
        match unmarshalInitialize params with
        | inl err => Some err
        | inr _ => None
        end
    | None => None
    end in
  match decoded with
  | Some err =>
      NewErrorResponse (Message_ID message) ErrorCodeInvalidParams
        "Invalid initialize parameters" (Some err)
  | None =>
      let response :=
        {| InitializeResponse_ProtocolVersion := ProtocolVersion;
           InitializeResponse_Capabilities :=
             {| ServerCapabilities_Logging := None;
                ServerCapabilities_Prompts := None;
                ServerCapabilities_Resources :=
                  Some {| ResourcesCapability_Subscribe := false;
                          ResourcesCapability_ListChanged := false |};
                ServerCapabilities_Tools :=
                  Some {| ToolsCapability_ListChanged := false |};
                ServerCapabilities_Experimental := None |};
           InitializeResponse_ServerInfo :=
             {| ServerInfo_Name := "MCP Server Go";
                ServerInfo_Version := "1.0.0" |};
           InitializeResponse_Meta := None |} in
      NewResponse (Message_ID message) (ResultInitialize response)
  end.

(** The loop of [handleListTools]: [allTools] is the accumulator, the
    first failing provider ends the loop with its error text. *)
Fixpoint listToolsLoop (i : nat) (providers : list ToolProvider)
    (allTools : list Tool) : Eff (string + list Tool) :=
  match providers with
  | [] => ret (inr allTools)
  | provider :: rest =>
      r <- listTools i provider ;;
      match r with
      | inl err => ret (inl err)
      | inr tools => listToolsLoop (S i) rest (allTools ++ tools)
      end
  end.

Definition handleListTools (c : Connection) (message : Message) : Eff Response :=
  if negb (Connection_initialized c) then
    ret (NewErrorResponse (Message_ID message) ErrorCodeInvalidRequest
           "Client not initialized" None)
  else
    r <- listToolsLoop 0 (toolProviders (Connection_server c)) [] ;;
    match r with
    | inl err =>
        ret (NewErrorResponse (Message_ID message) ErrorCodeInternalError
               "Failed to list tools" (Some err))
    | inr allTools =>
        ret (NewResponse (Message_ID message) (ResultTools allTools))
    end.

(** The inner loop of [handleCallTool] over one provider's listing: the
    first tool with the requested name makes the provider's [CallTool]
    run, and the handler returns. [None]: no tool matched. *)
Fixpoint callToolInner (i : nat) (provider : ToolProvider)
    (req : ToolCallRequest) (tools : list Tool)
  : Eff (option (string + option ToolCallResponse)) :=
  match tools with
  | [] => ret None
  | tool :: rest =>
      if Tool_Name tool =? ToolCallRequest_Name req then
        r <- callTool i provider req ;; ret (Some r)
      else callToolInner i provider req rest
  end.

(** The outer loop: a provider whose listing fails is skipped. *)
Fixpoint callToolLoop (i : nat) (providers : list ToolProvider)
    (req : ToolCallRequest)
  : Eff (option (string + option ToolCallResponse)) :=
  match providers with
  | [] => ret None
  | provider :: rest =>
      r <- listTools i provider ;;
      match r with
      | inl _ => callToolLoop (S i) rest req
      | inr tools =>
          found <- callToolInner i provider req tools ;;
          match found with
          | Some out => ret (Some out)
          | None => callToolLoop (S i) rest req
          end
      end
  end.

Definition handleCallTool (c : Connection) (message : Message) : Eff Response :=
  if negb (Connection_initialized c) then
    ret (NewErrorResponse (Message_ID message) ErrorCodeInvalidRequest
           "Client not initialized" None)
  else
    let zero := {| ToolCallRequest_Name := ""; ToolCallRequest_Arguments := None |} in
    let decoded :=
      match Message_Params message with
      | Some params => unmarshalToolCall params
      | None => inr zero
      end in
    match decoded with
    | inl err =>
        ret (NewErrorResponse (Message_ID message) ErrorCodeInvalidParams
               "Invalid tool call parameters" (Some err))
    | inr req =>
        found <- callToolLoop 0 (toolProviders (Connection_server c)) req ;;
        match found with
        | Some (inl err) =>
            ret (NewErrorResponse (Message_ID message) ErrorCodeInternalError
                   "Tool execution failed" (Some err))
        | Some (inr response) =>
            ret (NewResponse (Message_ID message) (ResultToolCall response))
        | None =>
            ret (NewErrorResponse (Message_ID message) ErrorCodeMethodNotFound
                   ("Tool not found: " ++ ToolCallRequest_Name req)%string None)
        end
    end.

Fixpoint listResourcesLoop (i : nat) (providers : list ResourceProvider)
    (allResources : list Resource) : Eff (string + list Resource) :=
  match providers with
  | [] => ret (inr allResources)
  | provider :: rest =>
      r <- listResources i provider ;;
      match r with
      | inl err => ret (inl err)
      | inr resources => listResourcesLoop (S i) rest (allResources ++ resources)
      end
  end.

Definition handleListResources (c : Connection) (message : Message)
  : Eff Response :=
  if negb (Connection_initialized c) then
    ret (NewErrorResponse (Message_ID message) ErrorCodeInvalidRequest
           "Client not initialized" None)
  else
    r <- listResourcesLoop 0 (resourceProviders (Connection_server c)) [] ;;
    match r with
    | inl err =>
        ret (NewErrorResponse (Message_ID message) ErrorCodeInternalError
               "Failed to list resources" (Some err))
    | inr allResources =>
        ret (NewResponse (Message_ID message) (ResultResources allResources))
    end.

Fixpoint readResourceInner (i : nat) (provider : ResourceProvider)
    (uri : string) (resources : list Resource)
  : Eff (option (string + option ResourceReadResponse)) :=
  match resources with
  | [] => ret None
  | resource :: rest =>
      if Resource_URI resource =? uri then
        r <- readResource i provider uri ;; ret (Some r)
      else readResourceInner i provider uri rest
  end.

Fixpoint readResourceLoop (i : nat) (providers : list ResourceProvider)
    (uri : string)
  : Eff (option (string + option ResourceReadResponse)) :=
  match providers with
  | [] => ret None
  | provider :: rest =>
      r <- listResources i provider ;;
      match r with
      | inl _ => readResourceLoop (S i) rest uri
      | inr resources =>
          found <- readResourceInner i provider uri resources ;;
          match found with
          | Some out => ret (Some out)
          | None => readResourceLoop (S i) rest uri
          end
      end
  end.

Definition handleReadResource (c : Connection) (message : Message)
  : Eff Response :=
  if negb (Connection_initialized c) then
    ret (NewErrorResponse (Message_ID message) ErrorCodeInvalidRequest
           "Client not initialized" None)
  else
    let zero := {| ResourceReadRequest_URI := "" |} in
    let decoded :=
      match Message_Params message with
      | Some params => unmarshalResourceRead params
      | None => inr zero
      end in
    match decoded with
    | inl err =>
        ret (NewErrorResponse (Message_ID message) ErrorCodeInvalidParams
               "Invalid resource read parameters" (Some err))
    | inr req =>
        found <- readResourceLoop 0 (resourceProviders (Connection_server c))
                   (ResourceReadRequest_URI req) ;;
        match found with
        | Some (inl err) =>
            ret (NewErrorResponse (Message_ID message) ErrorCodeInternalError
                   "Resource read failed" (Some err))
        | Some (inr response) =>
            ret (NewResponse (Message_ID message) (ResultResourceRead response))
        | None =>
            ret (NewErrorResponse (Message_ID message) ErrorCodeMethodNotFound
                   ("Resource not found: " ++ ResourceReadRequest_URI req)%string None)
        end
    end.

Definition handleRequest (c : Connection) (message : Message) : Eff Response :=
  let method := Message_Method message in
  if method =? MethodInitialize then ret (handleInitialize c message)
  else if method =? MethodListTools then handleListTools c message
  else if method =? MethodCallTool then handleCallTool c message
  else if method =? MethodListResources then handleListResources c message
  else if method =? MethodReadResource then handleReadResource c message
  else ret (NewErrorResponse (Message_ID message) ErrorCodeMethodNotFound
              ("Method not found: " ++ method)%string None).

(** [handleNotification] mutates [c.initialized]; the updated connection
    is returned. *)
Definition handleNotification (c : Connection) (message : Message) : Connection :=
  if Message_Method message =? MethodInitialized then
    {| Connection_server := Connection_server c;
       Connection_initialized := true |}
  else c.

Definition isNil {A} (x : option A) : bool :=
  match x with None => true | Some _ => false end.

(** [handleMessage] returns the response to write ([None] for Go's nil)
    and the connection as the handler left it. *)
Definition handleMessage (c : Connection) (message : Message)
  : Eff (option Response * Connection) :=
  if negb (Message_Method message =? "") && negb (isNil (Message_ID message)) then
    r <- handleRequest c message ;; ret (Some r, c)
  else if negb (Message_Method message =? "") && isNil (Message_ID message) then
    ret (None, handleNotification c message)
  else
    ret (Some (NewErrorResponse (Message_ID message) ErrorCodeInvalidRequest
                 "Invalid message format" None), c).

(** *** The connection loop of [handleWebSocket]

    What [conn.ReadJSON] returns, call after call: a decoded message, or
    an error (a frame that does not decode into [mcp.Message], or the
    peer going away). When the list is exhausted the peer has closed the
    connection and [ReadJSON] returns an error as well. *)
Inductive ReadResult :=
| ReadOk (message : Message)
| ReadErr.

(** The server's end of the websocket. [Socket_writable] is the number
    of [WriteJSON] calls that will still succeed before the link breaks
    ([None]: it never breaks). *)
Record Socket :=
  { Socket_written : list Response;
    Socket_writable : option nat;
    Socket_closed : bool }.

(** [conn.WriteJSON(response)]: [true] stands for a nil error. *)
Definition WriteJSON (conn : Socket) (response : Response) : bool * Socket :=
  match Socket_writable conn with
  | Some 0 => (false, conn)
  | Some (S n) =>
      (true, {| Socket_written := Socket_written conn ++ [response];
                Socket_writable := Some n;
                Socket_closed := Socket_closed conn |})
  | None =>
      (true, {| Socket_written := Socket_written conn ++ [response];
                Socket_writable := None;
                Socket_closed := Socket_closed conn |})
  end.

Definition Close (conn : Socket) : Socket :=
  {| Socket_written := Socket_written conn;
     Socket_writable := Socket_writable conn;
     Socket_closed := true |}.

(** The [for] loop: read, handle, write the response if there is one;
    a read error or a write error leaves the loop. *)
Fixpoint messageLoop (incoming : list ReadResult) (connection : Connection)
    (conn : Socket) : Eff (Connection * Socket) :=
  match incoming with
  | [] => ret (connection, conn)
  | ReadErr :: _ => ret (connection, conn)
  | ReadOk message :: rest =>
      ' (response, connection1) <- handleMessage connection message ;;
      match response with
      | None => messageLoop rest connection1 conn
      | Some r =>
          let (ok, conn1) := WriteJSON conn r in
          if ok then messageLoop rest connection1 conn1
          else ret (connection1, conn1)
      end
  end.

(** [upgraded] is [None] when [upgrader.Upgrade] fails. The deferred
    function closes the socket when the loop is left. The server's table
    of live connections (entry added before the loop, deleted after it)
    is not modelled. *)
Definition handleWebSocket (s : MCPServer) (upgraded : option Socket)
    (incoming : list ReadResult) : Eff (option (Connection * Socket)) :=
  match upgraded with
  | None => ret None
  | Some conn =>
      let connection :=
        {| Connection_server := s; Connection_initialized := false |} in
      ' (connection1, conn1) <- messageLoop incoming connection conn ;;
      ret (Some (connection1, Close conn1))
  end.

(** *** Vocabulary of the statements *)

(** Classification of a decoded envelope, as [handleMessage] tests it. *)
Definition isRequest (message : Message) : bool :=
  negb (Message_Method message =? "") && negb (isNil (Message_ID message)).

Definition isNotification (message : Message) : bool :=
  negb (Message_Method message =? "") && isNil (Message_ID message).

(** The server built by registering the tool providers [tps] and then the
    resource providers [rps], one call each, in list order. *)
Definition registerAll (tps : list ToolProvider) (rps : list ResourceProvider)
  : MCPServer :=
  fold_left RegisterResourceProvider rps
    (fold_left RegisterToolProvider tps NewMCPServer).

(** A listing result contains a tool called [name]. A failed listing
    contains nothing. *)
Definition offers (name : string) (r : string + list Tool) : Prop :=
  match r with
  | inl _ => False
  | inr tools => In name (map Tool_Name tools)
  end.

(** [Skipped name ps w w1]: asked for their listings one after the other
    from world [w], none of the providers [ps] offers [name], and the
    world is [w1] afterwards. *)
Inductive Skipped (name : string) : list ToolProvider -> World -> World -> Prop :=
| Skipped_nil : forall w, Skipped name [] w w
| Skipped_cons : forall p ps w r w1 w2,
    ListTools p w = (r, w1) ->
    ~ offers name r ->
    Skipped name ps w1 w2 ->
    Skipped name (p :: ps) w w2.

(** [Listed ps w ls w1]: asked one after the other from world [w], every
    provider of [ps] returns a listing; [ls] are the listings in order. *)
Inductive Listed : list ToolProvider -> World -> list (list Tool) -> World -> Prop :=
| Listed_nil : forall w, Listed [] w [] w
| Listed_cons : forall p ps w tools w1 ls w2,
    ListTools p w = (inr tools, w1) ->
    Listed ps w1 ls w2 ->
    Listed (p :: ps) w (tools :: ls) w2.

(** The log of [ListTools] calls on providers [from .. from + n - 1]. *)
Definition listCalls (from n : nat) : list Call :=
  map CallListTools (seq from n).

(** The messages [ReadJSON] delivers before its first error. *)
Fixpoint readable (incoming : list ReadResult) : list Message :=
  match incoming with
  | ReadOk message :: rest => message :: readable rest
  | _ => []
  end.

(** The ordering property as the specification words it: the i-th
    response written answers (carries the id of) the i-th Request read. *)
Definition answersRequestsInOrder (incoming : list ReadResult)
    (written : list Response) : Prop :=
  forall i r, nth_error written i = Some r ->
    exists message,
      nth_error (filter isRequest (readable incoming)) i = Some message /\
      Response_ID r = Message_ID message.

(** The ordering property the loop has: the i-th response written answers
    the i-th envelope read that is not a Notification. *)
Definition answersNonNotificationsInOrder (incoming : list ReadResult)
    (written : list Response) : Prop :=
  forall i r, nth_error written i = Some r ->
    exists message,
      nth_error (filter (fun m => negb (isNotification m)) (readable incoming)) i
        = Some message /\
      Response_ID r = Message_ID message.

(** [answersAndContinues c message w r w1 log]: handling [message] in
    session state [c] and world [w] yields the response [r], leaves the
    session state as it was, the world as [w1] and the provider calls
    [log]; and in the loop, as long as the socket can be written, [r] is
    written and the following frames are handled in that same state. *)
Definition answersAndContinues (c : Connection) (message : Message) (w : World)
    (r : Response) (w1 : World) (log : list Call) : Prop :=
  handleMessage c message w = (Some r, c, w1, log) /\
  forall rest conn,
    Socket_writable conn <> Some 0 ->
    messageLoop (ReadOk message :: rest) c conn w =
      (_ <- handleMessage c message ;;
       messageLoop rest c (snd (WriteJSON conn r))) w /\
    Socket_written (snd (WriteJSON conn r)) = Socket_written conn ++ [r].

End Engine.

Arguments NewResponse {Value Object} id result.
Arguments NewErrorResponse {Value Object} id code message data.
Arguments CallListTools {Object} i.
Arguments CallListResources {Object} i.
Arguments CallReadResource {Object} i uri.
Arguments ret {Object World A} a _.
Arguments ReadErr {Value}.
Arguments NewMCPServer {Object World}.
Arguments listCalls {Object} from n.
Arguments ResultToolCall {Object} r.
Arguments ResultResourceRead {Object} r.
Arguments Listed_nil {Object World} w.
Arguments Skipped_nil {Object World} name w.

(** ** Further vocabulary: resources, registrations, responses *)

Section EngineVocabulary.

Context {Value Object World : Type}.

(** The handshake Notification: method "initialized" and no id. *)
Definition isHandshake (message : Message Value) : bool :=
  isNotification message && (Message_Method message =? MethodInitialized).

(** A listing result contains a resource with this URI. *)
Definition offersURI (uri : string) (r : string + list (Resource Object)) : Prop :=
  match r with
  | inl _ => False
  | inr resources => In uri (map (@Resource_URI Object) resources)
  end.

(** The resource side of [Skipped]: none of the providers offers [uri]. *)
Inductive SkippedResources (uri : string)
  : list (ResourceProvider Object World) -> World -> World -> Prop :=
| SkippedResources_nil : forall w, SkippedResources uri [] w w
| SkippedResources_cons : forall p ps w r w1 w2,
    ListResources p w = (r, w1) ->
    ~ offersURI uri r ->
    SkippedResources uri ps w1 w2 ->
    SkippedResources uri (p :: ps) w w2.

(** The resource side of [Listed]: every provider returns a listing. *)
Inductive ListedResources
  : list (ResourceProvider Object World) -> World ->
    list (list (Resource Object)) -> World -> Prop :=
| ListedResources_nil : forall w, ListedResources [] w [] w
| ListedResources_cons : forall p ps w resources w1 ls w2,
    ListResources p w = (inr resources, w1) ->
    ListedResources ps w1 ls w2 ->
    ListedResources (p :: ps) w (resources :: ls) w2.

(** The log of [ListResources] calls on providers [from .. from + n - 1]. *)
Definition listResourceCalls (from n : nat) : list (Call Object) :=
  map CallListResources (seq from n).

(** One call of a registration method. *)
Inductive Registration :=
| RegisterTool (provider : ToolProvider Object World)
| RegisterResource (provider : ResourceProvider Object World).

Definition register (s : MCPServer Object World) (r : Registration)
  : MCPServer Object World :=
  match r with
  | RegisterTool provider => RegisterToolProvider s provider
  | RegisterResource provider => RegisterResourceProvider s provider
  end.

Fixpoint toolsOf (rs : list Registration) : list (ToolProvider Object World) :=
  match rs with
  | [] => []
  | RegisterTool provider :: rest => provider :: toolsOf rest
  | RegisterResource _ :: rest => toolsOf rest
  end.

Fixpoint resourcesOf (rs : list Registration) : list (ResourceProvider Object World) :=
  match rs with
  | [] => []
  | RegisterTool _ :: rest => resourcesOf rest
  | RegisterResource provider :: rest => provider :: resourcesOf rest
  end.

(** A response as a JSON-RPC client expects it: version "2.0", the id of
    the envelope it answers, and either a result and no error, or no
    result and an error whose code is one of the four the server uses. *)
Definition wellFormedFor (message : Message Value) (r : Response Value Object) : Prop :=
  Response_JSONRPC r = "2.0" /\
  Response_ID r = Message_ID message /\
  ((exists result, Response_Result r = Some result /\ Response_Error r = None) \/
   (exists e, Response_Result r = None /\ Response_Error r = Some e /\
              In (Error_Code e) [-32600; -32601; -32602; -32603]%Z)).

(** An index of the provider slice occurs in a call log entry. *)
Definition callIndex (call : Call Object) : nat :=
  match call with
  | CallListTools i => i
  | CallCallTool i _ => i
  | CallListResources i => i
  | CallReadResource i _ => i
  end.

End EngineVocabulary.

Arguments listResourceCalls {Object} from n.

(** ** A model of [encoding/json] for the three request types

    Used to run the engine on concrete envelopes. JSON numbers are
    integers here. The params of an envelope are a Go value that the
    handlers marshal again before decoding it: [json.Marshal] writes the
    keys of a map in increasing byte order, so the members of an object
    are visited sorted by name, at every level. Member names are matched
    against the field tags after ASCII case folding; the first type error
    is the one reported, the remaining members still being decoded, and an
    object decoded into a map field is merged into the map the field
    already holds, as [json.Unmarshal] does. Member names are taken to be
    distinct (they are the keys of a Go map). *)
Module GoJSON.

#[warnings="-register-all"] Inductive json :=
| JNull
| JBool (b : bool)
| JNumber (n : Z)
| JString (s : string)
| JArray (elems : list json)
| JObject (members : list (string * json)).

Definition object : Type := list (string * json).

(** The members of an object in the order [json.Marshal] writes them. *)
Fixpoint insertMember (member : string * json) (sorted : list (string * json))
    : list (string * json) :=
  match sorted with
  | [] => [member]
  | m :: rest =>
      if String.leb (fst member) (fst m) then member :: sorted
      else m :: insertMember member rest
  end.

Definition sortMembers (members : list (string * json)) : list (string * json) :=
  fold_right insertMember [] members.

(** [m[key] = v] on a map kept as an association list. *)
Fixpoint assign (key : string) (v : json) (m : object) : object :=
  match m with
  | [] => [(key, v)]
  | (k, old) :: rest =>
      if k =? key then (key, v) :: rest else (k, old) :: assign key v rest
  end.

Definition kindOf (v : json) : string :=
  match v with
  | JNull => "null"
  | JBool _ => "bool"
  | JNumber _ => "number"
  | JString _ => "string"
  | JArray _ => "array"
  | JObject _ => "object"
  end.

Definition foldAscii (c : Ascii.ascii) : Ascii.ascii :=
  let n := Ascii.nat_of_ascii c in
  if ((65 <=? n) && (n <=? 90))%nat then Ascii.ascii_of_nat (n + 32) else c.

Fixpoint foldName (s : string) : string :=
  match s with
  | EmptyString => EmptyString
  | String c rest => String (foldAscii c) (foldName rest)
  end.

Definition valueError (v : json) (goType : string) : string :=
  ("json: cannot unmarshal " ++ kindOf v ++ " into Go value of type " ++ goType)%string.

Definition fieldError (v : json) (field goType : string) : string :=
  ("json: cannot unmarshal " ++ kindOf v ++ " into Go struct field " ++ field
     ++ " of type " ++ goType)%string.

(** The first error wins. *)
Definition saveError (saved : option string) (e : string) : option string :=
  match saved with
  | Some _ => saved
  | None => Some e
  end.

Definition decodeString (field : string) (v : json) (old : string)
    (saved : option string) : string * option string :=
  match v with
  | JString s => (s, saved)
  | JNull => (old, saved)
  | _ => (old, saveError saved (fieldError v field "string"))
  end.

Definition decodeBool (field : string) (v : json) (old : bool)
    (saved : option string) : bool * option string :=
  match v with
  | JBool b => (b, saved)
  | JNull => (old, saved)
  | _ => (old, saveError saved (fieldError v field "bool"))
  end.

Definition decodeMap (field : string) (v : json) (old : option object)
    (saved : option string) : option object * option string :=
  match v with
  | JObject members =>
      let start := match old with Some m => m | None => [] end in
      (Some (fold_left (fun m member => assign (fst member) (snd member) m)
               (sortMembers members) start), saved)
  | JNull => (None, saved)
  | _ => (old, saveError saved (fieldError v field "map[string]interface {}"))
  end.

Definition zeroToolCallRequest : ToolCallRequest object :=
  {| ToolCallRequest_Name := ""; ToolCallRequest_Arguments := None |}.

Definition setToolCallMember (acc : ToolCallRequest object * option string)
    (member : string * json) : ToolCallRequest object * option string :=
  let (req, saved) := acc in
  let (key, v) := member in
  if foldName key =? "name" then
    let (name, saved1) :=
      decodeString "ToolCallRequest.name" v (ToolCallRequest_Name req) saved in
    ({| ToolCallRequest_Name := name;
        ToolCallRequest_Arguments := ToolCallRequest_Arguments req |}, saved1)
  else if foldName key =? "arguments" then
    let (arguments, saved1) :=
      decodeMap "ToolCallRequest.arguments" v (ToolCallRequest_Arguments req) saved in
    ({| ToolCallRequest_Name := ToolCallRequest_Name req;
        ToolCallRequest_Arguments := arguments |}, saved1)
  else acc.

Definition finish {A} (acc : A * option string) : string + A :=
  match snd acc with
  | Some e => inl e
  | None => inr (fst acc)
  end.

Definition unmarshalToolCall (params : json) : string + ToolCallRequest object :=
  match params with
  | JObject members =>
      finish (fold_left setToolCallMember (sortMembers members)
                (zeroToolCallRequest, None))
  | JNull => inr zeroToolCallRequest
  | _ => inl (valueError params "mcp.ToolCallRequest")
  end.

Definition setResourceReadMember (acc : ResourceReadRequest * option string)
    (member : string * json) : ResourceReadRequest * option string :=
  let (req, saved) := acc in
  let (key, v) := member in
  if foldName key =? "uri" then
    let (uri, saved1) :=
      decodeString "ResourceReadRequest.uri" v (ResourceReadRequest_URI req) saved in
    ({| ResourceReadRequest_URI := uri |}, saved1)
  else acc.

Definition unmarshalResourceRead (params : json) : string + ResourceReadRequest :=
  match params with
  | JObject members =>
      finish (fold_left setResourceReadMember (sortMembers members)
                ({| ResourceReadRequest_URI := "" |}, None))
  | JNull => inr {| ResourceReadRequest_URI := "" |}
  | _ => inl (valueError params "mcp.ResourceReadRequest")
  end.

Definition setRootsMember (acc : RootsCapability * option string)
    (member : string * json) : RootsCapability * option string :=
  let (roots, saved) := acc in
  let (key, v) := member in
  if foldName key =? "listchanged" then
    let (b, saved1) :=
      decodeBool "InitializeRequest.capabilities.roots.listChanged" v
        (RootsCapability_ListChanged roots) saved in
    ({| RootsCapability_ListChanged := b |}, saved1)
  else acc.

Definition setClientCapabilitiesMember
    (acc : ClientCapabilities object * option string)
    (member : string * json) : ClientCapabilities object * option string :=
  let (caps, saved) := acc in
  let (key, v) := member in
  if foldName key =? "roots" then
    match v with
    | JObject members =>
        let start :=
          match ClientCapabilities_Roots caps with
          | Some r => r
          | None => {| RootsCapability_ListChanged := false |}
          end in
        let (roots, saved1) :=
          fold_left setRootsMember (sortMembers members) (start, saved) in
        ({| ClientCapabilities_Roots := Some roots;
            ClientCapabilities_Sampling := ClientCapabilities_Sampling caps;
            ClientCapabilities_Experimental := ClientCapabilities_Experimental caps |},
         saved1)
    | JNull =>
        ({| ClientCapabilities_Roots := None;
            ClientCapabilities_Sampling := ClientCapabilities_Sampling caps;
            ClientCapabilities_Experimental := ClientCapabilities_Experimental caps |},
         saved)
    | _ =>
        (caps, saveError saved
                 (fieldError v "InitializeRequest.capabilities.roots"
                    "mcp.RootsCapability"))
    end
  else if foldName key =? "sampling" then
    match v with
    | JObject _ =>
        ({| ClientCapabilities_Roots := ClientCapabilities_Roots caps;
            ClientCapabilities_Sampling := Some tt;
            ClientCapabilities_Experimental := ClientCapabilities_Experimental caps |},
         saved)
    | JNull =>
        ({| ClientCapabilities_Roots := ClientCapabilities_Roots caps;
            ClientCapabilities_Sampling := None;
            ClientCapabilities_Experimental := ClientCapabilities_Experimental caps |},
         saved)
    | _ =>
        (caps, saveError saved
                 (fieldError v "InitializeRequest.capabilities.sampling"
                    "mcp.SamplingCapability"))
    end
  else if foldName key =? "experimental" then
    let (experimental, saved1) :=
      decodeMap "InitializeRequest.capabilities.experimental" v
        (ClientCapabilities_Experimental caps) saved in
    ({| ClientCapabilities_Roots := ClientCapabilities_Roots caps;
        ClientCapabilities_Sampling := ClientCapabilities_Sampling caps;
        ClientCapabilities_Experimental := experimental |}, saved1)
  else acc.

Definition setClientInfoMember (acc : ClientInfo * option string)
    (member : string * json) : ClientInfo * option string :=
  let (info, saved) := acc in
  let (key, v) := member in
  if foldName key =? "name" then
    let (name, saved1) :=
      decodeString "InitializeRequest.clientInfo.name" v (ClientInfo_Name info) saved in
    ({| ClientInfo_Name := name; ClientInfo_Version := ClientInfo_Version info |},
     saved1)
  else if foldName key =? "version" then
    let (version, saved1) :=
      decodeString "InitializeRequest.clientInfo.version" v
        (ClientInfo_Version info) saved in
    ({| ClientInfo_Name := ClientInfo_Name info; ClientInfo_Version := version |},
     saved1)
  else acc.

Definition zeroInitializeRequest : InitializeRequest object :=
  {| InitializeRequest_ProtocolVersion := "";
     InitializeRequest_Capabilities :=
       {| ClientCapabilities_Roots := None;
          ClientCapabilities_Sampling := None;
          ClientCapabilities_Experimental := None |};
     InitializeRequest_ClientInfo :=
       {| ClientInfo_Name := ""; ClientInfo_Version := "" |};
     InitializeRequest_Meta := None |}.

Definition setInitializeMember (acc : InitializeRequest object * option string)
    (member : string * json) : InitializeRequest object * option string :=
  let (req, saved) := acc in
  let (key, v) := member in
  if foldName key =? "protocolversion" then
    let (version, saved1) :=
      decodeString "InitializeRequest.protocolVersion" v
        (InitializeRequest_ProtocolVersion req) saved in
    ({| InitializeRequest_ProtocolVersion := version;
        InitializeRequest_Capabilities := InitializeRequest_Capabilities req;
        InitializeRequest_ClientInfo := InitializeRequest_ClientInfo req;
        InitializeRequest_Meta := InitializeRequest_Meta req |}, saved1)
  else if foldName key =? "capabilities" then
    match v with
    | JObject members =>
        let (caps, saved1) :=
          fold_left setClientCapabilitiesMember (sortMembers members)
            (InitializeRequest_Capabilities req, saved) in
        ({| InitializeRequest_ProtocolVersion := InitializeRequest_ProtocolVersion req;
            InitializeRequest_Capabilities := caps;
            InitializeRequest_ClientInfo := InitializeRequest_ClientInfo req;
            InitializeRequest_Meta := InitializeRequest_Meta req |}, saved1)
    | JNull => acc
    | _ =>
        (req, saveError saved
                (fieldError v "InitializeRequest.capabilities"
                   "mcp.ClientCapabilities"))
    end
  else if foldName key =? "clientinfo" then
    match v with
    | JObject members =>
        let (info, saved1) :=
          fold_left setClientInfoMember (sortMembers members)
            (InitializeRequest_ClientInfo req, saved) in
        ({| InitializeRequest_ProtocolVersion := InitializeRequest_ProtocolVersion req;
            InitializeRequest_Capabilities := InitializeRequest_Capabilities req;
            InitializeRequest_ClientInfo := info;
            InitializeRequest_Meta := InitializeRequest_Meta req |}, saved1)
    | JNull => acc
    | _ =>
        (req, saveError saved
                (fieldError v "InitializeRequest.clientInfo" "mcp.ClientInfo"))
    end
  else if foldName key =? "meta" then
    let (meta, saved1) :=
      decodeMap "InitializeRequest.meta" v (InitializeRequest_Meta req) saved in
    ({| InitializeRequest_ProtocolVersion := InitializeRequest_ProtocolVersion req;
        InitializeRequest_Capabilities := InitializeRequest_Capabilities req;
        InitializeRequest_ClientInfo := InitializeRequest_ClientInfo req;
        InitializeRequest_Meta := meta |}, saved1)
  else acc.

Definition unmarshalInitialize (params : json) : string + InitializeRequest object :=
  match params with
  | JObject members =>
      finish (fold_left setInitializeMember (sortMembers members)
                (zeroInitializeRequest, None))
  | JNull => inr zeroInitializeRequest
  | _ => inl (valueError params "mcp.InitializeRequest")
  end.

End GoJSON.

(** ** Concrete providers and envelopes

    The engine instantiated with the JSON model: ids and params are [json]
    values, the world of the providers is the journal of the calls they
    received, most recent first. *)
Module Demo.

Import GoJSON.

Definition world : Type := list string.

Definition tool (name : string) : Tool object :=
  {| Tool_Name := name; Tool_Description := ""; Tool_InputSchema := None |}.

Definition text (s : string) : option ToolCallResponse :=
  Some {| ToolCallResponse_Content :=
            [{| Content_Type := "text"; Content_Text := s; Content_Data := "" |}];
          ToolCallResponse_IsError := false |}.

(** Two providers that both list a tool called "ping". *)
Definition pingA : ToolProvider object world :=
  {| ListTools := fun w => (inr [tool "ping"], "A.ListTools" :: w);
     CallTool := fun _ w => (inr (text "pong from A"), "A.CallTool" :: w) |}.

Definition pingB : ToolProvider object world :=
  {| ListTools := fun w => (inr [tool "echo"; tool "ping"], "B.ListTools" :: w);
     CallTool := fun _ w => (inr (text "pong from B"), "B.CallTool" :: w) |}.

(** A provider with two tools, neither called "ping". *)
Definition math : ToolProvider object world :=
  {| ListTools := fun w => (inr [tool "add"; tool "subtract"], "math.ListTools" :: w);
     CallTool := fun _ w => (inr (text "8"), "math.CallTool" :: w) |}.

(** A provider whose tool fails when invoked. *)
Definition faulty : ToolProvider object world :=
  {| ListTools := fun w => (inr [tool "boom"], "faulty.ListTools" :: w);
     CallTool := fun _ w => (inl "kaboom", "faulty.CallTool" :: w) |}.

(** A provider whose listing fails. *)
Definition offline : ToolProvider object world :=
  {| ListTools := fun w => (inl "database unavailable", "offline.ListTools" :: w);
     CallTool := fun _ w => (inl "database unavailable", "offline.CallTool" :: w) |}.

Definition request (id : Z) (method : string) (params : option json) : Message json :=
  {| Message_JSONRPC := "2.0";
     Message_ID := Some (JNumber id);
     Message_Method := method;
     Message_Params := params;
     Message_Result := None;
     Message_Error := None |}.

Definition notification (method : string) : Message json :=
  {| Message_JSONRPC := "2.0";
     Message_ID := None;
     Message_Method := method;
     Message_Params := None;
     Message_Result := None;
     Message_Error := None |}.

(** An envelope without a method: neither a Request nor a Notification. *)
Definition invalid (id : option json) : Message json :=
  {| Message_JSONRPC := "2.0";
     Message_ID := id;
     Message_Method := "";
     Message_Params := None;
     Message_Result := None;
     Message_Error := None |}.

Definition callParams (name : string) : json :=
  JObject [("name", JString name); ("arguments", JObject [])].

(** The params of scenario 1 of the specification. *)
Definition initializeParams : json :=
  JObject [("protocolVersion", JString "2024-11-05");
           ("capabilities", JObject []);
           ("clientInfo", JObject [("name", JString "t"); ("version", JString "1.0")])].

Definition awaiting (s : MCPServer object world) : Connection object world :=
  {| Connection_server := s; Connection_initialized := false |}.

Definition ready (s : MCPServer object world) : Connection object world :=
  {| Connection_server := s; Connection_initialized := true |}.

Definition socket : Socket json object :=
  {| Socket_written := []; Socket_writable := None; Socket_closed := false |}.

Definition handle :=
  handleMessage unmarshalInitialize unmarshalToolCall unmarshalResourceRead
    (World := world).

Definition loop :=
  messageLoop unmarshalInitialize unmarshalToolCall unmarshalResourceRead
    (World := world).

Definition serve :=
  handleWebSocket unmarshalInitialize unmarshalToolCall unmarshalResourceRead
    (World := world).

End Demo.

(** ** [internal/tools/math.go]: the MathToolProvider

    [float64], its arithmetic, [math.Pow], [strconv.ParseFloat] and the
    [%.2f] verb of [fmt] belong to the Go runtime and are parameters. The
    arguments of a call are a [map[string]interface{}]: an association
    list, with distinct keys, of Go values tagged with their dynamic type;
    a nil map is [None]. The dynamic types are those of decoded JSON
    (float64 or json.Number, string, bool, nil, slice, map) and those the
    sources write in literals and type switches (int, []string). *)
Module MathTools.

Section WithFloat.

Variable float64 : Type.
Variable fadd : float64 -> float64 -> float64.
Variable fmul : float64 -> float64 -> float64.
Variable Pow : float64 -> float64 -> float64.
Variable ofInt : Z -> float64.
Variable ParseFloat : string -> option float64.
Variable format2f : float64 -> string.

#[warnings="-register-all"] Inductive GoValue :=
| VFloat64 (f : float64)
| VInt (n : Z)
| VString (s : string)
| VBool (b : bool)
| VNil
| VJSONNumber (text : string)
| VStrings (l : list string)
| VSlice (l : list GoValue)
| VMap (m : list (string * GoValue)).

Definition object : Type := list (string * GoValue).

(** [val, exists := args[key]] *)
Fixpoint index (args : object) (key : string) : option GoValue :=
  match args with
  | [] => None
  | (k, v) :: rest => if k =? key then Some v else index rest key
  end.

Definition indexArgs (args : option object) (key : string) : option GoValue :=
  match args with
  | Some m => index m key
  | None => None
  end.

(** What the verb [%T] prints. *)
Definition typeName (v : GoValue) : string :=
  match v with
  | VFloat64 _ => "float64"
  | VInt _ => "int"
  | VString _ => "string"
  | VBool _ => "bool"
  | VNil => "<nil>"
  | VJSONNumber _ => "json.Number"
  | VStrings _ => "[]string"
  | VSlice _ => "[]interface {}"
  | VMap _ => "map[string]interface {}"
  end.

Definition getNumberArg (args : option object) (key : string) : string + float64 :=
  match indexArgs args key with
  | None => inl ("missing required argument: " ++ key)%string
  | Some v =>
      match v with
      | VFloat64 f => inr f
      | VInt n => inr (ofInt n)
      | VString text =>
          match ParseFloat text with
          | Some f => inr f
          | None => inl ("invalid number format for " ++ key ++ ": " ++ text)%string
          end
      | _ =>
          inl ("invalid argument type for " ++ key ++ ": expected number, got "
                 ++ typeName v)%string
      end
  end.

Definition textContent (text : string) : Content :=
  {| Content_Type := "text"; Content_Text := text; Content_Data := "" |}.

Definition errorResponse (message : string) : ToolCallResponse :=
  {| ToolCallResponse_Content := [textContent message];
     ToolCallResponse_IsError := true |}.

(** The bytes C3 83 E2 80 94 that stand between the operands in the
    format string of [handleMultiply]. *)
Definition timesSign : string :=
  String (Ascii.ascii_of_nat 195) (String (Ascii.ascii_of_nat 131)
    (String (Ascii.ascii_of_nat 226) (String (Ascii.ascii_of_nat 128)
      (String (Ascii.ascii_of_nat 148) EmptyString)))).

Definition handleAdd (request : ToolCallRequest object)
  : string + option ToolCallResponse :=
  match getNumberArg (ToolCallRequest_Arguments request) "a" with
  | inl err => inr (Some (errorResponse err))
  | inr a =>
      match getNumberArg (ToolCallRequest_Arguments request) "b" with
      | inl err => inr (Some (errorResponse err))
      | inr b =>
          let result := fadd a b in
          inr (Some {| ToolCallResponse_Content :=
                         [textContent (format2f a ++ " + " ++ format2f b ++ " = "
                                         ++ format2f result)%string];
                       ToolCallResponse_IsError := false |})
      end
  end.

Definition handleMultiply (request : ToolCallRequest object)
  : string + option ToolCallResponse :=
  match getNumberArg (ToolCallRequest_Arguments request) "a" with
  | inl err => inr (Some (errorResponse err))
  | inr a =>
      match getNumberArg (ToolCallRequest_Arguments request) "b" with
      | inl err => inr (Some (errorResponse err))
      | inr b =>
          let result := fmul a b in
          inr (Some {| ToolCallResponse_Content :=
                         [textContent (format2f a ++ " " ++ timesSign ++ " "
                                         ++ format2f b ++ " = " ++ format2f result)%string];
                       ToolCallResponse_IsError := false |})
      end
  end.

Definition handlePower (request : ToolCallRequest object)
  : string + option ToolCallResponse :=
  match getNumberArg (ToolCallRequest_Arguments request) "base" with
  | inl err => inr (Some (errorResponse err))
  | inr base =>
      match getNumberArg (ToolCallRequest_Arguments request) "exponent" with
      | inl err => inr (Some (errorResponse err))
      | inr exponent =>
          let result := Pow base exponent in
          inr (Some {| ToolCallResponse_Content :=
                         [textContent (format2f base ++ "^" ++ format2f exponent ++ " = "
                                         ++ format2f result)%string];
                       ToolCallResponse_IsError := false |})
      end
  end.

Definition MathToolProvider_ListTools : string + list (Tool object) :=
  inr
    [{| Tool_Name := "add";
        Tool_Description := "Add two numbers together";
        Tool_InputSchema :=
          Some [("type", VString "object");
                ("properties",
                 VMap [("a", VMap [("type", VString "number");
                                   ("description", VString "First number")]);
                       ("b", VMap [("type", VString "number");
                                   ("description", VString "Second number")])]);
                ("required", VStrings ["a"; "b"])] |};
     {| Tool_Name := "multiply";
        Tool_Description := "Multiply two numbers";
        Tool_InputSchema :=
          Some [("type", VString "object");
                ("properties",
                 VMap [("a", VMap [("type", VString "number");
                                   ("description", VString "First number")]);
                       ("b", VMap [("type", VString "number");
                                   ("description", VString "Second number")])]);
                ("required", VStrings ["a"; "b"])] |};
     {| Tool_Name := "power";
        Tool_Description := "Calculate a number raised to a power";
        Tool_InputSchema :=
          Some [("type", VString "object");
                ("properties",
                 VMap [("base", VMap [("type", VString "number");
                                      ("description", VString "Base number")]);
                       ("exponent", VMap [("type", VString "number");
                                          ("description", VString "Exponent")])]);
                ("required", VStrings ["base"; "exponent"])] |}].

Definition MathToolProvider_CallTool (request : ToolCallRequest object)
  : string + option ToolCallResponse :=
  let name := ToolCallRequest_Name request in
  if name =? "add" then handleAdd request
  else if name =? "multiply" then handleMultiply request
  else if name =? "power" then handlePower request
  else
    inr (Some {| ToolCallResponse_Content :=
                   [textContent ("Unknown tool: " ++ name)%string];
                 ToolCallResponse_IsError := true |}).

(** The provider as the server sees it. It has no state of its own and
    leaves the world of the other providers alone. *)
Definition NewMathToolProvider {World : Type} : ToolProvider object World :=
  {| ListTools := fun w => (MathToolProvider_ListTools, w);
     CallTool := fun request w => (MathToolProvider_CallTool request, w) |}.

(** The argument under [key] is one [getNumberArg] turns into a number. *)
Definition numericArg (args : option object) (key : string) : Prop :=
  exists v, indexArgs args key = Some v /\
    match v with
    | VFloat64 _ | VInt _ => True
    | VString text => ParseFloat text <> None
    | _ => False
    end.

(** The two argument names of a listed tool. *)
Definition operands (name : string) : string * string :=
  if name =? "power" then ("base", "exponent") else ("a", "b").

End WithFloat.

Arguments VFloat64 {float64} f.
Arguments VInt {float64} n.
Arguments VString {float64} s.
Arguments VBool {float64} b.
Arguments VNil {float64}.
Arguments VJSONNumber {float64} text.
Arguments VStrings {float64} l.
Arguments VSlice {float64} l.
Arguments VMap {float64} m.

End MathTools.

(** ** The MathToolProvider on integers

    An instance of the runtime parameters for concrete runs: the floats
    that are integers, on which addition and multiplication are the
    integer ones and [%.2f] prints the integer followed by ".00". *)
Module MathDemo.

Definition float64 : Type := Z.

Definition ParseFloat (text : string) : option Z :=
  option_map Z.of_int (NilZero.int_of_string text).

Definition format2f (f : Z) : string :=
  (NilZero.string_of_int (Z.to_int f) ++ ".00")%string.

Definition object : Type := MathTools.object float64.

Definition arguments (a b : Z) : option object :=
  Some [("a", MathTools.VFloat64 a); ("b", MathTools.VFloat64 b)].

Definition CallTool :=
  MathTools.MathToolProvider_CallTool Z.add Z.mul Z.pow (fun n => n) ParseFloat format2f.

Definition provider : ToolProvider object (list string) :=
  MathTools.NewMathToolProvider Z.add Z.mul Z.pow (fun n => n) ParseFloat format2f.

Definition value : Type := MathTools.GoValue float64.

(** A decoder for the runs: params are a map with a string under "name"
    and a map under "arguments". *)
Definition unmarshalToolCall (params : value) : string + ToolCallRequest object :=
  match params with
  | MathTools.VMap m =>
      let arguments :=
        match MathTools.index m "arguments" with
        | Some (MathTools.VMap a) => Some a
        | _ => None
        end in
      match MathTools.index m "name" with
      | Some (MathTools.VString name) =>
          inr {| ToolCallRequest_Name := name; ToolCallRequest_Arguments := arguments |}
      | Some _ =>
          inl "json: cannot unmarshal into Go struct field ToolCallRequest.name of type string"
      | None =>
          inr {| ToolCallRequest_Name := ""; ToolCallRequest_Arguments := arguments |}
      end
  | _ => inl "json: cannot unmarshal into Go value of type mcp.ToolCallRequest"
  end.

Definition unmarshalInitialize (params : value) : string + InitializeRequest object :=
  inl "json: cannot unmarshal into Go value of type mcp.InitializeRequest".

Definition unmarshalResourceRead (params : value) : string + ResourceReadRequest :=
  inl "json: cannot unmarshal into Go value of type mcp.ResourceReadRequest".

Definition call (id : Z) (name : string) (args : object) : Message value :=
  {| Message_JSONRPC := "2.0";
     Message_ID := Some (MathTools.VFloat64 id);
     Message_Method := "tools/call";
     Message_Params :=
       Some (MathTools.VMap [("name", MathTools.VString name);
                             ("arguments", MathTools.VMap args)]);
     Message_Result := None;
     Message_Error := None |}.

End MathDemo.

(** ** [internal/tools/math.go]: the SearchTool

    The searcher behind the tool is an interface of the [search] package;
    its calls reach the network and thread the world. [time.Time] and its
    RFC 3339 rendering, [json.Marshal] of the results, [strconv.Atoi],
    [json.Number.Int64] and the conversion [int(v)] of a float64 are
    parameters. The results are the [*mcp.SearchResult] a searcher
    returns, none of them nil. *)
Module SearchTools.

Import MathTools.

Section WithRuntime.

Variable float64 : Type.
Variable truncInt : float64 -> Z.
Variable Atoi : string -> string + Z.
Variable Int64 : string -> string + Z.
Variable Time : Type.
Variable formatRFC3339 : Time -> string.
Variable World : Type.

Record SearchResult :=
  { SearchResult_Title : string;
    SearchResult_URL : string;
    SearchResult_Description : string;
    SearchResult_Content : string;
    SearchResult_Timestamp : Time;
    SearchResult_Metadata : option (list (string * string)) }.

Record SearchQuery :=
  { SearchQuery_Query : string;
    SearchQuery_MaxResults : Z;
    SearchQuery_Language : string;
    SearchQuery_Region : string;
    SearchQuery_SafeSearch : bool;
    SearchQuery_TimeRange : string;
    SearchQuery_Filters : option (list (string * string)) }.

Variable marshalResults : list SearchResult -> string.

(** [search.WebSearcher]; [SearchWithContent] is there when the searcher
    is a [*search.CollySearcher]. An error of [HealthCheck] is [Some]. *)
Record WebSearcher :=
  { Search : SearchQuery -> World -> (string + list SearchResult) * World;
    HealthCheck : World -> option string * World;
    SearchWithContent :
      option (SearchQuery -> World -> (string + list SearchResult) * World) }.

Local Abbreviation object := (MathTools.object float64).
Local Abbreviation GoValue := (MathTools.GoValue float64).

Definition newline : string := String (Ascii.ascii_of_nat 10) EmptyString.

(** The verb [%d]. *)
Definition decimal (n : Z) : string := NilZero.string_of_int (Z.to_int n).

(** [v, ok := args[key].(string)] and [.(bool)] *)
Definition asString (v : option GoValue) : option string :=
  match v with
  | Some (VString text) => Some text
  | _ => None
  end.

Definition asBool (v : option GoValue) : option bool :=
  match v with
  | Some (VBool b) => Some b
  | _ => None
  end.

Definition toInt (value : GoValue) : string + Z :=
  match value with
  | VInt n => inr n
  | VFloat64 f => inr (truncInt f)
  | VString text => Atoi text
  | VJSONNumber text => Int64 text
  | _ => inl ("cannot convert " ++ typeName value ++ " to int")%string
  end.

Definition errorResponse (message : string) : ToolCallResponse :=
  {| ToolCallResponse_Content := [textContent message];
     ToolCallResponse_IsError := true |}.

(** The search query [webSearch] builds from the arguments, once the
    query string is known. *)
Definition webSearch_query (args : option object) (queryStr : string) : SearchQuery :=
  let maxResults :=
    match indexArgs args "max_results" with
    | Some value =>
        match toInt value with
        | inr mr => if ((0 <? mr) && (mr <=? 50))%Z then mr else 10%Z
        | inl _ => 10%Z
        end
    | None => 10%Z
    end in
  let language :=
    match asString (indexArgs args "language") with
    | Some lang => lang
    | None => ""
    end in
  let region :=
    match asString (indexArgs args "region") with
    | Some r => r
    | None => ""
    end in
  let safeSearch :=
    match asBool (indexArgs args "safe_search") with
    | Some b => b
    | None => true
    end in
  {| SearchQuery_Query := queryStr;
     SearchQuery_MaxResults := maxResults;
     SearchQuery_Language := language;
     SearchQuery_Region := region;
     SearchQuery_SafeSearch := safeSearch;
     SearchQuery_TimeRange := "";
     SearchQuery_Filters := None |}.

Definition webSearch_includeContent (args : option object) : bool :=
  match asBool (indexArgs args "include_content") with
  | Some ic => ic
  | None => false
  end.

(** The call on the searcher. *)
Definition webSearch_search (s : WebSearcher) (includeContent : bool)
    (searchQuery : SearchQuery) : World -> (string + list SearchResult) * World :=
  if includeContent then
    match SearchWithContent s with
    | Some searchWithContent => searchWithContent searchQuery
    | None => Search s searchQuery
    end
  else Search s searchQuery.

(** One item of the response per result; [i] counts from 0. *)
Definition resultText (includeContent : bool) (i : nat) (result : SearchResult) : string :=
  let head :=
    (decimal (Z.of_nat (i + 1)) ++ ". **" ++ SearchResult_Title result ++ "**" ++ newline
       ++ "   URL: " ++ SearchResult_URL result ++ newline
       ++ "   Description: " ++ SearchResult_Description result ++ newline)%string in
  let body :=
    if includeContent && negb (SearchResult_Content result =? "") then
      let content := SearchResult_Content result in
      let content :=
        if (500 <? String.length content)%nat
        then (String.substring 0 500 content ++ "...")%string
        else content in
      (head ++ "   Content: " ++ content ++ newline)%string
    else head in
  (body ++ "   Timestamp: " ++ formatRFC3339 (SearchResult_Timestamp result)
     ++ newline ++ newline)%string.

Fixpoint resultItems (includeContent : bool) (i : nat) (results : list SearchResult)
  : list Content :=
  match results with
  | [] => []
  | result :: rest =>
      textContent (resultText includeContent i result)
        :: resultItems includeContent (S i) rest
  end.

Definition webSearch_content (includeContent : bool) (queryStr : string)
    (results : list SearchResult) : list Content :=
  match results with
  | [] => [textContent "No search results found."]
  | _ :: _ =>
      [textContent ("Found " ++ decimal (Z.of_nat (length results))
                      ++ " search results for: " ++ queryStr ++ newline)%string]
        ++ resultItems includeContent 0 results
        ++ [textContent ("Raw JSON data:" ++ newline ++ "```json" ++ newline
                           ++ marshalResults results ++ newline ++ "```")%string]
  end.

Definition webSearch (s : WebSearcher) (args : option object)
  : World -> (string + option ToolCallResponse) * World :=
  fun w =>
    match asString (indexArgs args "query") with
    | None => (inr (Some (errorResponse "Missing or invalid 'query' parameter")), w)
    | Some queryStr =>
        if queryStr =? "" then
          (inr (Some (errorResponse "Missing or invalid 'query' parameter")), w)
        else
          let searchQuery := webSearch_query args queryStr in
          let includeContent := webSearch_includeContent args in
          let (found, w1) := webSearch_search s includeContent searchQuery w in
          match found with
          | inl err =>
              (inr (Some (errorResponse ("Search failed: " ++ err)%string)), w1)
          | inr results =>
              (inr (Some {| ToolCallResponse_Content :=
                              webSearch_content includeContent queryStr results;
                            ToolCallResponse_IsError := false |}), w1)
          end
    end.

Definition healthCheck (s : WebSearcher)
  : World -> (string + option ToolCallResponse) * World :=
  fun w =>
    let (err, w1) := HealthCheck s w in
    match err with
    | Some text =>
        (inr (Some {| ToolCallResponse_Content :=
                        [textContent ("Search service health check failed: " ++ text)%string];
                      ToolCallResponse_IsError := true |}), w1)
    | None =>
        (inr (Some {| ToolCallResponse_Content :=
                        [textContent "Search service is healthy and ready to accept queries."];
                      ToolCallResponse_IsError := false |}), w1)
    end.

Definition SearchTool_ListTools : string + list (Tool object) :=
  inr
    [{| Tool_Name := "web_search";
        Tool_Description := "Search the web for information";
        Tool_InputSchema :=
          Some [("type", VString "object");
                ("properties",
                 VMap [("query",
                        VMap [("type", VString "string");
                              ("description", VString "The search query")]);
                       ("max_results",
                        VMap [("type", VString "integer");
                              ("description",
                               VString "Maximum number of results to return (default: 10)");
                              ("minimum", VInt 1);
                              ("maximum", VInt 50)]);
                       ("include_content",
                        VMap [("type", VString "boolean");
                              ("description",
                               VString "Whether to fetch full content from result pages (default: false)")]);
                       ("language",
                        VMap [("type", VString "string");
                              ("description",
                               VString "Language preference for search results")]);
                       ("region",
                        VMap [("type", VString "string");
                              ("description",
                               VString "Region preference for search results")]);
                       ("safe_search",
                        VMap [("type", VString "boolean");
                              ("description",
                               VString "Enable safe search filtering (default: true)")])]);
                ("required", VStrings ["query"])] |};
     {| Tool_Name := "search_health_check";
        Tool_Description := "Check if the web search service is healthy";
        Tool_InputSchema :=
          Some [("type", VString "object");
                ("properties", VMap [])] |}].

Definition SearchTool_CallTool (s : WebSearcher) (request : ToolCallRequest object)
  : World -> (string + option ToolCallResponse) * World :=
  let name := ToolCallRequest_Name request in
  if name =? "web_search" then webSearch s (ToolCallRequest_Arguments request)
  else if name =? "search_health_check" then healthCheck s
  else
    fun w =>
      (inr (Some {| ToolCallResponse_Content :=
                      [textContent ("Unknown search tool: " ++ name)%string];
                    ToolCallResponse_IsError := true |}), w).

Definition NewSearchTool (searcher : WebSearcher) : ToolProvider object World :=
  {| ListTools := fun w => (SearchTool_ListTools, w);
     CallTool := SearchTool_CallTool searcher |}.

End WithRuntime.

End SearchTools.

(** ** The SearchTool with a canned searcher

    Runtime parameters for concrete runs: floats that are integers, times
    that are already rendered, a stand-in for [json.Marshal] that prints
    the number of results. The world is the journal of the queries the
    searcher received: the query string and its MaxResults. *)
Module SearchDemo.

Import MathTools SearchTools.

Definition world : Type := list (string * Z).

Definition parseInt (text : string) : string + Z :=
  match NilZero.int_of_string text with
  | Some n => inr (Z.of_int n)
  | None => inl ("strconv.Atoi: parsing: invalid syntax")
  end.

Definition marshalResults (results : list (SearchResult string)) : string :=
  ("[" ++ decimal (Z.of_nat (length results)) ++ " results]")%string.

Definition result (title url : string) : SearchResult string :=
  {| SearchResult_Title := title;
     SearchResult_URL := url;
     SearchResult_Description := "";
     SearchResult_Content := "";
     SearchResult_Timestamp := "2025-01-01T00:00:00Z";
     SearchResult_Metadata := None |}.

(** The mock searcher of the tests: fixed results, or a fixed error. *)
Definition mock (canned : string + list (SearchResult string))
  : WebSearcher string world :=
  {| Search := fun q w =>
       (canned, (SearchQuery_Query q, SearchQuery_MaxResults q) :: w);
     HealthCheck := fun w => (match canned with inl e => Some e | inr _ => None end, w);
     SearchWithContent := None |}.

Definition golang : list (SearchResult string) :=
  [result "Go Programming Language" "https://golang.org";
   result "Go Documentation" "https://pkg.go.dev"].

Definition CallTool (s : WebSearcher string world) :=
  SearchTool_CallTool (fun n : Z => n) parseInt parseInt (fun t : string => t)
    marshalResults s.

Definition webSearch (s : WebSearcher string world) :=
  SearchTools.webSearch (fun n : Z => n) parseInt parseInt (fun t : string => t)
    marshalResults s.

End SearchDemo.

(** ** Concrete resource providers *)
Module ResourceDemo.

Import GoJSON Demo.

Definition resource (uri : string) : Resource object :=
  {| Resource_URI := uri;
     Resource_Name := uri;
     Resource_Description := "";
     Resource_MimeType := "text/plain";
     Resource_Meta := None |}.

Definition contents (uri body : string) : option ResourceReadResponse :=
  Some {| ResourceReadResponse_Contents :=
            [{| ResourceContent_URI := uri;
                ResourceContent_MimeType := "text/plain";
                ResourceContent_Text := body;
                ResourceContent_Blob := "" |}] |}.

Definition docs : ResourceProvider object world :=
  {| ListResources :=
       fun w => (inr [resource "doc://readme"; resource "doc://guide"],
                 "docs.ListResources" :: w);
     ReadResource :=
       fun uri w => (inr (contents uri "from docs"), "docs.ReadResource" :: w) |}.

(** Lists a URI that [docs] lists too, and cannot be read. *)
Definition mirror : ResourceProvider object world :=
  {| ListResources :=
       fun w => (inr [resource "doc://guide"; resource "doc://notes"],
                 "mirror.ListResources" :: w);
     ReadResource :=
       fun uri w => (inl "mirror unreachable", "mirror.ReadResource" :: w) |}.

Definition unlisted : ResourceProvider object world :=
  {| ListResources :=
       fun w => (inl "index unavailable", "unlisted.ListResources" :: w);
     ReadResource :=
       fun uri w => (inr (contents uri "from unlisted"), "unlisted.ReadResource" :: w) |}.

Definition readParams (uri : string) : json := JObject [("uri", JString uri)].

End ResourceDemo.

(** * Properties *)

Ltac unfold_eff := unfold bind, ret, listTools, callTool, listResources, readResource.

Ltac unfold_handlers :=
  unfold handleListTools, handleCallTool, handleListResources, handleReadResource.

Ltac unfold_dispatch := unfold handleMessage, handleRequest.

Ltac unfold_initialize := unfold handleInitialize.

Ltac break_match :=
  match goal with
  | |- context [match ?x with _ => _ end] => destruct x eqn:?
  end.

Section Properties.

Context {Value Object World : Type}.
Variable unmarshalInitialize : Value -> string + InitializeRequest Object.
Variable unmarshalToolCall : Value -> string + ToolCallRequest Object.
Variable unmarshalResourceRead : Value -> string + ResourceReadRequest.

Local Abbreviation handleInitialize := (handleInitialize (World := World) unmarshalInitialize).
Local Abbreviation handleCallTool := (handleCallTool (World := World) (Value := Value) unmarshalToolCall).
Local Abbreviation handleRequest :=
  (handleRequest (World := World) unmarshalInitialize unmarshalToolCall unmarshalResourceRead).
Local Abbreviation handleMessage :=
  (handleMessage (World := World) unmarshalInitialize unmarshalToolCall unmarshalResourceRead).
Local Abbreviation messageLoop :=
  (messageLoop (World := World) unmarshalInitialize unmarshalToolCall unmarshalResourceRead).
Local Abbreviation answersAndContinues :=
  (answersAndContinues (World := World) unmarshalInitialize unmarshalToolCall unmarshalResourceRead).
Local Abbreviation handleWebSocket :=
  (handleWebSocket (World := World) unmarshalInitialize unmarshalToolCall unmarshalResourceRead).
Local Notation "x <- m ;; k" := (bind m (fun x => k))
  (at level 100, m at next level, right associativity).

Implicit Types (c : Connection Object World) (message : Message Value) (w : World).

(** ** The handshake gate *)

(** Claim C1. In state AwaitingInitialize (the initialized flag is false), a
    Request (non-empty method, non-nil id) for tools/list, tools/call,
    resources/list or resources/read is answered with error code -32600
    and message "Client not initialized"; the call log is empty and the
    world of the providers untouched, so no provider was listed or
    invoked; the session state is unchanged. *)
Theorem awaiting_initialize_rejects_requests c message w :
  Connection_initialized c = false ->
  Message_ID message <> None ->
  In (Message_Method message)
     ["tools/list"; "tools/call"; "resources/list"; "resources/read"] ->
  exists r,
    handleMessage c message w = (Some r, c, w, []) /\
    Response_JSONRPC r = "2.0" /\
    Response_ID r = Message_ID message /\
    Response_Result r = None /\
    Response_Error r =
      Some {| Error_Code := (-32600)%Z;
              Error_Message := "Client not initialized";
              Error_Data := None |}.
Proof.
  intros Hinit Hid Hmethod.
  assert (Hh : handleMessage c message w =
                 (Some (NewErrorResponse (Message_ID message) (-32600)
                          "Client not initialized" None), c, w, [])).
  { unfold_dispatch.
    destruct (Message_ID message) as [id|] eqn:Eid; [clear Hid|congruence].
    simpl in Hmethod.
    destruct Hmethod as [H|[H|[H|[H|[]]]]]; rewrite <- H; cbn;
      unfold_handlers; rewrite Hinit, ?Eid; reflexivity. }
  eexists. split; [exact Hh|]. repeat split.
Qed.

(** One turn of the loop whose response is written. *)
Lemma messageLoop_answered c message w r c1 w1 log rest conn :
  handleMessage c message w = (Some r, c1, w1, log) ->
  Socket_writable conn <> Some 0 ->
  messageLoop (ReadOk message :: rest) c conn w =
    (_ <- handleMessage c message ;; messageLoop rest c1 (snd (WriteJSON conn r))) w /\
  Socket_written (snd (WriteJSON conn r)) = Socket_written conn ++ [r].
Proof.
  intros Hh Hw. split.
  - cbn. unfold bind, WriteJSON. rewrite Hh.
    destruct (Socket_writable conn) as [[|n]|]; [congruence| |]; reflexivity.
  - unfold WriteJSON.
    destruct (Socket_writable conn) as [[|n]|]; [congruence| |]; reflexivity.
Qed.

(** One turn of the loop without a response. *)
Lemma messageLoop_silent c message w c1 rest conn :
  handleMessage c message w = (None, c1, w, []) ->
  messageLoop (ReadOk message :: rest) c conn w = messageLoop rest c1 conn w.
Proof.
  intros Hh. cbn. unfold bind. rewrite Hh.
  destruct (messageLoop rest c1 conn w) as [[x w2] l2]. reflexivity.
Qed.

(** Claim C6. The [initialized] Notification (method "initialized", nil id)
    produces no response and calls no provider; it leaves the session Ready
    whatever the state before; on a session that is already Ready it
    changes nothing; handling it a second time gives the state reached
    after the first. *)
Theorem initialized_notification_idempotent c message w :
  Message_Method message = "initialized" ->
  Message_ID message = None ->
  exists c1,
    handleMessage c message w = (None, c1, w, []) /\
    Connection_initialized c1 = true /\
    Connection_server c1 = Connection_server c /\
    (Connection_initialized c = true -> c1 = c) /\
    handleMessage c1 message w = (None, c1, w, []).
Proof.
  intros Hm Hid.
  exists {| Connection_server := Connection_server c; Connection_initialized := true |}.
  unfold_dispatch. unfold handleNotification. rewrite Hm, Hid. cbn.
  repeat split.
  intros Hready. destruct c as [s b]. cbn in *. now subst.
Qed.

(** Claim C9. A Notification (non-empty method, nil id) never gets a response,
    in any session state and for any method: [handleMessage] returns nil,
    no provider is called, and the loop writes nothing on the socket
    before it reads the next frame. *)
Theorem notification_gets_no_response c message w :
  Message_Method message <> "" ->
  Message_ID message = None ->
  handleMessage c message w = (None, handleNotification c message, w, []) /\
  forall rest conn,
    messageLoop (ReadOk message :: rest) c conn w =
      messageLoop rest (handleNotification c message) conn w.
Proof.
  intros Hm Hid.
  assert (Hh : handleMessage c message w = (None, handleNotification c message, w, [])).
  { unfold_dispatch. rewrite Hid. apply String.eqb_neq in Hm. rewrite Hm. reflexivity. }
  split; [exact Hh|].
  intros rest conn. now apply messageLoop_silent.
Qed.

(** Claim C10. An envelope with an empty method is answered, not dropped: the
    response is the error -32600 "Invalid message format" carrying the
    envelope's id (nil when the envelope had none); the session state and
    the providers are untouched, and once the response is written the
    loop goes on to the next frame. *)
Theorem invalid_envelope_is_answered c message w :
  Message_Method message = "" ->
  exists r,
    handleMessage c message w = (Some r, c, w, []) /\
    Response_JSONRPC r = "2.0" /\
    Response_ID r = Message_ID message /\
    Response_Result r = None /\
    Response_Error r =
      Some {| Error_Code := (-32600)%Z;
              Error_Message := "Invalid message format";
              Error_Data := None |} /\
    forall rest conn,
      Socket_writable conn <> Some 0 ->
      messageLoop (ReadOk message :: rest) c conn w =
        messageLoop rest c (snd (WriteJSON conn r)) w /\
      Socket_written (snd (WriteJSON conn r)) = Socket_written conn ++ [r].
Proof.
  intros Hm.
  set (r := NewErrorResponse (Object := Object) (Message_ID message) (-32600)
              "Invalid message format" None).
  assert (Hh : handleMessage c message w = (Some r, c, w, [])).
  { unfold_dispatch. rewrite Hm. reflexivity. }
  exists r. split; [exact Hh|].
  do 4 (split; [reflexivity|]).
  intros rest conn Hw.
  destruct (@messageLoop_answered c message w r c w [] rest conn Hh Hw)
    as [Hloop Hwritten].
  split; [|exact Hwritten].
  rewrite Hloop. unfold bind. rewrite Hh.
  destruct (messageLoop rest c (snd (WriteJSON conn r)) w) as [[x w2] l2].
  reflexivity.
Qed.

(** Claim C4, amended. An initialize Request is answered the same way in both
    session states, without touching the session state or any provider:
    when the params are absent or decode as an InitializeRequest, with an
    InitializeResult whose protocolVersion is "2024-11-05" and whose
    serverInfo.name is "MCP Server Go"; when the params do not decode,
    with the error -32602 "Invalid initialize parameters" carrying the
    decoder's message. *)
Theorem initialize_result_or_invalid_params c message w :
  Message_Method message = "initialize" ->
  Message_ID message <> None ->
  exists r,
    handleMessage c message w = (Some r, c, w, []) /\
    Response_ID r = Message_ID message /\
    ((Message_Params message = None \/
      exists params req, Message_Params message = Some params /\
                         unmarshalInitialize params = inr req) ->
     exists result,
       Response_Result r = Some (ResultInitialize result) /\
       Response_Error r = None /\
       InitializeResponse_ProtocolVersion result = "2024-11-05" /\
       ServerInfo_Name (InitializeResponse_ServerInfo result) = "MCP Server Go" /\
       ServerInfo_Name (InitializeResponse_ServerInfo result) <> "") /\
    (forall params err,
       Message_Params message = Some params ->
       unmarshalInitialize params = inl err ->
       Response_JSONRPC r = "2.0" /\
       Response_Result r = None /\
       Response_Error r =
         Some {| Error_Code := (-32602)%Z;
                 Error_Message := "Invalid initialize parameters";
                 Error_Data := Some err |}).
Proof.
  intros Hm Hid.
  exists (handleInitialize c message).
  split.
  { unfold_dispatch. rewrite Hm.
    destruct (Message_ID message); [reflexivity|congruence]. }
  unfold_initialize.
  destruct (Message_Params message) as [params|].
  - destruct (unmarshalInitialize params) as [err|req] eqn:Hdec.
    + split; [reflexivity|]. split.
      * intros [Hnone|(p & q & Hp & Hq)]; [discriminate|].
        injection Hp as <-. congruence.
      * intros p e Hp He. injection Hp as <-.
        rewrite Hdec in He. injection He as <-. repeat split.
    + split; [reflexivity|]. split.
      * intros _. eexists. cbn. repeat split. discriminate.
      * intros p e Hp He. injection Hp as <-. congruence.
  - split; [reflexivity|]. split.
    + intros _. eexists. cbn. repeat split. discriminate.
    + intros p e Hp. discriminate.
Qed.

(** ** The provider registry *)

Lemma register_tools_append (tps : list (ToolProvider Object World)) s :
  toolProviders (fold_left (@RegisterToolProvider Object World) tps s)
    = toolProviders s ++ tps /\
  resourceProviders (fold_left (@RegisterToolProvider Object World) tps s)
    = resourceProviders s.
Proof.
  revert s. induction tps as [|p tps IH]; intros s; cbn.
  - now rewrite app_nil_r.
  - destruct (IH (RegisterToolProvider s p)) as [Ht Hr].
    rewrite Ht, Hr. cbn. now rewrite <- app_assoc.
Qed.

Lemma register_resources_keep_tools (rps : list (ResourceProvider Object World))
    (s : MCPServer Object World) :
  toolProviders (fold_left (@RegisterResourceProvider Object World) rps s)
    = toolProviders s.
Proof.
  revert s. induction rps as [|p rps IH]; intros s; cbn; [reflexivity|].
  now rewrite IH.
Qed.

(** Registration order is the order of the slice the handlers range over. *)
Lemma registerAll_toolProviders (tps : list (ToolProvider Object World))
    (rps : list (ResourceProvider Object World)) :
  toolProviders (registerAll tps rps) = tps.
Proof.
  unfold registerAll. rewrite register_resources_keep_tools.
  now destruct (register_tools_append tps NewMCPServer) as [-> _].
Qed.

Lemma listCalls_succ from n :
  listCalls (Object := Object) from (S n) = CallListTools from :: listCalls (S from) n.
Proof. reflexivity. Qed.

Lemma listCalls_last from n :
  listCalls (Object := Object) from (S n) = listCalls from n ++ [CallListTools (from + n)].
Proof.
  unfold listCalls. rewrite seq_S, map_app. reflexivity.
Qed.

(** ** Aggregate listing *)

Lemma listToolsLoop_listed (ps : list (ToolProvider Object World)) w ls w1 :
  Listed ps w ls w1 ->
  forall i allTools,
    listToolsLoop i ps allTools w
      = (inr (allTools ++ concat ls), w1, listCalls i (length ps)).
Proof.
  induction 1 as [w|p ps w tools w1 ls w2 Hp _ IH]; intros i allTools.
  - cbn. now rewrite app_nil_r.
  - cbn [listToolsLoop]. unfold bind, listTools. rewrite Hp.
    rewrite IH. cbn [concat length]. rewrite listCalls_succ, app_assoc. reflexivity.
Qed.

Lemma listToolsLoop_failed (pre : list (ToolProvider Object World)) w ls w1 :
  Listed pre w ls w1 ->
  forall p err w2, ListTools p w1 = (inl err, w2) ->
  forall post i allTools,
    listToolsLoop i (pre ++ p :: post) allTools w
      = (inl err, w2, listCalls i (S (length pre))).
Proof.
  induction 1 as [w|q pre w tools w1 ls w2 Hq _ IH]; intros p err w3 Hp post i allTools.
  - cbn. unfold bind, listTools. rewrite Hp. reflexivity.
  - cbn [app listToolsLoop]. unfold bind, listTools. rewrite Hq.
    rewrite (IH p err w3 Hp). cbn [length]. rewrite (listCalls_succ i). reflexivity.
Qed.

(** The two cases of the aggregate listing are the only ones. *)
Lemma listing_succeeds_or_first_failure (tps : list (ToolProvider Object World)) :
  forall w,
  (exists ls w1, Listed tps w ls w1) \/
  (exists pre p post ls w1 err w2,
     tps = pre ++ p :: post /\ Listed pre w ls w1 /\
     ListTools p w1 = (inl err, w2)).
Proof.
  induction tps as [|p tps IH]; intros w.
  - left. exists [], w. constructor.
  - destruct (ListTools p w) as [[err|tools] w1] eqn:Hp.
    + right. exists [], p, tps, [], w, err, w1. repeat split; [constructor|exact Hp].
    + destruct (IH w1) as [(ls & w2 & Hl)|(pre & q & post & ls & w2 & err & w3 & -> & Hl & Hq)].
      * left. exists (tools :: ls), w2. econstructor; eassumption.
      * right. exists (p :: pre), q, post, (tools :: ls), w2, err, w3.
        repeat split; [econstructor; eassumption|exact Hq].
Qed.

Lemma length_concat_sum (A : Type) (ls : list (list A)) :
  length (concat ls) = list_sum (map (@length A) ls).
Proof.
  induction ls as [|l ls IH]; cbn; [reflexivity|].
  now rewrite length_app, IH.
Qed.

(** Claim C3. On a Ready session, for the providers registered in the order
    [tps]: when every provider returns a listing, tools/list has called
    ListTools on each provider once, in registration order, and its result
    is the concatenation of the listings, whose length is the sum of the
    listings' lengths; when a provider's ListTools fails (those before it
    having succeeded), the response is the error -32603 with the failure
    text as data and carries no result, so no partial list. *)
Theorem tools_list_concatenates_or_fails tps rps c message w :
  Connection_server c = registerAll tps rps ->
  Connection_initialized c = true ->
  Message_Method message = "tools/list" ->
  Message_ID message <> None ->
  (forall ls w1,
     Listed tps w ls w1 ->
     exists r allTools,
       handleMessage c message w = (Some r, c, w1, listCalls 0 (length tps)) /\
       Response_JSONRPC r = "2.0" /\
       Response_ID r = Message_ID message /\
       Response_Result r = Some (ResultTools allTools) /\
       Response_Error r = None /\
       allTools = concat ls /\
       length allTools = list_sum (map (@length _) ls)) /\
  (forall pre p post ls w1 err w2,
     tps = pre ++ p :: post ->
     Listed pre w ls w1 ->
     ListTools p w1 = (inl err, w2) ->
     exists r,
       handleMessage c message w = (Some r, c, w2, listCalls 0 (S (length pre))) /\
       Response_JSONRPC r = "2.0" /\
       Response_ID r = Message_ID message /\
       Response_Result r = None /\
       Response_Error r =
         Some {| Error_Code := (-32603)%Z;
                 Error_Message := "Failed to list tools";
                 Error_Data := Some err |}).
Proof.
  intros Hs Hinit Hm Hid.
  assert (Hh : handleMessage c message = (r <- handleListTools c message ;; ret (Some r, c))).
  { unfold_dispatch. rewrite Hm.
    destruct (Message_ID message); [reflexivity|congruence]. }
  rewrite Hh. unfold_handlers. rewrite Hinit, Hs, registerAll_toolProviders. cbn [negb].
  split.
  - intros ls w1 Hl. exists (NewResponse (Message_ID message) (ResultTools (concat ls))).
    exists (concat ls). split.
    + unfold bind. rewrite (listToolsLoop_listed Hl). cbn.
      now rewrite !app_nil_r.
    + do 5 (split; [reflexivity|]). apply length_concat_sum.
  - intros pre p post ls w1 err w2 -> Hl Hp. eexists. split.
    + unfold bind. rewrite (listToolsLoop_failed Hl _ Hp). cbn.
      now rewrite !app_nil_r.
    + repeat split.
Qed.

(** ** Dispatch of tools/call *)

Lemma callToolInner_miss i (p : ToolProvider Object World) req tools w :
  ~ In (ToolCallRequest_Name req) (map (@Tool_Name Object) tools) ->
  callToolInner i p req tools w = (None, w, []).
Proof.
  induction tools as [|t tools IH]; intros Hnot; cbn; [reflexivity|].
  destruct (Tool_Name t =? ToolCallRequest_Name req) eqn:E.
  - apply String.eqb_eq in E. exfalso. apply Hnot. now left.
  - apply IH. intros Hin. apply Hnot. now right.
Qed.

Lemma callToolInner_hit i (p : ToolProvider Object World) req tools w out w1 :
  In (ToolCallRequest_Name req) (map (@Tool_Name Object) tools) ->
  CallTool p req w = (out, w1) ->
  callToolInner i p req tools w = (Some out, w1, [CallCallTool i req]).
Proof.
  intros Hin Hcall. induction tools as [|t tools IH]; [contradiction|].
  cbn. destruct (Tool_Name t =? ToolCallRequest_Name req) eqn:E.
  - unfold bind, callTool. rewrite Hcall. reflexivity.
  - apply IH. destruct Hin as [Heq|Hin]; [|exact Hin].
    apply String.eqb_neq in E. congruence.
Qed.

(** Providers that do not offer the tool are listed and passed over. *)
Lemma callToolLoop_skipped req (pre : list (ToolProvider Object World)) w w1 :
  Skipped (ToolCallRequest_Name req) pre w w1 ->
  forall i rest out w2 log,
    callToolLoop (i + length pre) rest req w1 = (out, w2, log) ->
    callToolLoop i (pre ++ rest) req w = (out, w2, listCalls i (length pre) ++ log).
Proof.
  induction 1 as [w|p pre w r w1 w2 Hp Hno _ IH]; intros i rest out w3 log Hrest.
  - cbn in *. now rewrite Nat.add_0_r in Hrest.
  - cbn [length] in Hrest. rewrite Nat.add_succ_r in Hrest.
    specialize (IH (S i) rest out w3 log Hrest).
    cbn [app callToolLoop length]. unfold bind at 1. unfold listTools. rewrite Hp.
    rewrite listCalls_succ.
    destruct r as [err|tools].
    + rewrite IH. reflexivity.
    + unfold bind. rewrite (callToolInner_miss i p req tools w1 Hno).
      rewrite IH. reflexivity.
Qed.

(** The first provider that offers the tool is the one invoked. *)
Lemma callToolLoop_first req (pre : list (ToolProvider Object World)) w w1 :
  Skipped (ToolCallRequest_Name req) pre w w1 ->
  forall p tools w2 out w3 post,
    ListTools p w1 = (inr tools, w2) ->
    In (ToolCallRequest_Name req) (map (@Tool_Name Object) tools) ->
    CallTool p req w2 = (out, w3) ->
    callToolLoop 0 (pre ++ p :: post) req w
      = (Some out, w3,
         listCalls 0 (S (length pre)) ++ [CallCallTool (length pre) req]).
Proof.
  intros Hskip p tools w2 out w3 post Hp Hin Hcall.
  rewrite listCalls_last, <- app_assoc.
  eapply callToolLoop_skipped; [exact Hskip|]. cbn [Nat.add callToolLoop].
  unfold bind at 1. unfold listTools. rewrite Hp.
  unfold bind. erewrite callToolInner_hit by eassumption. reflexivity.
Qed.

(** Either every provider is passed over, or there is a first provider
    that offers the tool. *)
Lemma skipped_or_first_offer name (tps : list (ToolProvider Object World)) :
  forall w,
  (exists w1, Skipped name tps w w1) \/
  (exists pre p post w1 tools w2,
     tps = pre ++ p :: post /\ Skipped name pre w w1 /\
     ListTools p w1 = (inr tools, w2) /\
     In name (map (@Tool_Name Object) tools)).
Proof.
  induction tps as [|p tps IH]; intros w.
  - left. exists w. constructor.
  - destruct (ListTools p w) as [r w1] eqn:Hp.
    assert (Hdec : offers name r \/ ~ offers name r).
    { destruct r as [err|tools]; cbn; [now right|].
      destruct (in_dec string_dec name (map (@Tool_Name Object) tools)); auto. }
    destruct Hdec as [Hyes|Hno].
    + right. destruct r as [err|tools]; [contradiction|].
      exists [], p, tps, w, tools, w1. repeat split; [constructor|exact Hp|exact Hyes].
    + destruct (IH w1) as [(w2 & Hs)|(pre & q & post & w2 & tools & w3 & -> & Hs & Hq & Hin)].
      * left. exists w2. econstructor; eassumption.
      * right. exists (p :: pre), q, post, w2, tools, w3.
        repeat split; [econstructor; eassumption|exact Hq|exact Hin].
Qed.

Lemma answers_and_continues c message w r w1 log :
  handleMessage c message w = (Some r, c, w1, log) ->
  answersAndContinues c message w r w1 log.
Proof.
  intros Hh. split; [exact Hh|].
  intros rest conn Hw. eapply messageLoop_answered; eassumption.
Qed.

Lemma handleMessage_tools_call c message params req :
  Connection_initialized c = true ->
  Message_Method message = "tools/call" ->
  Message_ID message <> None ->
  Message_Params message = Some params ->
  unmarshalToolCall params = inr req ->
  forall w found w1 log,
    callToolLoop 0 (toolProviders (Connection_server c)) req w = (found, w1, log) ->
    handleMessage c message w =
      (Some match found with
            | Some (inl err) =>
                NewErrorResponse (Message_ID message) (-32603)
                  "Tool execution failed" (Some err)
            | Some (inr response) =>
                NewResponse (Message_ID message) (ResultToolCall response)
            | None =>
                NewErrorResponse (Message_ID message) (-32601)
                  ("Tool not found: " ++ ToolCallRequest_Name req)%string None
            end, c, w1, log).
Proof.
  intros Hinit Hm Hid Hparams Hdec w found w1 log Hloop.
  unfold_dispatch. rewrite Hm.
  destruct (Message_ID message) as [id|] eqn:Eid; [|congruence].
  cbn. unfold_handlers. rewrite Hinit, Hparams, Hdec, Eid. cbn [negb].
  unfold bind. rewrite Hloop.
  destruct found as [[err|response]|]; cbn; now rewrite !app_nil_r.
Qed.

(** Claim C2. On a Ready session, for tools/call whose params decode to a
    request for the tool [name]: when no registered provider's listing
    contains [name] (a provider whose listing fails has none), the response
    is the error -32601; when the first provider, in registration order,
    whose listing contains [name] returns an error from CallTool, the
    response is the error -32603 with that error's text as data. In both
    cases the session state is unchanged and the loop, having written the
    response, handles the following frames. *)
Theorem tools_call_not_found_or_failed c message w params req :
  Connection_initialized c = true ->
  Message_Method message = "tools/call" ->
  Message_ID message <> None ->
  Message_Params message = Some params ->
  unmarshalToolCall params = inr req ->
  let name := ToolCallRequest_Name req in
  let tps := toolProviders (Connection_server c) in
  (forall w1,
     Skipped name tps w w1 ->
     exists r,
       answersAndContinues c message w r w1 (listCalls 0 (length tps)) /\
       Response_JSONRPC r = "2.0" /\
       Response_ID r = Message_ID message /\
       Response_Result r = None /\
       Response_Error r =
         Some {| Error_Code := (-32601)%Z;
                 Error_Message := ("Tool not found: " ++ name)%string;
                 Error_Data := None |}) /\
  (forall pre p post w1 tools w2 err w3,
     tps = pre ++ p :: post ->
     Skipped name pre w w1 ->
     ListTools p w1 = (inr tools, w2) ->
     In name (map (@Tool_Name Object) tools) ->
     CallTool p req w2 = (inl err, w3) ->
     exists r,
       answersAndContinues c message w r w3
         (listCalls 0 (S (length pre)) ++ [CallCallTool (length pre) req]) /\
       Response_JSONRPC r = "2.0" /\
       Response_ID r = Message_ID message /\
       Response_Result r = None /\
       Response_Error r =
         Some {| Error_Code := (-32603)%Z;
                 Error_Message := "Tool execution failed";
                 Error_Data := Some err |}).
Proof.
  intros Hinit Hm Hid Hparams Hdec name tps. split.
  - intros w1 Hskip.
    assert (Hloop : callToolLoop 0 tps req w = (None, w1, listCalls 0 (length tps))).
    { rewrite <- (app_nil_r tps) at 1.
      rewrite <- (app_nil_r (listCalls 0 (length tps))).
      eapply callToolLoop_skipped; [exact Hskip|]. reflexivity. }
    eexists. split.
    { apply answers_and_continues.
      exact (@handleMessage_tools_call c message params req
               Hinit Hm Hid Hparams Hdec w _ _ _ Hloop). }
    repeat split.
  - intros pre p post w1 tools w2 err w3 Htps Hskip Hp Hin Hcall.
    assert (Hloop : callToolLoop 0 tps req w
                    = (Some (inl err), w3,
                       listCalls 0 (S (length pre)) ++ [CallCallTool (length pre) req])).
    { rewrite Htps. eapply callToolLoop_first; eassumption. }
    eexists. split.
    { apply answers_and_continues.
      exact (@handleMessage_tools_call c message params req
               Hinit Hm Hid Hparams Hdec w _ _ _ Hloop). }
    repeat split.
Qed.

(** Claim C5. Provider A is registered ahead of provider B, both list a tool
    called [name], and no provider registered ahead of A lists it. Then a
    Ready-state tools/call for [name] lists the providers up to A, invokes
    A's CallTool once and answers with what A returned (its result, or the
    error -32603 carrying its failure); B, at position
    [length pre + 1 + length mid], is neither listed nor invoked. *)
Theorem first_registered_provider_wins pre A mid B post rps c message w params req
    w1 tools w2 out w3 :
  Connection_server c = registerAll (pre ++ A :: mid ++ B :: post) rps ->
  Connection_initialized c = true ->
  Message_Method message = "tools/call" ->
  Message_ID message <> None ->
  Message_Params message = Some params ->
  unmarshalToolCall params = inr req ->
  let name := ToolCallRequest_Name req in
  Skipped name pre w w1 ->
  ListTools A w1 = (inr tools, w2) ->
  In name (map (@Tool_Name Object) tools) ->
  (forall wB, offers name (fst (ListTools B wB))) ->
  CallTool A req w2 = (out, w3) ->
  exists r log,
    handleMessage c message w = (Some r, c, w3, log) /\
    Response_JSONRPC r = "2.0" /\
    Response_ID r = Message_ID message /\
    match out with
    | inl err =>
        Response_Result r = None /\
        Response_Error r =
          Some {| Error_Code := (-32603)%Z;
                  Error_Message := "Tool execution failed";
                  Error_Data := Some err |}
    | inr response =>
        Response_Result r = Some (ResultToolCall response) /\
        Response_Error r = None
    end /\
    log = listCalls 0 (S (length pre)) ++ [CallCallTool (length pre) req] /\
    (forall request, ~ In (CallCallTool (length pre + 1 + length mid) request) log) /\
    ~ In (CallListTools (length pre + 1 + length mid)) log.
Proof.
  intros Hs Hinit Hm Hid Hparams Hdec name Hskip HA Hin _ Hcall.
  assert (Hloop : callToolLoop 0 (toolProviders (Connection_server c)) req w
                  = (Some out, w3,
                     listCalls 0 (S (length pre)) ++ [CallCallTool (length pre) req])).
  { rewrite Hs, registerAll_toolProviders. eapply callToolLoop_first; eassumption. }
  do 2 eexists. split.
  { exact (@handleMessage_tools_call c message params req
             Hinit Hm Hid Hparams Hdec w _ _ _ Hloop). }
  split; [now destruct out|]. split; [now destruct out|].
  split; [destruct out; split; reflexivity|]. split; [reflexivity|].
  split.
  - intros request [Hl|[Hc|[]]]%in_app_or.
    + unfold listCalls in Hl. apply in_map_iff in Hl as (k & Hk & _). discriminate.
    + injection Hc as Hc _. lia.
  - intros [Hl|[Hc|[]]]%in_app_or; [|discriminate].
    unfold listCalls in Hl. apply in_map_iff in Hl as (k & Hk & Hseq).
    injection Hk as ->. apply in_seq in Hseq. lia.
Qed.

(** ** The message loop *)

Lemma bind_assoc (A B C : Type) (m : Eff Object World A)
    (k : A -> Eff Object World B) (h : B -> Eff Object World C) w :
  bind (bind m k) h w = bind m (fun a => bind (k a) h) w.
Proof.
  unfold bind. destruct (m w) as [[a w1] l1].
  destruct (k a w1) as [[b w2] l2]. destruct (h b w2) as [[x w3] l3].
  now rewrite app_assoc.
Qed.

Lemma bind_ext (A B : Type) (m : Eff Object World A)
    (k k' : A -> Eff Object World B) w :
  (forall a w1, k a w1 = k' a w1) -> bind m k w = bind m k' w.
Proof.
  intros H. unfold bind. destruct (m w) as [[a w1] l1]. now rewrite H.
Qed.

(** Every response carries the id of the request it answers. *)
Lemma handleRequest_echoes_id c message w :
  Response_ID (fst (fst (handleRequest c message w))) = Message_ID message.
Proof.
  unfold handleRequest, handleInitialize.
  unfold_handlers. unfold bind, ret.
  repeat (break_match; cbn; try reflexivity).
  all: repeat match goal with
         | H : match ?x with _ => _ end _ = _ |- _ => destruct x
         end.
  all: match goal with
       | H : _ = (?r, _, _) |- Response_ID ?r = _ => now injection H as <- _ _
       end.
Qed.

Lemma handleMessage_response c message w resp c1 w1 log :
  handleMessage c message w = (resp, c1, w1, log) ->
  match resp with
  | Some r => isNotification message = false /\ Response_ID r = Message_ID message
  | None => isNotification message = true
  end.
Proof.
  unfold handleMessage, isNotification.
  destruct (Message_Method message =? "") eqn:Em;
    destruct (Message_ID message) as [id|] eqn:Eid; cbn.
  - intros H. injection H as <- _ _ _. now split.
  - intros H. injection H as <- _ _ _. now split.
  - unfold bind. intros H.
    pose proof (handleRequest_echoes_id c message w) as Hecho.
    destruct (handleRequest c message w) as [[r w2] l2].
    cbn in H, Hecho. injection H as <- _ _ _. split; [reflexivity|congruence].
  - intros H. now injection H as <- _ _ _.
Qed.

Lemma WriteJSON_unlimited (conn : Socket Value Object) r :
  Socket_writable conn = None ->
  WriteJSON conn r =
    (true, {| Socket_written := Socket_written conn ++ [r];
              Socket_writable := None;
              Socket_closed := Socket_closed conn |}).
Proof. unfold WriteJSON. now intros ->. Qed.

Lemma answers_nil (incoming : list (ReadResult Value)) :
  answersNonNotificationsInOrder (Object := Object) incoming [].
Proof. intros i r H. destruct i; discriminate. Qed.

Lemma answers_cons message rest (r : Response Value Object) extra :
  isNotification message = false ->
  Response_ID r = Message_ID message ->
  answersNonNotificationsInOrder rest extra ->
  answersNonNotificationsInOrder (ReadOk message :: rest) (r :: extra).
Proof.
  intros Hnot Hid Hord i r0 Hi. cbn. rewrite Hnot. cbn.
  destruct i as [|i]; cbn in *.
  - injection Hi as <-. eauto.
  - apply Hord, Hi.
Qed.

Lemma answers_skip message rest (extra : list (Response Value Object)) :
  isNotification message = true ->
  answersNonNotificationsInOrder rest extra ->
  answersNonNotificationsInOrder (ReadOk message :: rest) extra.
Proof.
  intros Hnot Hord i r0 Hi. cbn. rewrite Hnot. cbn. apply Hord, Hi.
Qed.

(** What the loop writes: responses to the envelopes that are not
    Notifications, in the order these were read; all of them when the
    socket never fails. *)
Lemma messageLoop_written incoming :
  forall c conn w,
  exists extra,
    Socket_written (snd (fst (fst (messageLoop incoming c conn w))))
      = Socket_written conn ++ extra /\
    answersNonNotificationsInOrder incoming extra /\
    (Socket_writable conn = None ->
     length extra
       = length (filter (fun m => negb (isNotification m)) (readable incoming))).
Proof.
  induction incoming as [|[message|] rest IH]; intros c conn w.
  - exists []. cbn. rewrite app_nil_r. auto using answers_nil.
  - cbn [messageLoop]. unfold bind.
    destruct (handleMessage c message w) as [[[resp c1] w1] l1] eqn:Hh.
    pose proof (handleMessage_response _ _ _ Hh) as Hresp.
    destruct resp as [r|].
    + destruct Hresp as [Hnot Hid].
      destruct (WriteJSON conn r) as [ok conn1] eqn:Hwrite.
      unfold WriteJSON in Hwrite.
      destruct (Socket_writable conn) as [[|n]|] eqn:Hw;
        injection Hwrite as <- <-.
      * exists []. cbn. rewrite app_nil_r. split; [reflexivity|].
        split; [apply answers_nil|discriminate].
      * match goal with
        | |- context [messageLoop rest c1 ?k w1] =>
            destruct (IH c1 k w1) as (extra & Hwr & Hord & _);
            destruct (messageLoop rest c1 k w1) as [[x w2] l2]
        end.
        exists (r :: extra). cbn in *. rewrite Hwr, <- app_assoc.
        split; [reflexivity|]. split; [|discriminate].
        now apply answers_cons.
      * match goal with
        | |- context [messageLoop rest c1 ?k w1] =>
            destruct (IH c1 k w1) as (extra & Hwr & Hord & Hlen);
            destruct (messageLoop rest c1 k w1) as [[x w2] l2]
        end.
        exists (r :: extra). cbn in *. rewrite Hwr, <- app_assoc.
        split; [reflexivity|]. split; [now apply answers_cons|].
        intros _. rewrite Hnot. cbn. now rewrite Hlen.
    + destruct (IH c1 conn w1) as (extra & Hwr & Hord & Hlen).
      destruct (messageLoop rest c1 conn w1) as [[x w2] l2].
      exists extra. cbn in *. rewrite Hresp. cbn.
      split; [exact Hwr|]. split; [now apply answers_skip|exact Hlen].
  - exists []. cbn. rewrite app_nil_r. auto using answers_nil.
Qed.

(** Handling a stream is handling a first part to its end, then the rest
    from the state the first part left. *)
Lemma messageLoop_sequential before after :
  forall c conn w,
  Socket_writable conn = None ->
  messageLoop (map (@ReadOk Value) before ++ after) c conn w =
    (x <- messageLoop (map (@ReadOk Value) before) c conn ;;
     messageLoop after (fst x) (snd x)) w.
Proof.
  induction before as [|message before IH]; intros c conn w Hw.
  - cbn. unfold bind, ret.
    destruct (messageLoop after c conn w) as [[x w1] l1]. reflexivity.
  - cbn [map app messageLoop]. rewrite bind_assoc. apply bind_ext.
    intros [[r|] c1] w1.
    + rewrite (@WriteJSON_unlimited conn r Hw). now apply IH.
    + now apply IH.
Qed.

(** Nothing after a read error matters. *)
Lemma messageLoop_stops_at_error before after :
  forall c conn w,
  messageLoop (map (@ReadOk Value) before ++ ReadErr :: after) c conn w =
    messageLoop (map (@ReadOk Value) before) c conn w.
Proof.
  induction before as [|message before IH]; intros c conn w.
  - reflexivity.
  - cbn [map app messageLoop]. apply bind_ext.
    intros [[r|] c1] w1.
    + destruct (WriteJSON conn r) as [[|] conn1]; [apply IH|reflexivity].
    + apply IH.
Qed.

Lemma readable_all_ok (messages : list (Message Value)) :
  readable (map (@ReadOk Value) messages) = messages.
Proof.
  induction messages as [|m messages IH]; cbn; [reflexivity|]. now rewrite IH.
Qed.

(** Claim C7, amended. For every stream of frames on one connection: the
    responses written by the loop are, in order, answers to the envelopes
    read that are not Notifications (Requests, and envelopes without a
    method, which get the InvalidRequest error); the i-th response written
    carries the id of the i-th such envelope, and when the socket accepts
    the writes there is exactly one response for each of them, none for a
    Notification. And handling is sequential:
    as long as the socket accepts writes, the run on a stream is the run on
    any first part of it, carried to its end, followed by the run on the
    rest from the session state, socket and provider world the first part
    left, the provider calls of the first part preceding those of the
    rest. *)
Theorem responses_follow_arrival_order incoming c conn w :
  (exists extra,
     Socket_written (snd (fst (fst (messageLoop incoming c conn w))))
       = Socket_written conn ++ extra /\
     answersNonNotificationsInOrder incoming extra /\
     (Socket_writable conn = None ->
      length extra
        = length (filter (fun m => negb (isNotification m)) (readable incoming)))) /\
  (forall before after,
     incoming = map (@ReadOk Value) before ++ after ->
     Socket_writable conn = None ->
     messageLoop incoming c conn w =
       (x <- messageLoop (map (@ReadOk Value) before) c conn ;;
        messageLoop after (fst x) (snd x)) w).
Proof.
  split.
  - apply messageLoop_written.
  - intros before after -> Hw. now apply messageLoop_sequential.
Qed.

(** Claim C8. When [ReadJSON] fails on a frame, the frames before it having been
    read, the loop is left at once: at the failing frame nothing is written
    and no provider is called; the whole run is the run on the frames
    before it, so no later frame is handled or answered; the socket is
    closed; what was written are answers to frames before the failing one,
    one for each of them that is not a Notification when the socket
    accepted the writes. *)
Theorem read_error_ends_session s conn before after w :
  (forall c conn0 w0,
     messageLoop (ReadErr :: after) c conn0 w0 = (c, conn0, w0, [])) /\
  handleWebSocket s (Some conn) (map (@ReadOk Value) before ++ ReadErr :: after) w
    = handleWebSocket s (Some conn) (map (@ReadOk Value) before) w /\
  exists c1 conn1 w1 log extra,
    handleWebSocket s (Some conn) (map (@ReadOk Value) before ++ ReadErr :: after) w
      = (Some (c1, conn1), w1, log) /\
    Socket_closed conn1 = true /\
    Socket_written conn1 = Socket_written conn ++ extra /\
    answersNonNotificationsInOrder (map (@ReadOk Value) before) extra /\
    (Socket_writable conn = None ->
     length extra = length (filter (fun m => negb (isNotification m)) before)).
Proof.
  split; [reflexivity|].
  unfold handleWebSocket, bind.
  rewrite messageLoop_stops_at_error.
  split; [reflexivity|].
  match goal with
  | |- context [messageLoop ?inc ?c conn w] =>
      destruct (messageLoop_written inc c conn w) as (extra & Hwr & Hord & Hlen);
      destruct (messageLoop inc c conn w) as [[[c1 conn1] w1] l1]
  end.
  cbn in Hwr. rewrite readable_all_ok in Hlen.
  exists c1, (Close conn1), w1, (l1 ++ []), extra. cbn. auto.
Qed.

End Properties.

(** * Runs on concrete envelopes *)

Module Runs.

Import GoJSON Demo.

(** Scenario 2 of the specification: tools/list before the handshake. *)
Lemma awaiting_initialize_rejects_requests_witness :
  exists r,
    handle (awaiting (registerAll [math] [])) (request 2 "tools/list" None) []
      = (Some r, awaiting (registerAll [math] []), [], []) /\
    Response_JSONRPC r = "2.0" /\
    Response_ID r = Some (JNumber 2) /\
    Response_Result r = None /\
    Response_Error r =
      Some {| Error_Code := (-32600)%Z;
              Error_Message := "Client not initialized";
              Error_Data := None |}.
Proof.
  refine (@awaiting_initialize_rejects_requests _ _ _ unmarshalInitialize
            unmarshalToolCall unmarshalResourceRead
            (awaiting (registerAll [math] [])) (request 2 "tools/list" None) []
            eq_refl _ _); [discriminate | cbn; auto].
Defined.

(** An unknown tool, and a known tool whose provider fails. *)
Lemma tools_call_not_found_or_failed_witness :
  let s := registerAll [math; faulty] [] in
  (exists r,
     answersAndContinues unmarshalInitialize unmarshalToolCall unmarshalResourceRead
       (ready s) (request 3 "tools/call" (Some (callParams "unknown_tool_xyz"))) []
       r ["faulty.ListTools"; "math.ListTools"]
       [CallListTools 0; CallListTools 1] /\
     Response_JSONRPC r = "2.0" /\
     Response_ID r = Some (JNumber 3) /\
     Response_Result r = None /\
     Response_Error r =
       Some {| Error_Code := (-32601)%Z;
               Error_Message := "Tool not found: unknown_tool_xyz";
               Error_Data := None |}) /\
  (exists r,
     answersAndContinues unmarshalInitialize unmarshalToolCall unmarshalResourceRead
       (ready s) (request 4 "tools/call" (Some (callParams "boom"))) []
       r ["faulty.CallTool"; "faulty.ListTools"; "math.ListTools"]
       [CallListTools 0; CallListTools 1;
        CallCallTool 1 {| ToolCallRequest_Name := "boom";
                          ToolCallRequest_Arguments := Some [] |}] /\
     Response_JSONRPC r = "2.0" /\
     Response_ID r = Some (JNumber 4) /\
     Response_Result r = None /\
     Response_Error r =
       Some {| Error_Code := (-32603)%Z;
               Error_Message := "Tool execution failed";
               Error_Data := Some "kaboom" |}).
Proof.
  intros s. split.
  - refine (proj1 (@tools_call_not_found_or_failed _ _ _ unmarshalInitialize
                     unmarshalToolCall unmarshalResourceRead (ready s)
                     (request 3 "tools/call" (Some (callParams "unknown_tool_xyz"))) []
                     (callParams "unknown_tool_xyz") _ eq_refl eq_refl _ eq_refl eq_refl)
              _ _); [discriminate|].
    eapply Skipped_cons; [reflexivity | cbn; intuition discriminate |].
    eapply Skipped_cons; [reflexivity | cbn; intuition discriminate |].
    apply Skipped_nil.
  - refine (proj2 (@tools_call_not_found_or_failed _ _ _ unmarshalInitialize
                     unmarshalToolCall unmarshalResourceRead (ready s)
                     (request 4 "tools/call" (Some (callParams "boom"))) []
                     (callParams "boom") _ eq_refl eq_refl _ eq_refl eq_refl)
              [math] faulty [] _ _ _ _ _ eq_refl _ eq_refl _ eq_refl);
      [discriminate | | cbn; auto].
    eapply Skipped_cons; [reflexivity | cbn; intuition discriminate |].
    apply Skipped_nil.
Defined.

(** Two providers with two tools each; then a registry whose second
    provider cannot list: the third provider is not asked. *)
Lemma tools_list_concatenates_or_fails_witness :
  (exists r allTools,
     handle (ready (registerAll [math; pingB] [])) (request 5 "tools/list" None) []
       = (Some r, ready (registerAll [math; pingB] []),
          ["B.ListTools"; "math.ListTools"],
          [CallListTools 0; CallListTools 1]) /\
     Response_JSONRPC r = "2.0" /\
     Response_ID r = Some (JNumber 5) /\
     Response_Result r = Some (ResultTools allTools) /\
     Response_Error r = None /\
     allTools = [tool "add"; tool "subtract"; tool "echo"; tool "ping"] /\
     length allTools = 2 + 2) /\
  exists r,
    handle (ready (registerAll [math; offline; pingA] [])) (request 6 "tools/list" None) []
      = (Some r, ready (registerAll [math; offline; pingA] []),
         ["offline.ListTools"; "math.ListTools"],
         [CallListTools 0; CallListTools 1]) /\
    Response_JSONRPC r = "2.0" /\
    Response_ID r = Some (JNumber 6) /\
    Response_Result r = None /\
    Response_Error r =
      Some {| Error_Code := (-32603)%Z;
              Error_Message := "Failed to list tools";
              Error_Data := Some "database unavailable" |}.
Proof.
  assert (Hid : forall n : Z, Some (JNumber n) <> None) by discriminate.
  split.
  - refine (proj1 (@tools_list_concatenates_or_fails _ _ _ unmarshalInitialize
                     unmarshalToolCall unmarshalResourceRead [math; pingB] []
                     (ready (registerAll [math; pingB] []))
                     (request 5 "tools/list" None) []
                     eq_refl eq_refl eq_refl (Hid 5%Z))
              [[tool "add"; tool "subtract"]; [tool "echo"; tool "ping"]]
              ["B.ListTools"; "math.ListTools"] _).
    eapply Listed_cons; [reflexivity|].
    eapply Listed_cons; [reflexivity|].
    apply Listed_nil.
  - refine (proj2 (@tools_list_concatenates_or_fails _ _ _ unmarshalInitialize
                     unmarshalToolCall unmarshalResourceRead [math; offline; pingA] []
                     (ready (registerAll [math; offline; pingA] []))
                     (request 6 "tools/list" None) []
                     eq_refl eq_refl eq_refl (Hid 6%Z))
              [math] offline [pingA] [[tool "add"; tool "subtract"]]
              ["math.ListTools"] "database unavailable"
              ["offline.ListTools"; "math.ListTools"] eq_refl _ eq_refl).
    eapply Listed_cons; [reflexivity|]. apply Listed_nil.
Defined.

(** Scenario 5 of the specification, with a provider ahead of A that does
    not list "ping" and one between A and B whose listing fails. *)
Lemma first_registered_provider_wins_witness :
  let s := registerAll ([math] ++ pingA :: [offline] ++ pingB :: []) [] in
  let req := {| ToolCallRequest_Name := "ping"; ToolCallRequest_Arguments := Some [] |} in
  exists r log,
    handle (ready s) (request 7 "tools/call" (Some (callParams "ping"))) []
      = (Some r, ready s, ["A.CallTool"; "A.ListTools"; "math.ListTools"], log) /\
    Response_JSONRPC r = "2.0" /\
    Response_ID r = Some (JNumber 7) /\
    (Response_Result r = Some (ResultToolCall (text "pong from A")) /\
     Response_Error r = None) /\
    log = [CallListTools 0; CallListTools 1; CallCallTool 1 req] /\
    (forall request, ~ In (CallCallTool 3 request) log) /\
    ~ In (CallListTools 3) log.
Proof.
  intros s req.
  refine (@first_registered_provider_wins _ _ _ unmarshalInitialize
            unmarshalToolCall unmarshalResourceRead
            [math] pingA [offline] pingB [] [] (ready s)
            (request 7 "tools/call" (Some (callParams "ping"))) []
            (callParams "ping") req ["math.ListTools"] [tool "ping"]
            ["A.ListTools"; "math.ListTools"] (inr (text "pong from A"))
            ["A.CallTool"; "A.ListTools"; "math.ListTools"]
            eq_refl eq_refl eq_refl _ eq_refl eq_refl _ eq_refl _ _ eq_refl).
  - discriminate.
  - eapply Skipped_cons; [reflexivity | cbn; intuition discriminate |].
    apply Skipped_nil.
  - cbn. auto.
  - intros wB. cbn. auto.
Defined.

(** The handshake notification on a fresh session. *)
Lemma initialized_notification_idempotent_witness :
  exists c1,
    handle (awaiting (registerAll [math] [])) (notification "initialized") []
      = (None, c1, [], []) /\
    Connection_initialized c1 = true /\
    Connection_server c1 = registerAll [math] [] /\
    (false = true -> c1 = awaiting (registerAll [math] [])) /\
    handle c1 (notification "initialized") [] = (None, c1, [], []).
Proof.
  exact (@initialized_notification_idempotent _ _ _ unmarshalInitialize
           unmarshalToolCall unmarshalResourceRead
           (awaiting (registerAll [math] [])) (notification "initialized") []
           eq_refl eq_refl).
Defined.

(** A notification the server does not know. *)
Lemma notification_gets_no_response_witness :
  let c := ready (registerAll [math] []) in
  handle c (notification "notifications/cancelled") [] = (None, c, [], []) /\
  forall rest conn,
    loop (ReadOk (notification "notifications/cancelled") :: rest) c conn []
      = loop rest c conn [].
Proof.
  intros c.
  refine (@notification_gets_no_response _ _ _ unmarshalInitialize
            unmarshalToolCall unmarshalResourceRead
            c (notification "notifications/cancelled") [] _ eq_refl).
  discriminate.
Defined.

(** An envelope with neither method nor id. *)
Lemma invalid_envelope_is_answered_witness :
  let c := awaiting (registerAll [math] []) in
  exists r,
    handle c (invalid None) [] = (Some r, c, [], []) /\
    Response_JSONRPC r = "2.0" /\
    Response_ID r = None /\
    Response_Result r = None /\
    Response_Error r =
      Some {| Error_Code := (-32600)%Z;
              Error_Message := "Invalid message format";
              Error_Data := None |} /\
    forall rest conn,
      Socket_writable conn <> Some 0 ->
      loop (ReadOk (invalid None) :: rest) c conn []
        = loop rest c (snd (WriteJSON conn r)) [] /\
      Socket_written (snd (WriteJSON conn r)) = Socket_written conn ++ [r].
Proof.
  intros c.
  exact (@invalid_envelope_is_answered _ _ _ unmarshalInitialize
           unmarshalToolCall unmarshalResourceRead c (invalid None) [] eq_refl).
Defined.

(** Scenario 1 of the specification. *)
Lemma initialize_result_or_invalid_params_witness :
  let c := awaiting (registerAll [math] []) in
  let message := request 1 "initialize" (Some initializeParams) in
  exists r,
    handle c message [] = (Some r, c, [], []) /\
    Response_ID r = Some (JNumber 1) /\
    exists result,
      Response_Result r = Some (ResultInitialize result) /\
      Response_Error r = None /\
      InitializeResponse_ProtocolVersion result = "2024-11-05" /\
      ServerInfo_Name (InitializeResponse_ServerInfo result) = "MCP Server Go" /\
      ServerInfo_Name (InitializeResponse_ServerInfo result) <> "".
Proof.
  intros c message.
  destruct (@initialize_result_or_invalid_params _ _ _ unmarshalInitialize
              unmarshalToolCall unmarshalResourceRead c message [] eq_refl)
    as (r & Hh & Hid & Hok & _).
  - discriminate.
  - exists r. split; [exact Hh|]. split; [exact Hid|].
    apply Hok. right. eexists _, _. split; reflexivity.
Defined.

(** An initialize Request whose params are a JSON string: the answer is
    the InvalidParams error, not an InitializeResult. *)
Lemma initialize_undecodable_params_counterexample :
  let c := awaiting (registerAll [math] []) in
  let message := request 1 "initialize" (Some (JString "not-an-object")) in
  handle c message []
    = (Some (NewErrorResponse (Some (JNumber 1)) (-32602)
               "Invalid initialize parameters"
               (Some "json: cannot unmarshal string into Go value of type mcp.InitializeRequest")),
       c, [], []) /\
  ~ (exists r result,
       fst (fst (fst (handle c message []))) = Some r /\
       Response_Result r = Some (ResultInitialize result) /\
       InitializeResponse_ProtocolVersion result = "2024-11-05" /\
       ServerInfo_Name (InitializeResponse_ServerInfo result) <> "").
Proof.
  intros c message. split; [reflexivity|].
  intros (r & result & Hr & Hres & _). cbn in Hr. injection Hr as <-. discriminate.
Qed.

(** The handshake, then a first part of the stream against the rest. *)
Lemma responses_follow_arrival_order_witness :
  let c := awaiting (registerAll [math] []) in
  let before := [request 1 "initialize" (Some initializeParams);
                 notification "initialized"] in
  let after := [ReadOk (request 2 "tools/list" None)] in
  loop (map (@ReadOk json) before ++ after) c socket []
    = bind (loop (map (@ReadOk json) before) c socket)
        (fun x => loop after (fst x) (snd x)) [].
Proof.
  intros c before after.
  exact (proj2 (@responses_follow_arrival_order _ _ _ unmarshalInitialize
                  unmarshalToolCall unmarshalResourceRead
                  (map (@ReadOk json) before ++ after) c socket [])
           before after eq_refl eq_refl).
Defined.

(** An envelope without a method, then a Request: two responses are
    written, and the first one does not answer the first Request. *)
Lemma requests_only_ordering_counterexample :
  let incoming := [ReadOk (invalid (Some (JNumber 7)));
                   ReadOk (request 1 "initialize" None)] in
  let written :=
    Socket_written (snd (fst (fst (loop incoming (awaiting NewMCPServer) socket [])))) in
  map (@Response_ID json object) written = [Some (JNumber 7); Some (JNumber 1)] /\
  map (@Message_ID json) (filter (@isRequest json) (readable incoming))
    = [Some (JNumber 1)] /\
  ~ answersRequestsInOrder incoming written.
Proof.
  intros incoming written. split; [reflexivity|]. split; [reflexivity|].
  intros H. destruct (H 0 _ eq_refl) as (m & Hm & Hid).
  cbn in Hm. injection Hm as <-. discriminate.
Qed.

(** Scenario 4 of the specification: a frame that does not decode, after
    one Request and before another. *)
Lemma read_error_ends_session_witness :
  let s := registerAll [math] [] in
  let before := [request 1 "initialize" None] in
  let after := [ReadOk (request 2 "tools/list" None)] in
  exists c1 conn1 w1 log extra,
    serve s (Some socket) (map (@ReadOk json) before ++ ReadErr :: after) []
      = (Some (c1, conn1), w1, log) /\
    Socket_closed conn1 = true /\
    Socket_written conn1 = [] ++ extra /\
    answersNonNotificationsInOrder (map (@ReadOk json) before) extra /\
    (Socket_writable socket = None -> length extra = 1).
Proof.
  intros s before after.
  exact (proj2 (proj2 (@read_error_ends_session _ _ _ unmarshalInitialize
                         unmarshalToolCall unmarshalResourceRead
                         s socket before after []))).
Defined.

(** A whole session: handshake, listing, a call, and the peer leaving. *)
Example session_transcript :
  let s := registerAll [math; pingA] [] in
  let incoming :=
    [ReadOk (request 1 "initialize" (Some initializeParams));
     ReadOk (request 2 "tools/list" None);
     ReadOk (notification "initialized");
     ReadOk (request 3 "tools/list" None);
     ReadOk (request 4 "tools/call" (Some (callParams "ping")));
     ReadOk (request 5 "prompts/list" None)] in
  exists c1 conn1 w1 log r1,
    serve s (Some socket) incoming [] = (Some (c1, conn1), w1, log) /\
    c1 = ready s /\
    Socket_closed conn1 = true /\
    Socket_written conn1 =
      [r1;
       NewErrorResponse (Some (JNumber 2)) (-32600) "Client not initialized" None;
       NewResponse (Some (JNumber 3))
         (ResultTools [tool "add"; tool "subtract"; tool "ping"]);
       NewResponse (Some (JNumber 4)) (ResultToolCall (text "pong from A"));
       NewErrorResponse (Some (JNumber 5)) (-32601) "Method not found: prompts/list" None] /\
    Response_ID r1 = Some (JNumber 1) /\
    log = [CallListTools 0; CallListTools 1;
           CallListTools 0; CallListTools 1;
           CallCallTool 1 {| ToolCallRequest_Name := "ping";
                             ToolCallRequest_Arguments := Some [] |}].
Proof.
  intros s incoming. do 5 eexists. repeat split.
Qed.

End Runs.

(** * Further properties of the engine *)

Section Coverage.

Context {Value Object World : Type}.
Variable unmarshalInitialize : Value -> string + InitializeRequest Object.
Variable unmarshalToolCall : Value -> string + ToolCallRequest Object.
Variable unmarshalResourceRead : Value -> string + ResourceReadRequest.

Local Abbreviation handleRequest :=
  (handleRequest (World := World) unmarshalInitialize unmarshalToolCall unmarshalResourceRead).
Local Abbreviation handleMessage :=
  (handleMessage (World := World) unmarshalInitialize unmarshalToolCall unmarshalResourceRead).
Local Abbreviation messageLoop :=
  (messageLoop (World := World) unmarshalInitialize unmarshalToolCall unmarshalResourceRead).
Local Abbreviation handleWebSocket :=
  (handleWebSocket (World := World) unmarshalInitialize unmarshalToolCall unmarshalResourceRead).
Local Notation "x <- m ;; k" := (bind m (fun x => k))
  (at level 100, m at next level, right associativity).

Implicit Types (c : Connection Object World) (message : Message Value) (w : World).

(** ** Routing *)

(** X1. A Request whose method is not one of the five the server knows is
    answered with the error -32601 "Method not found: <method>" in either
    session state, without calling a provider or changing the session. The
    method "initialized" sent with an id is such a Request: it does not
    complete the handshake. *)
Theorem unknown_method_not_found c message w :
  Message_ID message <> None ->
  Message_Method message <> "" ->
  ~ In (Message_Method message)
       ["initialize"; "tools/list"; "tools/call"; "resources/list"; "resources/read"] ->
  exists r,
    handleMessage c message w = (Some r, c, w, []) /\
    Response_JSONRPC r = "2.0" /\
    Response_ID r = Message_ID message /\
    Response_Result r = None /\
    Response_Error r =
      Some {| Error_Code := (-32601)%Z;
              Error_Message := ("Method not found: " ++ Message_Method message)%string;
              Error_Data := None |}.
Proof.
  intros Hid Hm Hnot.
  assert (Hh : handleMessage c message w =
                 (Some (NewErrorResponse (Message_ID message) (-32601)
                          ("Method not found: " ++ Message_Method message)%string None),
                  c, w, [])).
  { unfold_dispatch.
    destruct (Message_ID message) as [id|]; [|congruence].
    apply String.eqb_neq in Hm. rewrite Hm. cbn [negb andb isNil].
    assert (Hne : forall known,
               In known ["initialize"; "tools/list"; "tools/call";
                         "resources/list"; "resources/read"] ->
               (Message_Method message =? known) = false).
    { intros known Hin. apply String.eqb_neq. intros Heq. apply Hnot. now rewrite Heq. }
    unfold MethodInitialize, MethodListTools, MethodCallTool,
      MethodListResources, MethodReadResource.
    rewrite !Hne by (cbn; auto 6). reflexivity. }
  eexists. split; [exact Hh|]. repeat split.
Qed.

Lemma handleRequest_well_formed c message w :
  wellFormedFor message (fst (fst (handleRequest c message w))).
Proof.
  unfold handleRequest, handleInitialize.
  unfold_handlers. unfold bind, ret.
  repeat (break_match; cbn).
  all: repeat match goal with
         | H : match ?x with _ => _ end _ = _ |- _ => destruct x
         end.
  all: repeat match goal with
         | H : _ = (?r, _, _) |- wellFormedFor _ ?r => injection H as <- _ _
         end.
  all: split; [reflexivity|]; split; [reflexivity|].
  all: first [ left; eexists; split; reflexivity
             | right; eexists; split; [reflexivity|]; split; [reflexivity|];
               cbn; auto 6 ].
Qed.

(** X2. Whatever the envelope, the session state and the providers do:
    [handleMessage] returns no response exactly for a Notification, and
    any response it returns has version "2.0", the id of the envelope, and
    either a result and no error or an error and no result, the error code
    being one of -32600, -32601, -32602, -32603. *)
Theorem every_response_well_formed c message w :
  match fst (fst (fst (handleMessage c message w))) with
  | Some r => isNotification message = false /\ wellFormedFor message r
  | None => isNotification message = true
  end.
Proof.
  unfold handleMessage, isNotification.
  destruct (Message_Method message =? "") eqn:Em;
    destruct (Message_ID message) as [id|] eqn:Eid; cbn.
  - split; [reflexivity|]. split; [reflexivity|]. split; [now rewrite Eid|].
    right. eexists. repeat split. cbn. auto.
  - split; [reflexivity|]. split; [reflexivity|]. split; [now rewrite Eid|].
    right. eexists. repeat split. cbn. auto.
  - unfold bind.
    pose proof (handleRequest_well_formed c message w) as Hwf.
    destruct (handleRequest c message w) as [[r w2] l2]. cbn in *. now split.
  - reflexivity.
Qed.

(** X3. Registration only appends: after any sequence of
    RegisterToolProvider and RegisterResourceProvider calls, in any
    interleaving, the tool providers are the ones the server had followed
    by the tool providers registered, in registration order, and likewise
    for the resource providers. *)
Theorem registrations_keep_order (rs : list (@Registration Object World)) s :
  toolProviders (fold_left register rs s) = toolProviders s ++ toolsOf rs /\
  resourceProviders (fold_left register rs s) = resourceProviders s ++ resourcesOf rs.
Proof.
  revert s. induction rs as [|[p|p] rs IH]; intros s; cbn [fold_left toolsOf resourcesOf].
  - now rewrite !app_nil_r.
  - destruct (IH (register s (RegisterTool p))) as [Ht Hr].
    rewrite Ht, Hr. cbn. now rewrite <- app_assoc.
  - destruct (IH (register s (RegisterResource p))) as [Ht Hr].
    rewrite Ht, Hr. cbn. now rewrite <- app_assoc.
Qed.

(** X4. A Ready tools/call whose params do not decode is answered with the
    error -32602 "Invalid tool call parameters" carrying the decoder's
    message; no provider is listed or invoked. *)
Theorem tools_call_invalid_params c message w params err :
  Connection_initialized c = true ->
  Message_Method message = "tools/call" ->
  Message_ID message <> None ->
  Message_Params message = Some params ->
  unmarshalToolCall params = inl err ->
  exists r,
    handleMessage c message w = (Some r, c, w, []) /\
    Response_JSONRPC r = "2.0" /\
    Response_ID r = Message_ID message /\
    Response_Result r = None /\
    Response_Error r =
      Some {| Error_Code := (-32602)%Z;
              Error_Message := "Invalid tool call parameters";
              Error_Data := Some err |}.
Proof.
  intros Hinit Hm Hid Hparams Hdec.
  assert (Hh : handleMessage c message w =
                 (Some (NewErrorResponse (Message_ID message) (-32602)
                          "Invalid tool call parameters" (Some err)), c, w, [])).
  { unfold_dispatch. rewrite Hm.
    destruct (Message_ID message) as [id|] eqn:Eid; [|congruence].
    cbn. unfold_handlers. rewrite Hinit, Hparams, Hdec, Eid. reflexivity. }
  eexists. split; [exact Hh|]. repeat split.
Qed.

(** ** The session over a whole stream *)

Lemma handleMessage_connection c message w resp c1 w1 log :
  handleMessage c message w = (resp, c1, w1, log) ->
  Connection_server c1 = Connection_server c /\
  (if isHandshake message then Connection_initialized c1 = true else c1 = c).
Proof.
  unfold handleMessage, isHandshake, isNotification, handleNotification.
  destruct (Message_Method message =? "") eqn:Em;
    destruct (Message_ID message) as [id|] eqn:Eid; cbn.
  - intros H. injection H as _ <- _ _. auto.
  - intros H. injection H as _ <- _ _. auto.
  - unfold bind. destruct (handleRequest c message w) as [[r w2] l2].
    cbn. intros H. injection H as _ <- _ _. auto.
  - intros H. injection H as _ <- _ _.
    destruct (Message_Method message =? MethodInitialized); cbn; auto.
Qed.

Lemma messageLoop_cons message rest c conn w :
  messageLoop (ReadOk message :: rest) c conn w =
    (let '(x, w1, l1) := handleMessage c message w in
     let '(y, w2, l2) :=
       match fst x with
       | None => messageLoop rest (snd x) conn
       | Some r =>
           if fst (WriteJSON conn r)
           then messageLoop rest (snd x) (snd (WriteJSON conn r))
           else ret (snd x, snd (WriteJSON conn r))
       end w1 in
     (y, w2, l1 ++ l2)).
Proof.
  cbn. unfold bind.
  destruct (handleMessage c message w) as [[[resp c1] w1] l1]. cbn.
  destruct resp as [r|]; [|reflexivity].
  destruct (WriteJSON conn r) as [[|] conn1]; reflexivity.
Qed.

(** X5. Over any stream of frames the connection keeps its server, a
    Ready session stays Ready, and a session that ends Ready either began
    Ready or read the handshake Notification (method "initialized", no
    id): nothing else opens the gate, an initialize Request included. *)
Theorem session_state_over_stream incoming c conn w :
  let c1 := fst (fst (fst (messageLoop incoming c conn w))) in
  Connection_server c1 = Connection_server c /\
  (Connection_initialized c = true -> Connection_initialized c1 = true) /\
  (Connection_initialized c1 = true ->
   Connection_initialized c = true \/
   exists message, In message (readable incoming) /\ isHandshake message = true).
Proof.
  revert c conn w. induction incoming as [|[message|] rest IH]; intros c conn w.
  - cbn. auto.
  - rewrite messageLoop_cons.
    destruct (handleMessage c message w) as [[[resp c1] w1] l1] eqn:Hh.
    destruct (handleMessage_connection _ _ _ Hh) as [Hs Hc].
    cbn [fst snd].
    assert (Hstep : forall conn1,
               let c2 := fst (fst (fst (messageLoop rest c1 conn1 w1))) in
               Connection_server c2 = Connection_server c /\
               (Connection_initialized c = true -> Connection_initialized c2 = true) /\
               (Connection_initialized c2 = true ->
                Connection_initialized c = true \/
                exists m, In m (readable (ReadOk message :: rest)) /\ isHandshake m = true)).
    { intros conn1. destruct (IH c1 conn1 w1) as (Hs2 & Hup & Hdown). cbn zeta.
      split; [congruence|]. split.
      - intros Hready. apply Hup.
        destruct (isHandshake message); [exact Hc|now subst].
      - intros Hfinal. destruct (Hdown Hfinal) as [Hc1|(m & Hin & Hm)].
        + destruct (isHandshake message) eqn:Hhs.
          * right. exists message. split; [now left|exact Hhs].
          * left. now subst.
        + right. exists m. split; [now right|exact Hm]. }
    assert (Hstop : Connection_server c1 = Connection_server c /\
               (Connection_initialized c = true -> Connection_initialized c1 = true) /\
               (Connection_initialized c1 = true ->
                Connection_initialized c = true \/
                exists m, In m (readable (ReadOk message :: rest)) /\ isHandshake m = true)).
    { split; [exact Hs|]. destruct (isHandshake message) eqn:Hhs.
      - split; [auto|]. intros _. right. exists message. split; [now left|exact Hhs].
      - subst. auto. }
    destruct resp as [r|].
    + destruct (WriteJSON conn r) as [[|] conn1]; cbn [fst snd].
      * specialize (Hstep conn1).
        destruct (messageLoop rest c1 conn1 w1) as [[y w2] l2]. exact Hstep.
      * exact Hstop.
    + specialize (Hstep conn).
      destruct (messageLoop rest c1 conn w1) as [[y w2] l2]. exact Hstep.
  - cbn. auto.
Qed.

Lemma handleMessage_before_handshake c message w :
  Connection_initialized c = false ->
  isHandshake message = false ->
  exists resp, handleMessage c message w = (resp, c, w, []).
Proof.
  intros Hinit Hhs.
  unfold handleMessage, handleRequest, handleNotification.
  unfold isHandshake, isNotification in Hhs.
  destruct (Message_Method message =? "") eqn:Em;
    destruct (Message_ID message) as [id|] eqn:Eid; cbn in *.
  - eexists. reflexivity.
  - eexists. reflexivity.
  - unfold_handlers. rewrite Hinit. cbn.
    repeat (break_match; cbn); eexists; reflexivity.
  - rewrite Hhs. eexists. reflexivity.
Qed.

(** X6. Without the handshake Notification no provider is ever reached:
    on a session that is not Ready, a stream that contains no handshake
    Notification leaves the session as it was, the world of the providers
    untouched and the call log empty, whatever Requests it carries. In
    particular on a fresh connection, which starts not Ready. *)
Theorem no_handshake_no_provider_call incoming c conn w :
  Connection_initialized c = false ->
  (forall message, In message (readable incoming) -> isHandshake message = false) ->
  (exists conn1, messageLoop incoming c conn w = (c, conn1, w, [])) /\
  (exists conn1,
     handleWebSocket (Connection_server c) (Some conn) incoming w
       = (Some ({| Connection_server := Connection_server c;
                   Connection_initialized := false |}, conn1), w, [])).
Proof.
  intros Hinit Hnone.
  assert (Hloop : forall c0, Connection_initialized c0 = false ->
            exists conn1, messageLoop incoming c0 conn w = (c0, conn1, w, [])).
  { clear c Hinit. revert conn w Hnone.
    induction incoming as [|[message|] rest IH]; intros conn w Hnone c Hinit.
    - exists conn. reflexivity.
    - rewrite messageLoop_cons.
      destruct (@handleMessage_before_handshake c message w Hinit) as [resp Hh].
      { apply Hnone. now left. }
      rewrite Hh. cbn [fst snd].
      assert (Hrest : forall m, In m (readable rest) -> isHandshake m = false).
      { intros m Hin. apply Hnone. now right. }
      destruct resp as [r|].
      + destruct (WriteJSON conn r) as [[|] conn1]; cbn [fst snd].
        * destruct (IH conn1 w Hrest c Hinit) as [conn2 ->]. eauto.
        * exists conn1. reflexivity.
      + destruct (IH conn w Hrest c Hinit) as [conn2 ->]. eauto.
    - exists conn. reflexivity. }
  split; [now apply Hloop|].
  unfold handleWebSocket, bind.
  destruct (Hloop {| Connection_server := Connection_server c;
                     Connection_initialized := false |} eq_refl) as [conn1 ->].
  eexists. reflexivity.
Qed.

(** ** tools/call beyond the failure cases *)

Lemma handleMessage_tools_call_decoded c message req :
  Connection_initialized c = true ->
  Message_Method message = "tools/call" ->
  Message_ID message <> None ->
  match Message_Params message with
  | Some params => unmarshalToolCall params
  | None => inr {| ToolCallRequest_Name := ""; ToolCallRequest_Arguments := None |}
  end = inr req ->
  forall w found w1 log,
    callToolLoop 0 (toolProviders (Connection_server c)) req w = (found, w1, log) ->
    handleMessage c message w =
      (Some match found with
            | Some (inl err) =>
                NewErrorResponse (Message_ID message) (-32603)
                  "Tool execution failed" (Some err)
            | Some (inr response) =>
                NewResponse (Message_ID message) (ResultToolCall response)
            | None =>
                NewErrorResponse (Message_ID message) (-32601)
                  ("Tool not found: " ++ ToolCallRequest_Name req)%string None
            end, c, w1, log).
Proof.
  intros Hinit Hm Hid Hdec w found w1 log Hloop.
  unfold_dispatch. rewrite Hm.
  destruct (Message_ID message) as [id|] eqn:Eid; [|congruence].
  cbn. unfold_handlers. rewrite Hinit, Eid. cbn [negb].
  rewrite Hdec. unfold bind. rewrite Hloop.
  destruct found as [[err|response]|]; cbn; now rewrite !app_nil_r.
Qed.

(** X7. A Ready tools/call without params is a call for the tool whose
    name is the empty string, with nil arguments: when no provider lists
    such a tool the answer is the error -32601 "Tool not found: ", every
    provider having been asked for its listing; when one does, the first
    such provider is invoked once with the zero request, and the answer is
    its output, or the error -32603 "Tool execution failed" carrying its
    failure text when the invocation fails. *)
Theorem tools_call_without_params c message w :
  Connection_initialized c = true ->
  Message_Method message = "tools/call" ->
  Message_ID message <> None ->
  Message_Params message = None ->
  let tps := toolProviders (Connection_server c) in
  let zero := {| ToolCallRequest_Name := ""; ToolCallRequest_Arguments := None |} in
  (forall w1,
     Skipped "" tps w w1 ->
     exists r,
       handleMessage c message w = (Some r, c, w1, listCalls 0 (length tps)) /\
       Response_JSONRPC r = "2.0" /\
       Response_ID r = Message_ID message /\
       Response_Result r = None /\
       Response_Error r =
         Some {| Error_Code := (-32601)%Z;
                 Error_Message := "Tool not found: ";
                 Error_Data := None |}) /\
  (forall pre p post w1 tools w2 out w3,
     tps = pre ++ p :: post ->
     Skipped "" pre w w1 ->
     ListTools p w1 = (inr tools, w2) ->
     In "" (map (@Tool_Name Object) tools) ->
     CallTool p zero w2 = (out, w3) ->
     exists r,
       handleMessage c message w =
         (Some r, c, w3,
          listCalls 0 (S (length pre)) ++ [CallCallTool (length pre) zero]) /\
       Response_JSONRPC r = "2.0" /\
       Response_ID r = Message_ID message /\
       match out with
       | inl err =>
           Response_Result r = None /\
           Response_Error r =
             Some {| Error_Code := (-32603)%Z;
                     Error_Message := "Tool execution failed";
                     Error_Data := Some err |}
       | inr response =>
           Response_Result r = Some (ResultToolCall response) /\
           Response_Error r = None
       end).
Proof.
  intros Hinit Hm Hid Hparams tps zero.
  assert (Hdec : match Message_Params message with
                 | Some params => unmarshalToolCall params
                 | None => inr zero
                 end = inr zero) by now rewrite Hparams.
  split.
  - intros w1 Hskip.
    assert (Hloop : callToolLoop 0 tps zero w = (None, w1, listCalls 0 (length tps))).
    { rewrite <- (app_nil_r tps) at 1.
      rewrite <- (app_nil_r (listCalls 0 (length tps))).
      eapply callToolLoop_skipped; [exact Hskip|]. reflexivity. }
    eexists. split.
    { exact (@handleMessage_tools_call_decoded c message zero Hinit Hm Hid Hdec
               w _ _ _ Hloop). }
    repeat split.
  - intros pre p post w1 tools w2 out w3 Htps Hskip Hp Hin Hcall.
    assert (Hloop : callToolLoop 0 tps zero w
                    = (Some out, w3,
                       listCalls 0 (S (length pre)) ++ [CallCallTool (length pre) zero])).
    { rewrite Htps. eapply callToolLoop_first; eassumption. }
    eexists. split.
    { exact (@handleMessage_tools_call_decoded c message zero Hinit Hm Hid Hdec
               w _ _ _ Hloop). }
    destruct out; repeat split.
Qed.

(** X8. A Ready tools/call served by a provider: the providers registered
    ahead of the first one that lists the tool are asked for their listing
    and passed over, that provider is asked for its listing and invoked
    once, with the request as decoded, and its output is the result of the
    response; the providers registered after it are not touched, and a
    listing that names the tool several times still gives one
    invocation. *)
Theorem tools_call_invokes_first_offer c message w params req
    pre p post w1 tools w2 response w3 :
  Connection_initialized c = true ->
  Message_Method message = "tools/call" ->
  Message_ID message <> None ->
  Message_Params message = Some params ->
  unmarshalToolCall params = inr req ->
  toolProviders (Connection_server c) = pre ++ p :: post ->
  Skipped (ToolCallRequest_Name req) pre w w1 ->
  ListTools p w1 = (inr tools, w2) ->
  In (ToolCallRequest_Name req) (map (@Tool_Name Object) tools) ->
  CallTool p req w2 = (inr response, w3) ->
  exists r log,
    handleMessage c message w = (Some r, c, w3, log) /\
    Response_JSONRPC r = "2.0" /\
    Response_ID r = Message_ID message /\
    Response_Result r = Some (ResultToolCall response) /\
    Response_Error r = None /\
    log = listCalls 0 (S (length pre)) ++ [CallCallTool (length pre) req] /\
    (forall call, In call log -> callIndex call <= length pre).
Proof.
  intros Hinit Hm Hid Hparams Hdec Htps Hskip Hp Hin Hcall.
  assert (Hdec' : match Message_Params message with
                  | Some params => unmarshalToolCall params
                  | None => inr {| ToolCallRequest_Name := "";
                                   ToolCallRequest_Arguments := None |}
                  end = inr req) by now rewrite Hparams.
  assert (Hloop : callToolLoop 0 (toolProviders (Connection_server c)) req w
                  = (Some (inr response), w3,
                     listCalls 0 (S (length pre)) ++ [CallCallTool (length pre) req])).
  { rewrite Htps. eapply callToolLoop_first; eassumption. }
  do 2 eexists. split.
  { exact (@handleMessage_tools_call_decoded c message req Hinit Hm Hid Hdec'
             w _ _ _ Hloop). }
  do 5 (split; [reflexivity|]).
  intros call [Hl|[<-|[]]]%in_app_or; [|cbn; lia].
  unfold listCalls in Hl. apply in_map_iff in Hl as (k & <- & Hk).
  apply in_seq in Hk. cbn. lia.
Qed.

(** ** Write errors *)


(** ** Resources *)

Lemma registerAll_resourceProviders (tps : list (ToolProvider Object World))
    (rps : list (ResourceProvider Object World)) :
  resourceProviders (registerAll tps rps) = rps.
Proof.
  unfold registerAll.
  assert (H : forall rs (s : MCPServer Object World),
             resourceProviders (fold_left (@RegisterResourceProvider Object World) rs s)
               = resourceProviders s ++ rs).
  { induction rs as [|r rs IH]; intros s; cbn; [now rewrite app_nil_r|].
    rewrite IH. cbn. now rewrite <- app_assoc. }
  rewrite H.
  assert (H2 : forall ts (s : MCPServer Object World),
             resourceProviders (fold_left (@RegisterToolProvider Object World) ts s)
               = resourceProviders s).
  { induction ts as [|t ts IH]; intros s; cbn; [reflexivity|]. now rewrite IH. }
  now rewrite H2.
Qed.

Lemma listResourceCalls_succ from n :
  listResourceCalls (Object := Object) from (S n)
    = CallListResources from :: listResourceCalls (S from) n.
Proof. reflexivity. Qed.

Lemma listResourceCalls_last from n :
  listResourceCalls (Object := Object) from (S n)
    = listResourceCalls from n ++ [CallListResources (from + n)].
Proof. unfold listResourceCalls. rewrite seq_S, map_app. reflexivity. Qed.

Lemma listResourcesLoop_listed (ps : list (ResourceProvider Object World)) w ls w1 :
  ListedResources ps w ls w1 ->
  forall i all,
    listResourcesLoop i ps all w
      = (inr (all ++ concat ls), w1, listResourceCalls i (length ps)).
Proof.
  induction 1 as [w|p ps w resources w1 ls w2 Hp _ IH]; intros i all.
  - cbn. now rewrite app_nil_r.
  - cbn [listResourcesLoop]. unfold bind, listResources. rewrite Hp.
    rewrite IH. cbn [concat length].
    rewrite listResourceCalls_succ, app_assoc. reflexivity.
Qed.

Lemma listResourcesLoop_failed (pre : list (ResourceProvider Object World)) w ls w1 :
  ListedResources pre w ls w1 ->
  forall p err w2, ListResources p w1 = (inl err, w2) ->
  forall post i all,
    listResourcesLoop i (pre ++ p :: post) all w
      = (inl err, w2, listResourceCalls i (S (length pre))).
Proof.
  induction 1 as [w|q pre w resources w1 ls w2 Hq _ IH];
    intros p err w3 Hp post i all.
  - cbn. unfold bind, listResources. rewrite Hp. reflexivity.
  - cbn [app listResourcesLoop]. unfold bind, listResources. rewrite Hq.
    rewrite (IH p err w3 Hp). cbn [length].
    rewrite (listResourceCalls_succ i). reflexivity.
Qed.

(** X10. On a Ready session, for the resource providers registered in the
    order [rps]: when every provider returns a listing, resources/list has
    called ListResources on each provider once, in registration order, and
    its result is the concatenation of the listings, whose length is the
    sum of the listings' lengths; when a provider's ListResources fails,
    those before it having succeeded, the response is the error -32603
    "Failed to list resources" with the failure text as data, without
    result, and the providers after it are not asked. No tool provider is
    called in either case. *)
Theorem resources_list_concatenates_or_fails tps rps c message w :
  Connection_server c = registerAll tps rps ->
  Connection_initialized c = true ->
  Message_Method message = "resources/list" ->
  Message_ID message <> None ->
  (forall ls w1,
     ListedResources rps w ls w1 ->
     exists r allResources,
       handleMessage c message w =
         (Some r, c, w1, listResourceCalls 0 (length rps)) /\
       Response_JSONRPC r = "2.0" /\
       Response_ID r = Message_ID message /\
       Response_Result r = Some (ResultResources allResources) /\
       Response_Error r = None /\
       allResources = concat ls /\
       length allResources = list_sum (map (@length _) ls)) /\
  (forall pre p post ls w1 err w2,
     rps = pre ++ p :: post ->
     ListedResources pre w ls w1 ->
     ListResources p w1 = (inl err, w2) ->
     exists r,
       handleMessage c message w =
         (Some r, c, w2, listResourceCalls 0 (S (length pre))) /\
       Response_JSONRPC r = "2.0" /\
       Response_ID r = Message_ID message /\
       Response_Result r = None /\
       Response_Error r =
         Some {| Error_Code := (-32603)%Z;
                 Error_Message := "Failed to list resources";
                 Error_Data := Some err |}).
Proof.
  intros Hs Hinit Hm Hid.
  assert (Hh : handleMessage c message = (r <- handleListResources c message ;; ret (Some r, c))).
  { unfold_dispatch. rewrite Hm.
    destruct (Message_ID message); [reflexivity|congruence]. }
  rewrite Hh. unfold_handlers. rewrite Hinit, Hs, registerAll_resourceProviders.
  cbn [negb]. split.
  - intros ls w1 Hl.
    exists (NewResponse (Message_ID message) (ResultResources (concat ls))).
    exists (concat ls). split.
    + unfold bind. rewrite (listResourcesLoop_listed Hl). cbn.
      now rewrite !app_nil_r.
    + do 5 (split; [reflexivity|]). apply length_concat_sum.
  - intros pre p post ls w1 err w2 -> Hl Hp. eexists. split.
    + unfold bind. rewrite (listResourcesLoop_failed Hl _ Hp). cbn.
      now rewrite !app_nil_r.
    + repeat split.
Qed.

Lemma readResourceInner_miss i (p : ResourceProvider Object World) uri resources w :
  ~ In uri (map (@Resource_URI Object) resources) ->
  readResourceInner i p uri resources w = (None, w, []).
Proof.
  induction resources as [|r resources IH]; intros Hnot; cbn; [reflexivity|].
  destruct (Resource_URI r =? uri) eqn:E.
  - apply String.eqb_eq in E. exfalso. apply Hnot. now left.
  - apply IH. intros Hin. apply Hnot. now right.
Qed.

Lemma readResourceInner_hit i (p : ResourceProvider Object World) uri resources w out w1 :
  In uri (map (@Resource_URI Object) resources) ->
  ReadResource p uri w = (out, w1) ->
  readResourceInner i p uri resources w = (Some out, w1, [CallReadResource i uri]).
Proof.
  intros Hin Hread. induction resources as [|r resources IH]; [contradiction|].
  cbn. destruct (Resource_URI r =? uri) eqn:E.
  - unfold bind, readResource. rewrite Hread. reflexivity.
  - apply IH. destruct Hin as [Heq|Hin]; [|exact Hin].
    apply String.eqb_neq in E. congruence.
Qed.

Lemma readResourceLoop_skipped uri (pre : list (ResourceProvider Object World)) w w1 :
  SkippedResources uri pre w w1 ->
  forall i rest out w2 log,
    readResourceLoop (i + length pre) rest uri w1 = (out, w2, log) ->
    readResourceLoop i (pre ++ rest) uri w
      = (out, w2, listResourceCalls i (length pre) ++ log).
Proof.
  induction 1 as [w|p pre w r w1 w2 Hp Hno _ IH]; intros i rest out w3 log Hrest.
  - cbn in *. now rewrite Nat.add_0_r in Hrest.
  - cbn [length] in Hrest. rewrite Nat.add_succ_r in Hrest.
    specialize (IH (S i) rest out w3 log Hrest).
    cbn [app readResourceLoop length]. unfold bind at 1. unfold listResources.
    rewrite Hp. rewrite listResourceCalls_succ.
    destruct r as [err|resources].
    + rewrite IH. reflexivity.
    + unfold bind. rewrite (readResourceInner_miss i p uri resources w1 Hno).
      rewrite IH. reflexivity.
Qed.

Lemma readResourceLoop_first uri (pre : list (ResourceProvider Object World)) w w1 :
  SkippedResources uri pre w w1 ->
  forall p resources w2 out w3 post,
    ListResources p w1 = (inr resources, w2) ->
    In uri (map (@Resource_URI Object) resources) ->
    ReadResource p uri w2 = (out, w3) ->
    readResourceLoop 0 (pre ++ p :: post) uri w
      = (Some out, w3,
         listResourceCalls 0 (S (length pre)) ++ [CallReadResource (length pre) uri]).
Proof.
  intros Hskip p resources w2 out w3 post Hp Hin Hread.
  rewrite listResourceCalls_last, <- app_assoc.
  eapply readResourceLoop_skipped; [exact Hskip|]. cbn [Nat.add readResourceLoop].
  unfold bind at 1. unfold listResources. rewrite Hp.
  unfold bind. erewrite readResourceInner_hit by eassumption. reflexivity.
Qed.

Lemma handleMessage_resources_read c message uri :
  Connection_initialized c = true ->
  Message_Method message = "resources/read" ->
  Message_ID message <> None ->
  match Message_Params message with
  | Some params => unmarshalResourceRead params
  | None => inr {| ResourceReadRequest_URI := "" |}
  end = inr {| ResourceReadRequest_URI := uri |} ->
  forall w found w1 log,
    readResourceLoop 0 (resourceProviders (Connection_server c)) uri w
      = (found, w1, log) ->
    handleMessage c message w =
      (Some match found with
            | Some (inl err) =>
                NewErrorResponse (Message_ID message) (-32603)
                  "Resource read failed" (Some err)
            | Some (inr response) =>
                NewResponse (Message_ID message) (ResultResourceRead response)
            | None =>
                NewErrorResponse (Message_ID message) (-32601)
                  ("Resource not found: " ++ uri)%string None
            end, c, w1, log).
Proof.
  intros Hinit Hm Hid Hdec w found w1 log Hloop.
  unfold_dispatch. rewrite Hm.
  destruct (Message_ID message) as [id|] eqn:Eid; [|congruence].
  cbn. unfold_handlers. rewrite Hinit, Eid. cbn [negb].
  rewrite Hdec. cbn [ResourceReadRequest_URI]. unfold bind. rewrite Hloop.
  destruct found as [[err|response]|]; cbn; now rewrite !app_nil_r.
Qed.

(** X11. On a Ready session, resources/read whose params decode to a URI
    is dispatched by URI over the resource providers in registration
    order, a provider whose listing fails being passed over: when no
    listing contains the URI the answer is the error -32601 "Resource not
    found: <uri>"; otherwise the first provider whose listing contains it
    is read once, with that URI, and the answer is its output, or the
    error -32603 "Resource read failed" carrying its failure text; the
    providers after it are not asked. When the params do not decode the
    answer is the error -32602 and no provider is asked. *)
Theorem resources_read_dispatch c message w params :
  Connection_initialized c = true ->
  Message_Method message = "resources/read" ->
  Message_ID message <> None ->
  Message_Params message = Some params ->
  let rps := resourceProviders (Connection_server c) in
  (forall err,
     unmarshalResourceRead params = inl err ->
     exists r,
       handleMessage c message w = (Some r, c, w, []) /\
       Response_JSONRPC r = "2.0" /\
       Response_ID r = Message_ID message /\
       Response_Result r = None /\
       Response_Error r =
         Some {| Error_Code := (-32602)%Z;
                 Error_Message := "Invalid resource read parameters";
                 Error_Data := Some err |}) /\
  (forall uri w1,
     unmarshalResourceRead params = inr {| ResourceReadRequest_URI := uri |} ->
     SkippedResources uri rps w w1 ->
     exists r,
       handleMessage c message w =
         (Some r, c, w1, listResourceCalls 0 (length rps)) /\
       Response_JSONRPC r = "2.0" /\
       Response_ID r = Message_ID message /\
       Response_Result r = None /\
       Response_Error r =
         Some {| Error_Code := (-32601)%Z;
                 Error_Message := ("Resource not found: " ++ uri)%string;
                 Error_Data := None |}) /\
  (forall uri pre p post w1 resources w2 out w3,
     unmarshalResourceRead params = inr {| ResourceReadRequest_URI := uri |} ->
     rps = pre ++ p :: post ->
     SkippedResources uri pre w w1 ->
     ListResources p w1 = (inr resources, w2) ->
     In uri (map (@Resource_URI Object) resources) ->
     ReadResource p uri w2 = (out, w3) ->
     exists r,
       handleMessage c message w =
         (Some r, c, w3,
          listResourceCalls 0 (S (length pre)) ++ [CallReadResource (length pre) uri]) /\
       Response_JSONRPC r = "2.0" /\
       Response_ID r = Message_ID message /\
       match out with
       | inl err =>
           Response_Result r = None /\
           Response_Error r =
             Some {| Error_Code := (-32603)%Z;
                     Error_Message := "Resource read failed";
                     Error_Data := Some err |}
       | inr response =>
           Response_Result r = Some (ResultResourceRead response) /\
           Response_Error r = None
       end).
Proof.
  intros Hinit Hm Hid Hparams rps. split; [|split].
  - intros err Hdec.
    assert (Hh : handleMessage c message w =
                   (Some (NewErrorResponse (Message_ID message) (-32602)
                            "Invalid resource read parameters" (Some err)),
                    c, w, [])).
    { unfold_dispatch. rewrite Hm.
      destruct (Message_ID message) as [id|] eqn:Eid; [|congruence].
      cbn. unfold_handlers. rewrite Hinit, Hparams, Hdec, Eid. reflexivity. }
    eexists. split; [exact Hh|]. repeat split.
  - intros uri w1 Hdec Hskip.
    assert (Hdec' : match Message_Params message with
                    | Some params => unmarshalResourceRead params
                    | None => inr {| ResourceReadRequest_URI := "" |}
                    end = inr {| ResourceReadRequest_URI := uri |})
      by now rewrite Hparams.
    assert (Hloop : readResourceLoop 0 rps uri w
                    = (None, w1, listResourceCalls 0 (length rps))).
    { rewrite <- (app_nil_r rps) at 1.
      rewrite <- (app_nil_r (listResourceCalls 0 (length rps))).
      eapply readResourceLoop_skipped; [exact Hskip|]. reflexivity. }
    eexists. split.
    { exact (@handleMessage_resources_read c message uri Hinit Hm Hid Hdec'
               w _ _ _ Hloop). }
    repeat split.
  - intros uri pre p post w1 resources w2 out w3 Hdec Hrps Hskip Hp Hin Hread.
    assert (Hdec' : match Message_Params message with
                    | Some params => unmarshalResourceRead params
                    | None => inr {| ResourceReadRequest_URI := "" |}
                    end = inr {| ResourceReadRequest_URI := uri |})
      by now rewrite Hparams.
    assert (Hloop : readResourceLoop 0 rps uri w
                    = (Some out, w3,
                       listResourceCalls 0 (S (length pre))
                         ++ [CallReadResource (length pre) uri])).
    { rewrite Hrps. eapply readResourceLoop_first; eassumption. }
    eexists. split.
    { exact (@handleMessage_resources_read c message uri Hinit Hm Hid Hdec'
               w _ _ _ Hloop). }
    destruct out; repeat split.
Qed.

(** ** The handshake opens the gate *)

Lemma ready_stays_ready incoming :
  forall c conn w,
  Connection_initialized c = true ->
  Connection_initialized (fst (fst (fst (messageLoop incoming c conn w)))) = true.
Proof.
  induction incoming as [|[message|] rest IH]; intros c conn w Hready;
    [exact Hready| |exact Hready].
  rewrite messageLoop_cons.
  destruct (handleMessage c message w) as [[[resp c1] w1] l1] eqn:Hh.
  destruct (handleMessage_connection _ _ _ Hh) as [_ Hc].
  assert (Hc1 : Connection_initialized c1 = true).
  { destruct (isHandshake message); [exact Hc|now subst]. }
  cbn [fst snd]. destruct resp as [r|].
  - destruct (WriteJSON conn r) as [[|] conn1]; cbn [fst snd]; [|exact Hc1].
    specialize (IH c1 conn1 w1 Hc1).
    destruct (messageLoop rest c1 conn1 w1) as [[y w2] l2]. exact IH.
  - specialize (IH c1 conn w1 Hc1).
    destruct (messageLoop rest c1 conn w1) as [[y w2] l2]. exact IH.
Qed.

(** X15. On a socket that accepts the writes, a stream that contains the
    handshake Notification before any read error leaves the session
    Ready, wherever the Notification stands in the stream and whatever
    else the stream carries; an initialize Request need not come first. *)
Theorem handshake_opens_gate incoming c conn w :
  Socket_writable conn = None ->
  (exists message, In message (readable incoming) /\ isHandshake message = true) ->
  Connection_initialized (fst (fst (fst (messageLoop incoming c conn w)))) = true.
Proof.
  revert c conn w. induction incoming as [|[message|] rest IH];
    intros c conn w Hw (m & Hin & Hm); [contradiction| |contradiction].
  rewrite messageLoop_cons.
  destruct (handleMessage c message w) as [[[resp c1] w1] l1] eqn:Hh.
  destruct (handleMessage_connection _ _ _ Hh) as [_ Hc].
  assert (Hnext : forall conn1, Socket_writable conn1 = None ->
            Connection_initialized (fst (fst (fst (messageLoop rest c1 conn1 w1)))) = true).
  { intros conn1 Hw1. destruct Hin as [<-|Hin].
    - rewrite Hm in Hc. now apply ready_stays_ready.
    - apply IH; [exact Hw1|]. eauto. }
  cbn [fst snd]. destruct resp as [r|].
  - rewrite (@WriteJSON_unlimited Value Object conn r Hw). cbn [fst snd].
    match goal with
    | |- context [messageLoop rest c1 ?k w1] =>
        specialize (Hnext k eq_refl); destruct (messageLoop rest c1 k w1) as [[y w2] l2]
    end.
    exact Hnext.
  - specialize (Hnext conn Hw).
    destruct (messageLoop rest c1 conn w1) as [[y w2] l2]. exact Hnext.
Qed.

(** The loop of tools/call only reaches providers from its start index on. *)
Lemma callToolInner_indices i (p : ToolProvider Object World) req tools w :
  forall call, In call (snd (callToolInner i p req tools w)) -> callIndex call = i.
Proof.
  induction tools as [|t tools IH]; cbn; [contradiction|].
  destruct (Tool_Name t =? ToolCallRequest_Name req); [|exact IH].
  unfold bind, callTool. destruct (CallTool p req w) as [out w1]. cbn.
  intros call [<-|[]]. reflexivity.
Qed.

Lemma callToolLoop_indices (ps : list (ToolProvider Object World)) req :
  forall i w call, In call (snd (callToolLoop i ps req w)) -> i <= callIndex call.
Proof.
  induction ps as [|p ps IH]; intros i w call; cbn [callToolLoop].
  - cbn. contradiction.
  - unfold bind at 1. unfold listTools.
    destruct (ListTools p w) as [[err|tools] w1].
    + specialize (IH (S i) w1 call).
      destruct (callToolLoop (S i) ps req w1) as [[found w2] l2]. cbn in *.
      intros [<-|Hin]; [cbn; lia|]. apply IH in Hin. lia.
    + unfold bind.
      pose proof (callToolInner_indices i p req tools w1 call) as Hinner.
      destruct (callToolInner i p req tools w1) as [[[out|] w2] l2]; cbn in *.
      * rewrite app_nil_r. intros [<-|Hin]; [cbn; lia|]. apply Hinner in Hin. lia.
      * specialize (IH (S i) w2 call).
        destruct (callToolLoop (S i) ps req w2) as [[found w3] l3]. cbn in *.
        intros [<-|[Hin|Hin]%in_app_or]; [cbn; lia| |].
        -- apply Hinner in Hin. lia.
        -- apply IH in Hin. lia.
Qed.

End Coverage.

(** * The math tools *)

Section MathProperties.

Context {Value World : Type}.
Variable float64 : Type.
Variable fadd fmul Pow : float64 -> float64 -> float64.
Variable ofInt : Z -> float64.
Variable ParseFloat : string -> option float64.
Variable format2f : float64 -> string.

Local Abbreviation object := (MathTools.object float64).
Local Abbreviation getNumberArg := (MathTools.getNumberArg ofInt ParseFloat).
Local Abbreviation numericArg := (MathTools.numericArg ParseFloat).
Local Abbreviation MathToolProvider_CallTool :=
  (MathTools.MathToolProvider_CallTool fadd fmul Pow ofInt ParseFloat format2f).
Local Abbreviation NewMathToolProvider :=
  (@MathTools.NewMathToolProvider float64 fadd fmul Pow ofInt ParseFloat format2f World).

(** What [getNumberArg] accepts: a float64, an int, or a string that
    [strconv.ParseFloat] accepts, under a key that is present. *)
Lemma getNumberArg_numeric (args : option object) key :
  (exists f, getNumberArg args key = inr f) <-> numericArg args key.
Proof.
  unfold MathTools.getNumberArg, MathTools.numericArg.
  destruct (MathTools.indexArgs args key) as [v|].
  - split.
    + intros [f Hf]. exists v. split; [reflexivity|].
      destruct v; try discriminate; auto.
      destruct (ParseFloat s); [discriminate|discriminate].
    + intros (v' & Hv & Hok). injection Hv as <-.
      destruct v; try contradiction; eauto.
      destruct (ParseFloat s); [eauto|contradiction].
  - split.
    + intros [f Hf]. discriminate.
    + intros (v' & Hv & _). discriminate.
Qed.

(** X12. [MathToolProvider.CallTool] never returns a Go error and never a
    nil response, for any request: its answer is always a response with
    exactly one content item, of type "text". A bad request is reported
    inside the response, through [IsError]. *)
Theorem math_call_never_fails (request : ToolCallRequest object) :
  exists text isError,
    MathToolProvider_CallTool request
      = inr (Some {| ToolCallResponse_Content := [MathTools.textContent text];
                     ToolCallResponse_IsError := isError |}).
Proof.
  unfold MathTools.MathToolProvider_CallTool, MathTools.handleAdd,
    MathTools.handleMultiply, MathTools.handlePower, MathTools.errorResponse.
  repeat (break_match; cbn); do 2 eexists; reflexivity.
Qed.

(** X13. For the three tools the provider lists, the response has
    [IsError] false exactly when both operands ("a" and "b", or "base" and
    "exponent" for power) are present and numeric; the arithmetic itself
    never makes a call fail. The first operand is validated first: when it
    is rejected, the response is the error response with the message
    [getNumberArg] gave for it, whatever the second operand is. *)
Theorem math_error_iff_operand_not_numeric (request : ToolCallRequest object) :
  In (ToolCallRequest_Name request) ["add"; "multiply"; "power"] ->
  let args := ToolCallRequest_Arguments request in
  let first := fst (MathTools.operands (ToolCallRequest_Name request)) in
  let second := snd (MathTools.operands (ToolCallRequest_Name request)) in
  exists r,
    MathToolProvider_CallTool request = inr (Some r) /\
    (ToolCallResponse_IsError r = false <->
     numericArg args first /\ numericArg args second) /\
    (forall err, getNumberArg args first = inl err -> r = MathTools.errorResponse err).
Proof.
  intros Hname args first second.
  pose proof (getNumberArg_numeric args first) as H1.
  pose proof (getNumberArg_numeric args second) as H2.
  assert (Hcases :
    MathToolProvider_CallTool request =
      match getNumberArg args first with
      | inl err => inr (Some (MathTools.errorResponse err))
      | inr a =>
          match getNumberArg args second with
          | inl err => inr (Some (MathTools.errorResponse err))
          | inr b => MathToolProvider_CallTool request
          end
      end /\
    forall a b, getNumberArg args first = inr a -> getNumberArg args second = inr b ->
      exists text,
        MathToolProvider_CallTool request
          = inr (Some {| ToolCallResponse_Content := [MathTools.textContent text];
                         ToolCallResponse_IsError := false |})).
  { subst args first second.
    unfold MathTools.MathToolProvider_CallTool, MathTools.operands,
      MathTools.handleAdd, MathTools.handleMultiply, MathTools.handlePower.
    destruct Hname as [<-|[<-|[<-|[]]]]; cbn [String.eqb Ascii.eqb Bool.eqb fst snd].
    - split.
      + repeat (break_match; try reflexivity).
      + intros a b -> ->. eexists. reflexivity.
    - split.
      + repeat (break_match; try reflexivity).
      + intros a b -> ->. eexists. reflexivity.
    - split.
      + repeat (break_match; try reflexivity).
      + intros a b -> ->. eexists. reflexivity. }
  destruct Hcases as [Hshape Hok].
  destruct (getNumberArg args first) as [err1|a] eqn:E1.
  - exists (MathTools.errorResponse err1). split; [exact Hshape|]. split.
    + split; [discriminate|]. intros [Hn _]. apply H1 in Hn as [f Hf]. discriminate.
    + intros err Heq. now injection Heq as <-.
  - destruct (getNumberArg args second) as [err2|b] eqn:E2.
    + exists (MathTools.errorResponse err2). split; [exact Hshape|]. split.
      * split; [discriminate|]. intros [_ Hn]. apply H2 in Hn as [f Hf]. discriminate.
      * discriminate.
    + destruct (Hok a b eq_refl eq_refl) as [text Htext].
      eexists. split; [exact Htext|]. split.
      * split; [|reflexivity]. intros _. split; [apply H1|apply H2]; eauto.
      * discriminate.
Qed.

(** ** The math tools behind the engine *)

Variable unmarshalInitialize : Value -> string + InitializeRequest object.
Variable unmarshalToolCall : Value -> string + ToolCallRequest object.
Variable unmarshalResourceRead : Value -> string + ResourceReadRequest.

Local Abbreviation handleMessage :=
  (handleMessage (World := World) unmarshalInitialize unmarshalToolCall unmarshalResourceRead).

Lemma math_listing w :
  ListTools NewMathToolProvider w
    = (MathTools.MathToolProvider_ListTools float64, w) /\
  exists tools,
    MathTools.MathToolProvider_ListTools float64 = inr tools /\
    map (@Tool_Name object) tools = ["add"; "multiply"; "power"].
Proof. split; [reflexivity|]. eexists. split; reflexivity. Qed.

(** X14. With the MathToolProvider registered first, as [main] does, a
    Ready tools/call for add, multiply or power is always answered with a
    result, never with a protocol error: the engine lists the math
    provider, invokes it once and returns its response; the world of the
    other providers is untouched and none of them is asked. For any other
    tool name the math provider is listed and passed over, never invoked,
    so its "Unknown tool" answer cannot be produced through the
    server. *)
Theorem engine_serves_math_tools rest rps (c : Connection object World)
    (message : Message Value) w params req :
  Connection_server c = registerAll (NewMathToolProvider :: rest) rps ->
  Connection_initialized c = true ->
  Message_Method message = "tools/call" ->
  Message_ID message <> None ->
  Message_Params message = Some params ->
  unmarshalToolCall params = inr req ->
  (In (ToolCallRequest_Name req) ["add"; "multiply"; "power"] ->
   exists response r,
     MathToolProvider_CallTool req = inr (Some response) /\
     handleMessage c message w =
       (Some r, c, w, [CallListTools 0; CallCallTool 0 req]) /\
     Response_JSONRPC r = "2.0" /\
     Response_ID r = Message_ID message /\
     Response_Result r = Some (ResultToolCall (Some response)) /\
     Response_Error r = None) /\
  (~ In (ToolCallRequest_Name req) ["add"; "multiply"; "power"] ->
   forall call,
     In call (snd (handleMessage c message w)) ->
     call = CallListTools 0 \/ 1 <= callIndex call).
Proof.
  intros Hs Hinit Hm Hid Hparams Hdec.
  assert (Hdec' : match Message_Params message with
                  | Some params => unmarshalToolCall params
                  | None => inr {| ToolCallRequest_Name := "";
                                   ToolCallRequest_Arguments := None |}
                  end = inr req) by now rewrite Hparams.
  assert (Htps : toolProviders (Connection_server c) = NewMathToolProvider :: rest).
  { rewrite Hs. apply registerAll_toolProviders. }
  destruct (math_listing w) as [Hlist (tools & Htools & Hnames)].
  rewrite Htools in Hlist.
  split.
  - intros Hin.
    assert (Htotal : exists text isError,
               MathToolProvider_CallTool req
                 = inr (Some {| ToolCallResponse_Content := [MathTools.textContent text];
                                ToolCallResponse_IsError := isError |})).
    { unfold MathTools.MathToolProvider_CallTool, MathTools.handleAdd,
        MathTools.handleMultiply, MathTools.handlePower, MathTools.errorResponse.
      repeat (break_match; cbn); do 2 eexists; reflexivity. }
    destruct Htotal as (text & isError & Hcall).
    assert (Hloop : callToolLoop 0 (toolProviders (Connection_server c)) req w
                    = (Some (inr (Some {| ToolCallResponse_Content :=
                                            [MathTools.textContent text];
                                          ToolCallResponse_IsError := isError |})),
                       w, listCalls 0 1 ++ [CallCallTool 0 req])).
    { rewrite Htps.
      apply (@callToolLoop_first object World req [] w w (Skipped_nil _ w)
               NewMathToolProvider tools w _ w rest Hlist).
      - now rewrite Hnames.
      - cbn. now rewrite Hcall. }
    do 2 eexists. split; [exact Hcall|]. split.
    { exact (@handleMessage_tools_call_decoded Value object World
               unmarshalInitialize unmarshalToolCall unmarshalResourceRead
               c message req Hinit Hm Hid Hdec' w _ _ _ Hloop). }
    repeat split.
  - intros Hnot call.
    assert (Hskip : Skipped (ToolCallRequest_Name req)
                      [NewMathToolProvider] w w).
    { eapply Skipped_cons; [exact Hlist| |apply Skipped_nil].
      cbn [offers]. now rewrite Hnames. }
    pose proof (callToolLoop_indices rest req 1 w) as Hidx.
    destruct (callToolLoop 1 rest req w) as [[found w1] log] eqn:Hrest.
    assert (Hloop : callToolLoop 0 (toolProviders (Connection_server c)) req w
                    = (found, w1, listCalls 0 1 ++ log)).
    { rewrite Htps.
      exact (@callToolLoop_skipped object World req _ w w Hskip 0 rest _ _ _ Hrest). }
    rewrite (@handleMessage_tools_call_decoded Value object World
               unmarshalInitialize unmarshalToolCall unmarshalResourceRead
               c message req Hinit Hm Hid Hdec' w _ _ _ Hloop).
    cbn. intros [<-|Hin]; [now left|]. right. now apply Hidx.
Qed.

End MathProperties.

(** * The search tool *)

Section SearchProperties.

Import MathTools SearchTools.

Variable float64 : Type.
Variable truncInt : float64 -> Z.
Variable Atoi : string -> string + Z.
Variable Int64 : string -> string + Z.
Variable Time : Type.
Variable formatRFC3339 : Time -> string.
Variable World : Type.
Variable marshalResults : list (SearchResult Time) -> string.

Local Abbreviation object := (MathTools.object float64).
Local Abbreviation toInt := (SearchTools.toInt truncInt Atoi Int64).
Local Abbreviation webSearch_query := (SearchTools.webSearch_query truncInt Atoi Int64).
Local Abbreviation webSearch :=
  (SearchTools.webSearch truncInt Atoi Int64 formatRFC3339 (World := World) marshalResults).
Local Abbreviation SearchTool_CallTool :=
  (SearchTools.SearchTool_CallTool truncInt Atoi Int64 formatRFC3339 (World := World)
     marshalResults).

Implicit Types (s : WebSearcher Time World) (args : option object) (w : World).

(** X16. [SearchTool.CallTool] never returns a Go error and never a nil
    response, whatever the request and whatever the searcher does, its
    failures included: a failed search or health check is reported inside
    the response. *)
Theorem search_call_never_fails s (request : ToolCallRequest object) w :
  exists r w1, SearchTool_CallTool s request w = (inr (Some r), w1).
Proof.
  unfold SearchTools.SearchTool_CallTool, SearchTools.webSearch, SearchTools.healthCheck.
  repeat (break_match; cbn); do 2 eexists; reflexivity.
Qed.

(** X17. web_search whose "query" argument is missing, is not a string or
    is the empty string is answered with the error response "Missing or
    invalid 'query' parameter", and the world is as before for every
    searcher: the searcher is not called. *)
Theorem web_search_rejects_bad_query s args w :
  (forall text, indexArgs args "query" = Some (VString text) -> text = "") ->
  SearchTool_CallTool s
      {| ToolCallRequest_Name := "web_search"; ToolCallRequest_Arguments := args |} w
    = (inr (Some (SearchTools.errorResponse "Missing or invalid 'query' parameter")), w).
Proof.
  intros Hbad. unfold SearchTools.SearchTool_CallTool. cbn.
  unfold SearchTools.webSearch, asString.
  destruct (indexArgs args "query") as [[]|]; try reflexivity.
  rewrite (Hbad s0 eq_refl). reflexivity.
Qed.


Lemma resultItems_length includeContent (results : list (SearchResult Time)) :
  forall i,
  length (resultItems formatRFC3339 includeContent i results) = length results /\
  Forall (fun item => Content_Type item = "text")
    (resultItems formatRFC3339 includeContent i results).
Proof.
  induction results as [|r results IH]; intros i; cbn.
  - split; [reflexivity|constructor].
  - destruct (IH (S i)) as [Hlen Hall]. split; [now rewrite Hlen|].
    constructor; [reflexivity|exact Hall].
Qed.

(** X19. What web_search answers once the searcher has returned: on a
    search error, the error response "Search failed: <error>"; on an empty
    result, one text item; on n > 0 results, n + 2 text items (a summary,
    one item per result, the raw JSON), with [IsError] false. The world is
    the one the searcher left. *)
Theorem web_search_response_shape s args w queryStr found w1 :
  indexArgs args "query" = Some (VString queryStr) ->
  queryStr <> "" ->
  webSearch_search s (webSearch_includeContent args) (webSearch_query args queryStr) w
    = (found, w1) ->
  exists r,
    webSearch s args w = (inr (Some r), w1) /\
    match found with
    | inl err => r = SearchTools.errorResponse ("Search failed: " ++ err)%string
    | inr results =>
        ToolCallResponse_IsError r = false /\
        length (ToolCallResponse_Content r)
          = match results with [] => 1 | _ :: _ => length results + 2 end /\
        Forall (fun item => Content_Type item = "text") (ToolCallResponse_Content r)
    end.
Proof.
  intros Hq Hne Hrun. unfold SearchTools.webSearch. rewrite Hq. cbn [asString].
  apply String.eqb_neq in Hne. rewrite Hne, Hrun.
  destruct found as [err|results].
  - eexists. split; reflexivity.
  - eexists. split; [reflexivity|]. cbn [ToolCallResponse_IsError ToolCallResponse_Content].
    split; [reflexivity|].
    unfold webSearch_content. destruct results as [|r results].
    + split; [reflexivity|]. repeat constructor.
    + destruct (resultItems_length (webSearch_includeContent args) (r :: results) 0)
        as [Hlen Hall].
      split.
      * cbn [app length]. rewrite length_app, Hlen. cbn [length]. lia.
      * constructor; [reflexivity|]. apply Forall_app. split; [exact Hall|].
        repeat constructor.
Qed.

End SearchProperties.

(** * Providers that report failures inside the response *)

Section NoInternalError.

Context {Value Object World : Type}.
Variable unmarshalInitialize : Value -> string + InitializeRequest Object.
Variable unmarshalToolCall : Value -> string + ToolCallRequest Object.
Variable unmarshalResourceRead : Value -> string + ResourceReadRequest.

Local Abbreviation handleMessage :=
  (handleMessage (World := World) unmarshalInitialize unmarshalToolCall unmarshalResourceRead).

Lemma callToolInner_no_error i (p : ToolProvider Object World) req tools w :
  (forall request w0, exists r w1, CallTool p request w0 = (inr r, w1)) ->
  match fst (fst (callToolInner i p req tools w)) with
  | Some (inl _) => False
  | _ => True
  end.
Proof.
  intros Hp. induction tools as [|t tools IH]; cbn; [exact I|].
  destruct (Tool_Name t =? ToolCallRequest_Name req); [|exact IH].
  unfold bind, callTool. destruct (Hp req w) as (r & w1 & ->). exact I.
Qed.

Lemma callToolLoop_no_error (ps : list (ToolProvider Object World)) req :
  Forall (fun p => forall request w0, exists r w1, CallTool p request w0 = (inr r, w1)) ps ->
  forall i w,
  match fst (fst (callToolLoop i ps req w)) with
  | Some (inl _) => False
  | _ => True
  end.
Proof.
  induction 1 as [|p ps Hp _ IH]; intros i w; cbn [callToolLoop]; [exact I|].
  unfold bind at 1. unfold listTools.
  destruct (ListTools p w) as [[err|tools] w1].
  - specialize (IH (S i) w1).
    destruct (callToolLoop (S i) ps req w1) as [[found w2] l2]. exact IH.
  - unfold bind.
    pose proof (@callToolInner_no_error i p req tools w1 Hp) as Hinner.
    destruct (callToolInner i p req tools w1) as [[[out|] w2] l2]; cbn in *.
    + exact Hinner.
    + specialize (IH (S i) w2).
      destruct (callToolLoop (S i) ps req w2) as [[found w3] l3]. exact IH.
Qed.

(** X20. When every registered tool provider reports its failures inside
    the response, that is when no [CallTool] returns a Go error, as the
    math and search providers do, a Ready tools/call whose params decode
    is answered either with a result or with the error -32601 for an
    unknown tool; the error -32603 "Tool execution failed" cannot
    occur. *)
Theorem tools_call_never_internal_error (c : Connection Object World)
    (message : Message Value) w params req :
  Forall (fun p => forall request w0, exists r w1, CallTool p request w0 = (inr r, w1))
    (toolProviders (Connection_server c)) ->
  Connection_initialized c = true ->
  Message_Method message = "tools/call" ->
  Message_ID message <> None ->
  Message_Params message = Some params ->
  unmarshalToolCall params = inr req ->
  exists r,
    fst (fst (fst (handleMessage c message w))) = Some r /\
    ((exists response,
        Response_Result r = Some (ResultToolCall response) /\ Response_Error r = None) \/
     (Response_Result r = None /\
      Response_Error r =
        Some {| Error_Code := (-32601)%Z;
                Error_Message := ("Tool not found: " ++ ToolCallRequest_Name req)%string;
                Error_Data := None |})).
Proof.
  intros Hall Hinit Hm Hid Hparams Hdec.
  assert (Hdec' : match Message_Params message with
                  | Some params => unmarshalToolCall params
                  | None => inr {| ToolCallRequest_Name := "";
                                   ToolCallRequest_Arguments := None |}
                  end = inr req) by now rewrite Hparams.
  pose proof (@callToolLoop_no_error _ req Hall 0 w) as Hloop.
  destruct (callToolLoop 0 (toolProviders (Connection_server c)) req w)
    as [[found w1] log] eqn:Hrun.
  rewrite (@handleMessage_tools_call_decoded Value Object World
             unmarshalInitialize unmarshalToolCall unmarshalResourceRead
             c message req Hinit Hm Hid Hdec' w _ _ _ Hrun).
  cbn in Hloop |- *.
  destruct found as [[err|response]|]; [contradiction| |].
  - eexists. split; [reflexivity|]. left. eexists. split; reflexivity.
  - eexists. split; [reflexivity|]. right. split; reflexivity.
Qed.

End NoInternalError.

(** * Runs of the further properties *)

Module CoverageRuns.

Import GoJSON Demo ResourceDemo.

(** The handshake method sent with an id. *)
Lemma unknown_method_not_found_witness :
  let c := awaiting (registerAll [math] []) in
  exists r,
    handle c (request 9 "initialized" None) [] = (Some r, c, [], []) /\
    Response_JSONRPC r = "2.0" /\
    Response_ID r = Some (JNumber 9) /\
    Response_Result r = None /\
    Response_Error r =
      Some {| Error_Code := (-32601)%Z;
              Error_Message := "Method not found: initialized";
              Error_Data := None |}.
Proof.
  intros c.
  refine (@unknown_method_not_found _ _ _ unmarshalInitialize unmarshalToolCall
            unmarshalResourceRead c (request 9 "initialized" None) [] _ _ _).
  - discriminate.
  - discriminate.
  - cbn. intuition discriminate.
Defined.

(** A tool name that is a number. *)
Lemma tools_call_invalid_params_witness :
  let c := ready (registerAll [math] []) in
  exists r,
    handle c (request 3 "tools/call" (Some (JObject [("name", JNumber 5)]))) []
      = (Some r, c, [], []) /\
    Response_JSONRPC r = "2.0" /\
    Response_ID r = Some (JNumber 3) /\
    Response_Result r = None /\
    Response_Error r =
      Some {| Error_Code := (-32602)%Z;
              Error_Message := "Invalid tool call parameters";
              Error_Data := Some "json: cannot unmarshal number into Go struct field ToolCallRequest.name of type string" |}.
Proof.
  intros c.
  refine (@tools_call_invalid_params _ _ _ unmarshalInitialize unmarshalToolCall
            unmarshalResourceRead c
            (request 3 "tools/call" (Some (JObject [("name", JNumber 5)]))) []
            (JObject [("name", JNumber 5)]) _ eq_refl eq_refl _ eq_refl eq_refl).
  discriminate.
Defined.

(** Requests of every kind, and a Notification that is not the handshake. *)
Lemma no_handshake_no_provider_call_witness :
  let c := awaiting (registerAll [math; pingA] [docs]) in
  let incoming :=
    [ReadOk (request 1 "initialize" (Some initializeParams));
     ReadOk (request 2 "tools/list" None);
     ReadOk (request 3 "tools/call" (Some (callParams "ping")));
     ReadOk (notification "notifications/cancelled");
     ReadOk (request 4 "resources/read" (Some (readParams "doc://readme")))] in
  (exists conn1, loop incoming c socket [] = (c, conn1, [], [])) /\
  (exists conn1,
     serve (registerAll [math; pingA] [docs]) (Some socket) incoming []
       = (Some (c, conn1), [], [])).
Proof.
  intros c incoming.
  refine (@no_handshake_no_provider_call _ _ _ unmarshalInitialize unmarshalToolCall
            unmarshalResourceRead incoming c socket [] eq_refl _).
  cbn. intros m [<-|[<-|[<-|[<-|[<-|[]]]]]]; reflexivity.
Defined.

(** tools/call without params: over providers that list no tool with an
    empty name, and over a registry whose second provider lists one and
    fails when invoked. *)
Lemma tools_call_without_params_witness :
  let c := ready (registerAll [math; pingA] []) in
  let anonymous : ToolProvider object world :=
    {| ListTools := fun w => (inr [tool ""], "anonymous.ListTools" :: w);
       CallTool := fun _ w => (inl "tool name required", "anonymous.CallTool" :: w) |} in
  let zero := {| ToolCallRequest_Name := ""; ToolCallRequest_Arguments := None |} in
  (exists r,
     handle c (request 8 "tools/call" None) []
       = (Some r, c, ["A.ListTools"; "math.ListTools"],
          [CallListTools 0; CallListTools 1]) /\
     Response_JSONRPC r = "2.0" /\
     Response_ID r = Some (JNumber 8) /\
     Response_Result r = None /\
     Response_Error r =
       Some {| Error_Code := (-32601)%Z;
               Error_Message := "Tool not found: ";
               Error_Data := None |}) /\
  (exists r,
     handle (ready (registerAll [math; anonymous; pingA] []))
         (request 9 "tools/call" None) []
       = (Some r, ready (registerAll [math; anonymous; pingA] []),
          ["anonymous.CallTool"; "anonymous.ListTools"; "math.ListTools"],
          [CallListTools 0; CallListTools 1; CallCallTool 1 zero]) /\
     Response_JSONRPC r = "2.0" /\
     Response_ID r = Some (JNumber 9) /\
     (Response_Result r = None /\
      Response_Error r =
        Some {| Error_Code := (-32603)%Z;
                Error_Message := "Tool execution failed";
                Error_Data := Some "tool name required" |})).
Proof.
  intros c anonymous zero. split.
  - refine (proj1 (@tools_call_without_params _ _ _ unmarshalInitialize unmarshalToolCall
                     unmarshalResourceRead c (request 8 "tools/call" None) []
                     eq_refl eq_refl _ eq_refl) _ _); [discriminate|].
    eapply Skipped_cons; [reflexivity | cbn; intuition discriminate |].
    eapply Skipped_cons; [reflexivity | cbn; intuition discriminate |].
    apply Skipped_nil.
  - refine (proj2 (@tools_call_without_params _ _ _ unmarshalInitialize unmarshalToolCall
                     unmarshalResourceRead
                     (ready (registerAll [math; anonymous; pingA] []))
                     (request 9 "tools/call" None) []
                     eq_refl eq_refl _ eq_refl)
              [math] anonymous [pingA] ["math.ListTools"] [tool ""]
              ["anonymous.ListTools"; "math.ListTools"] (inl "tool name required")
              ["anonymous.CallTool"; "anonymous.ListTools"; "math.ListTools"]
              eq_refl _ eq_refl _ eq_refl); [discriminate | | cbn; auto].
    eapply Skipped_cons; [reflexivity | cbn; intuition discriminate |].
    apply Skipped_nil.
Defined.

(** A call served by the second of three providers. *)
Lemma tools_call_invokes_first_offer_witness :
  let c := ready (registerAll [math; pingA; pingB] []) in
  let req := {| ToolCallRequest_Name := "ping"; ToolCallRequest_Arguments := Some [] |} in
  exists r log,
    handle c (request 4 "tools/call" (Some (callParams "ping"))) []
      = (Some r, c, ["A.CallTool"; "A.ListTools"; "math.ListTools"], log) /\
    Response_JSONRPC r = "2.0" /\
    Response_ID r = Some (JNumber 4) /\
    Response_Result r = Some (ResultToolCall (text "pong from A")) /\
    Response_Error r = None /\
    log = [CallListTools 0; CallListTools 1; CallCallTool 1 req] /\
    (forall call, In call log -> callIndex call <= 1).
Proof.
  intros c req.
  refine (@tools_call_invokes_first_offer _ _ _ unmarshalInitialize unmarshalToolCall
            unmarshalResourceRead c
            (request 4 "tools/call" (Some (callParams "ping"))) []
            (callParams "ping") req [math] pingA [pingB]
            ["math.ListTools"] [tool "ping"] ["A.ListTools"; "math.ListTools"]
            (text "pong from A") ["A.CallTool"; "A.ListTools"; "math.ListTools"]
            eq_refl eq_refl _ eq_refl eq_refl eq_refl _ eq_refl _ eq_refl).
  - discriminate.
  - eapply Skipped_cons; [reflexivity | cbn; intuition discriminate |].
    apply Skipped_nil.
  - cbn. auto.
Defined.


(** Two resource providers; then a registry whose second provider cannot
    list. *)
Lemma resources_list_concatenates_or_fails_witness :
  (exists r allResources,
     handle (ready (registerAll [math] [docs; mirror])) (request 5 "resources/list" None) []
       = (Some r, ready (registerAll [math] [docs; mirror]),
          ["mirror.ListResources"; "docs.ListResources"],
          [CallListResources 0; CallListResources 1]) /\
     Response_JSONRPC r = "2.0" /\
     Response_ID r = Some (JNumber 5) /\
     Response_Result r = Some (ResultResources allResources) /\
     Response_Error r = None /\
     allResources = [resource "doc://readme"; resource "doc://guide";
                     resource "doc://guide"; resource "doc://notes"] /\
     length allResources = 2 + 2) /\
  exists r,
    handle (ready (registerAll [math] [docs; unlisted; mirror]))
        (request 6 "resources/list" None) []
      = (Some r, ready (registerAll [math] [docs; unlisted; mirror]),
         ["unlisted.ListResources"; "docs.ListResources"],
         [CallListResources 0; CallListResources 1]) /\
    Response_JSONRPC r = "2.0" /\
    Response_ID r = Some (JNumber 6) /\
    Response_Result r = None /\
    Response_Error r =
      Some {| Error_Code := (-32603)%Z;
              Error_Message := "Failed to list resources";
              Error_Data := Some "index unavailable" |}.
Proof.
  assert (Hid : forall n : Z, Some (JNumber n) <> None) by discriminate.
  split.
  - refine (proj1 (@resources_list_concatenates_or_fails _ _ _ unmarshalInitialize
                     unmarshalToolCall unmarshalResourceRead [math] [docs; mirror]
                     (ready (registerAll [math] [docs; mirror]))
                     (request 5 "resources/list" None) []
                     eq_refl eq_refl eq_refl (Hid 5%Z))
              [[resource "doc://readme"; resource "doc://guide"];
               [resource "doc://guide"; resource "doc://notes"]]
              ["mirror.ListResources"; "docs.ListResources"] _).
    eapply ListedResources_cons; [reflexivity|].
    eapply ListedResources_cons; [reflexivity|].
    apply ListedResources_nil.
  - refine (proj2 (@resources_list_concatenates_or_fails _ _ _ unmarshalInitialize
                     unmarshalToolCall unmarshalResourceRead [math]
                     [docs; unlisted; mirror]
                     (ready (registerAll [math] [docs; unlisted; mirror]))
                     (request 6 "resources/list" None) []
                     eq_refl eq_refl eq_refl (Hid 6%Z))
              [docs] unlisted [mirror]
              [[resource "doc://readme"; resource "doc://guide"]]
              ["docs.ListResources"] "index unavailable"
              ["unlisted.ListResources"; "docs.ListResources"] eq_refl _ eq_refl).
    eapply ListedResources_cons; [reflexivity|]. apply ListedResources_nil.
Defined.

(** A URI two providers list is read from the first; a URI only the
    unreachable provider lists gives the read error; an unknown URI is not
    found. *)
Lemma resources_read_dispatch_witness :
  let c := ready (registerAll [math] [unlisted; docs; mirror]) in
  (exists r,
     handle c (request 7 "resources/read" (Some (readParams "doc://guide"))) []
       = (Some r, c,
          ["docs.ReadResource"; "docs.ListResources"; "unlisted.ListResources"],
          [CallListResources 0; CallListResources 1;
           CallReadResource 1 "doc://guide"]) /\
     Response_JSONRPC r = "2.0" /\
     Response_ID r = Some (JNumber 7) /\
     (Response_Result r = Some (ResultResourceRead (contents "doc://guide" "from docs")) /\
      Response_Error r = None)) /\
  (exists r,
     handle c (request 8 "resources/read" (Some (readParams "doc://notes"))) []
       = (Some r, c,
          ["mirror.ReadResource"; "mirror.ListResources"; "docs.ListResources";
           "unlisted.ListResources"],
          [CallListResources 0; CallListResources 1; CallListResources 2;
           CallReadResource 2 "doc://notes"]) /\
     Response_JSONRPC r = "2.0" /\
     Response_ID r = Some (JNumber 8) /\
     (Response_Result r = None /\
      Response_Error r =
        Some {| Error_Code := (-32603)%Z;
                Error_Message := "Resource read failed";
                Error_Data := Some "mirror unreachable" |})) /\
  (exists r,
     handle c (request 9 "resources/read" (Some (readParams "doc://none"))) []
       = (Some r, c,
          ["mirror.ListResources"; "docs.ListResources"; "unlisted.ListResources"],
          [CallListResources 0; CallListResources 1; CallListResources 2]) /\
     Response_JSONRPC r = "2.0" /\
     Response_ID r = Some (JNumber 9) /\
     Response_Result r = None /\
     Response_Error r =
       Some {| Error_Code := (-32601)%Z;
               Error_Message := "Resource not found: doc://none";
               Error_Data := None |}).
Proof.
  intros c.
  assert (Hid : forall n : Z, Some (JNumber n) <> None) by discriminate.
  assert (Hunlisted : forall uri w,
             SkippedResources uri [unlisted] w ("unlisted.ListResources" :: w)).
  { intros uri w. eapply SkippedResources_cons; [reflexivity|cbn; auto|].
    apply SkippedResources_nil. }
  split; [|split].
  - refine (proj2 (proj2 (@resources_read_dispatch _ _ _ unmarshalInitialize
                     unmarshalToolCall unmarshalResourceRead c
                     (request 7 "resources/read" (Some (readParams "doc://guide"))) []
                     (readParams "doc://guide") eq_refl eq_refl (Hid 7%Z) eq_refl))
              "doc://guide" [unlisted] docs [mirror] _ _ _
              (inr (contents "doc://guide" "from docs")) _
              eq_refl eq_refl (Hunlisted _ _) eq_refl _ eq_refl).
    cbn. auto.
  - refine (proj2 (proj2 (@resources_read_dispatch _ _ _ unmarshalInitialize
                     unmarshalToolCall unmarshalResourceRead c
                     (request 8 "resources/read" (Some (readParams "doc://notes"))) []
                     (readParams "doc://notes") eq_refl eq_refl (Hid 8%Z) eq_refl))
              "doc://notes" [unlisted; docs] mirror [] _ _ _
              (inl "mirror unreachable") _
              eq_refl eq_refl _ eq_refl _ eq_refl).
    + eapply SkippedResources_cons; [reflexivity|cbn; auto|].
      eapply SkippedResources_cons; [reflexivity|cbn; intuition discriminate|].
      apply SkippedResources_nil.
    + cbn. auto.
  - refine (proj1 (proj2 (@resources_read_dispatch _ _ _ unmarshalInitialize
                     unmarshalToolCall unmarshalResourceRead c
                     (request 9 "resources/read" (Some (readParams "doc://none"))) []
                     (readParams "doc://none") eq_refl eq_refl (Hid 9%Z) eq_refl))
              "doc://none" _ eq_refl _).
    eapply SkippedResources_cons; [reflexivity|cbn; auto|].
    eapply SkippedResources_cons; [reflexivity|cbn; intuition discriminate|].
    eapply SkippedResources_cons; [reflexivity|cbn; intuition discriminate|].
    apply SkippedResources_nil.
Defined.

(** The handshake without an initialize Request, then a listing. *)
Lemma handshake_opens_gate_witness :
  let incoming := [ReadOk (request 1 "tools/list" None);
                   ReadOk (notification "initialized");
                   ReadOk (request 2 "tools/list" None)] in
  Connection_initialized
    (fst (fst (fst (loop incoming (awaiting (registerAll [math] [])) socket []))))
    = true.
Proof.
  intros incoming.
  refine (@handshake_opens_gate _ _ _ unmarshalInitialize unmarshalToolCall
            unmarshalResourceRead incoming (awaiting (registerAll [math] []))
            socket [] eq_refl _).
  exists (notification "initialized"). split; [cbn; auto|reflexivity].
Defined.

(** A stream with the handshake in the middle. *)
Lemma session_state_over_stream_witness :
  let c := awaiting (registerAll [math] []) in
  let incoming := [ReadOk (request 1 "initialize" None);
                   ReadOk (notification "initialized");
                   ReadOk (request 2 "tools/list" None)] in
  let c1 := fst (fst (fst (loop incoming c socket []))) in
  Connection_server c1 = Connection_server c /\
  (Connection_initialized c = true -> Connection_initialized c1 = true) /\
  (Connection_initialized c1 = true ->
   Connection_initialized c = true \/
   exists message, In message (readable incoming) /\ isHandshake message = true).
Proof.
  intros c incoming.
  exact (@session_state_over_stream _ _ _ unmarshalInitialize unmarshalToolCall
           unmarshalResourceRead incoming c socket []).
Defined.

End CoverageRuns.

(** * Runs of the math tools *)

Module MathRuns.

Import MathTools.

(** add with both operands, as floats. *)
Lemma math_error_iff_operand_not_numeric_witness :
  let request := {| ToolCallRequest_Name := "add";
                    ToolCallRequest_Arguments := MathDemo.arguments 5 3 |} in
  exists r,
    MathDemo.CallTool request = inr (Some r) /\
    (ToolCallResponse_IsError r = false <->
     numericArg MathDemo.ParseFloat (MathDemo.arguments 5 3) "a" /\
     numericArg MathDemo.ParseFloat (MathDemo.arguments 5 3) "b") /\
    (forall err,
       getNumberArg (fun n => n) MathDemo.ParseFloat (MathDemo.arguments 5 3) "a" = inl err ->
       r = errorResponse err).
Proof.
  intros request.
  refine (@math_error_iff_operand_not_numeric Z Z.add Z.mul Z.pow (fun n => n)
            MathDemo.ParseFloat MathDemo.format2f request _).
  cbn. auto.
Defined.

(** Scenario 3 of the specification behind the engine. *)
Lemma engine_serves_math_tools_witness :
  let c := {| Connection_server := registerAll [MathDemo.provider] [];
              Connection_initialized := true |} in
  let args := [("a", VFloat64 5%Z); ("b", VFloat64 3%Z)] in
  let req := {| ToolCallRequest_Name := "add"; ToolCallRequest_Arguments := Some args |} in
  exists response r,
    MathDemo.CallTool req = inr (Some response) /\
    handleMessage MathDemo.unmarshalInitialize MathDemo.unmarshalToolCall
        MathDemo.unmarshalResourceRead c (MathDemo.call 3 "add" args) []
      = (Some r, c, [], [CallListTools 0; CallCallTool 0 req]) /\
    Response_JSONRPC r = "2.0" /\
    Response_ID r = Some (VFloat64 3%Z) /\
    Response_Result r = Some (ResultToolCall (Some response)) /\
    Response_Error r = None.
Proof.
  intros c args req.
  refine (proj1 (@engine_serves_math_tools MathDemo.value (list string) Z
                   Z.add Z.mul Z.pow (fun n => n) MathDemo.ParseFloat MathDemo.format2f
                   MathDemo.unmarshalInitialize MathDemo.unmarshalToolCall
                   MathDemo.unmarshalResourceRead [] [] c
                   (MathDemo.call 3 "add" args) []
                   (VMap [("name", VString "add"); ("arguments", VMap args)]) req
                   eq_refl eq_refl eq_refl _ eq_refl eq_refl) _).
  - discriminate.
  - cbn. auto.
Defined.

(** What the tools answer on integers, numeric strings and bad operands. *)
Example math_answers :
  MathDemo.CallTool {| ToolCallRequest_Name := "add";
                       ToolCallRequest_Arguments := MathDemo.arguments 5 3 |}
    = inr (Some {| ToolCallResponse_Content := [textContent "5.00 + 3.00 = 8.00"];
                   ToolCallResponse_IsError := false |}) /\
  MathDemo.CallTool {| ToolCallRequest_Name := "power";
                       ToolCallRequest_Arguments :=
                         Some [("base", VInt 2); ("exponent", VString "10")] |}
    = inr (Some {| ToolCallResponse_Content := [textContent "2.00^10.00 = 1024.00"];
                   ToolCallResponse_IsError := false |}) /\
  MathDemo.CallTool {| ToolCallRequest_Name := "add";
                       ToolCallRequest_Arguments := Some [("b", VFloat64 3%Z)] |}
    = inr (Some (errorResponse "missing required argument: a")) /\
  MathDemo.CallTool {| ToolCallRequest_Name := "add";
                       ToolCallRequest_Arguments :=
                         Some [("a", VString "five"); ("b", VBool true)] |}
    = inr (Some (errorResponse "invalid number format for a: five")) /\
  MathDemo.CallTool {| ToolCallRequest_Name := "multiply";
                       ToolCallRequest_Arguments :=
                         Some [("a", VFloat64 2%Z); ("b", VSlice [])] |}
    = inr (Some (errorResponse
                   "invalid argument type for b: expected number, got []interface {}")) /\
  MathDemo.CallTool {| ToolCallRequest_Name := "divide";
                       ToolCallRequest_Arguments := MathDemo.arguments 6 3 |}
    = inr (Some (errorResponse "Unknown tool: divide")).
Proof. repeat split. Qed.

End MathRuns.

(** * Runs of the search tool and of the providers together *)

Module ProviderRuns.

Import MathTools SearchTools SearchDemo.

(** The empty query of the tests. *)
Lemma web_search_rejects_bad_query_witness :
  SearchDemo.CallTool (mock (inr golang))
      {| ToolCallRequest_Name := "web_search";
         ToolCallRequest_Arguments := Some [("query", VString "")] |} []
    = (inr (Some (SearchTools.errorResponse "Missing or invalid 'query' parameter")), []).
Proof.
  refine (@web_search_rejects_bad_query Z (fun n => n) parseInt parseInt string
            (fun t => t) world marshalResults (mock (inr golang))
            (Some [("query", VString "")]) [] _).
  intros text H. cbn in H. now injection H as <-.
Defined.


(** Two results: a summary, two items and the raw JSON. *)
Lemma web_search_response_shape_witness :
  let args : option (MathTools.object Z) :=
    Some [("query", VString "golang programming"); ("max_results", VInt 2)] in
  exists r,
    SearchDemo.webSearch (mock (inr golang)) args []
      = (inr (Some r), [("golang programming", 2%Z)]) /\
    ToolCallResponse_IsError r = false /\
    length (ToolCallResponse_Content r) = 4 /\
    Forall (fun item => Content_Type item = "text") (ToolCallResponse_Content r).
Proof.
  intros args.
  refine (@web_search_response_shape Z (fun n => n) parseInt parseInt string
            (fun t => t) world marshalResults (mock (inr golang)) args []
            "golang programming" (inr golang) [("golang programming", 2%Z)]
            eq_refl _ eq_refl).
  discriminate.
Defined.

(** The math provider and the search tool over a failing searcher, behind
    the engine: the failed search comes back as a result. *)
Lemma tools_call_never_internal_error_witness :
  let searchTool :=
    NewSearchTool (fun n : Z => n) parseInt parseInt (fun t : string => t)
      marshalResults (mock (inl "connection refused")) in
  let mathProvider :=
    @NewMathToolProvider Z Z.add Z.mul Z.pow (fun n => n) MathDemo.ParseFloat
      MathDemo.format2f world in
  let c := {| Connection_server := registerAll [mathProvider; searchTool] [];
              Connection_initialized := true |} in
  let message := MathDemo.call 5 "web_search" [("query", VString "golang")] in
  exists r,
    fst (fst (fst (handleMessage MathDemo.unmarshalInitialize MathDemo.unmarshalToolCall
                     MathDemo.unmarshalResourceRead c message []))) = Some r /\
    ((exists response,
        Response_Result r = Some (ResultToolCall response) /\ Response_Error r = None) \/
     (Response_Result r = None /\
      Response_Error r =
        Some {| Error_Code := (-32601)%Z;
                Error_Message := "Tool not found: web_search";
                Error_Data := None |})).
Proof.
  intros searchTool mathProvider c message.
  refine (@tools_call_never_internal_error MathDemo.value (MathTools.object Z) world
            MathDemo.unmarshalInitialize MathDemo.unmarshalToolCall
            MathDemo.unmarshalResourceRead c message []
            (VMap [("name", VString "web_search");
                   ("arguments", VMap [("query", VString "golang")])])
            {| ToolCallRequest_Name := "web_search";
               ToolCallRequest_Arguments := Some [("query", VString "golang")] |}
            _ eq_refl eq_refl _ eq_refl eq_refl).
  - cbn. constructor; [|constructor; [|constructor]].
    + intros request w0. cbn.
      unfold MathToolProvider_CallTool, handleAdd, handleMultiply, handlePower.
      repeat (break_match; cbn); do 2 eexists; reflexivity.
    + intros request w0. cbn.
      unfold SearchTool_CallTool, SearchTools.webSearch, healthCheck.
      repeat (break_match; cbn); do 2 eexists; reflexivity.
  - discriminate.
Defined.

(** The answers of the search tool in the cases of its tests. *)
Example search_answers :
  SearchDemo.CallTool (mock (inl "timeout"))
      {| ToolCallRequest_Name := "web_search";
         ToolCallRequest_Arguments := Some [("query", VString "test query")] |} []
    = (inr (Some (SearchTools.errorResponse "Search failed: timeout")),
       [("test query", 10%Z)]) /\
  SearchDemo.CallTool (mock (inl "timeout"))
      {| ToolCallRequest_Name := "search_health_check";
         ToolCallRequest_Arguments := Some [] |} []
    = (inr (Some (SearchTools.errorResponse
                    "Search service health check failed: timeout")), []) /\
  SearchDemo.CallTool (mock (inr golang))
      {| ToolCallRequest_Name := "unknown_tool";
         ToolCallRequest_Arguments := Some [] |} []
    = (inr (Some (SearchTools.errorResponse "Unknown search tool: unknown_tool")), []) /\
  snd (SearchDemo.CallTool (mock (inr golang))
         {| ToolCallRequest_Name := "web_search";
            ToolCallRequest_Arguments :=
              Some [("query", VString "test"); ("max_results", VString "invalid");
                    ("safe_search", VString "invalid")] |} [])
    = [("test", 10%Z)] /\
  toInt (fun n : Z => n) parseInt parseInt (VBool true)
    = inl "cannot convert bool to int".
Proof. repeat split. Qed.

End ProviderRuns.
